(** * vat_global: the page-metadata pipeline (One.py) and the exchange-rate
  pipeline (Two.py), embedded shallowly and checked against the
  specification.

  Python values are modelled as follows.
  - [str] is [string]; characters are 8-bit (code points U+0000..U+00FF).
  - [int] is [Z].
  - a computation that may raise is a [result]: [Ok v] or [Raise e] with
    the class of the exception raised.
  - attributes of [self] are fields of a record passed explicitly.
  - the clock and the network are read through explicit arguments.

  Text with a character above U+00FF is outside the model. It matters for
  the validator of One.py: under [IGNORECASE] the letter [s] of its pattern
  also matches U+017F, so the program accepts an input such as [http],
  U+017F, [://example.com], which [urlsplit] reads without scheme and
  network location. *)

From stdpp Require Import base option list gmap strings.
From Stdlib Require Import ZArith Lia Ascii String DecimalString QArith.

Local Open Scope Z_scope.

(** ** Python basics *)
Module Py.

(** The exception classes the two programs can meet. *)
Inductive exc_class : Set :=
| BaseException | Exception | LookupError | IndexError | KeyError
| ValueError | TypeError | OSError
| RequestException | HTTPError | ConnectionError | Timeout
| ConnectTimeout | TooManyRedirects | InvalidURL
| LxmlError | ParserError.

#[global] Instance exc_class_eq_dec : EqDecision exc_class.
Proof. solve_decision. Defined.

(** Direct base classes, as declared in Python, requests and lxml. *)
Definition bases (c : exc_class) : list exc_class :=
  match c with
  | BaseException => []
  | Exception => [BaseException]
  | LookupError | ValueError | TypeError | OSError | LxmlError => [Exception]
  | IndexError | KeyError => [LookupError]
  | RequestException => [OSError]
  | HTTPError | ConnectionError | Timeout | TooManyRedirects =>
      [RequestException]
  | ConnectTimeout => [ConnectionError; Timeout]
  | InvalidURL => [RequestException; ValueError]
  | ParserError => [LxmlError]
  end.

(** [issubclass c d], by walking up the class hierarchy (its depth is
    below the fuel given by [issubclass]). *)
Fixpoint issubclass_upto (fuel : nat) (c d : exc_class) : bool :=
  bool_decide (c = d) ||
  match fuel with
  | O => false
  | S fuel' => existsb (fun b => issubclass_upto fuel' b d) (bases c)
  end.

Definition issubclass : exc_class -> exc_class -> bool := issubclass_upto 6.

(** Truth value of a class object: a class defines neither [__bool__] nor
    [__len__], so it is always true. *)
Definition truthy_class (c : exc_class) : bool := true.

(** [a or b] on class objects: [a] when [a] is true, [b] otherwise. *)
Definition or_class (a b : exc_class) : exc_class :=
  if truthy_class a then a else b.

Inductive result (A : Type) : Type :=
| Ok (a : A)
| Raise (e : exc_class).
Arguments Ok {A} a.
Arguments Raise {A} e.

#[global] Instance result_ret : MRet result := fun A a => Ok a.
#[global] Instance result_bind : MBind result := fun A B f m =>
  match m with
  | Ok a => f a
  | Raise e => Raise e
  end.

(** [try: body except cls: handler] *)
Definition try_except {A} (body : result A) (cls : exc_class)
    (handler : result A) : result A :=
  match body with
  | Ok a => Ok a
  | Raise e => if issubclass e cls then handler else Raise e
  end.

(** [len(l)] *)
Definition len {A} (l : list A) : Z := Z.of_nat (List.length l).

(** [l[i]] on a list: a negative index counts from the end, an index out
    of range raises [IndexError]. *)
Definition getitem {A} (l : list A) (i : Z) : result A :=
  let j := if i <? 0 then i + len l else i in
  if (j <? 0) || (len l <=? j) then Raise IndexError
  else match l !! Z.to_nat j with
       | Some x => Ok x
       | None => Raise IndexError
       end.

(** [str(n)] for an [int]. *)
Definition str_of_int (n : Z) : string := NilZero.string_of_int (Z.to_int n).

Fixpoint zeros (n : nat) : string :=
  match n with
  | O => ""
  | S n' => String "0" (zeros n')
  end.

(** [format(n, '02d')]: the sign, then the digits zero-filled so that
    the whole is at least two characters wide. *)
Definition format_02d (n : Z) : string :=
  let digits := str_of_int (Z.abs n) in
  let sign := if n <? 0 then "-" else "" in
  let fill := (2 - String.length sign - String.length digits)%nat in
  sign +:+ zeros fill +:+ digits.

End Py.
Export Py.

(** ** String methods of Python's [str] *)
Module Str.

Definition code (c : ascii) : Z := Z.of_nat (nat_of_ascii c).

Definition in_range (lo hi : Z) (c : ascii) : bool :=
  (lo <=? code c) && (code c <=? hi).

(** [c in s] for a character [c]. *)
Fixpoint contains_char (c : ascii) (s : string) : bool :=
  match s with
  | EmptyString => false
  | String x s' => Ascii.eqb x c || contains_char c s'
  end.

(** [str.isspace] on one character (code points below 256). *)
Definition isspace (c : ascii) : bool :=
  in_range 9 13 c || in_range 28 32 c || (code c =? 133) || (code c =? 160).

Definition is_digit (c : ascii) : bool := in_range 48 57 c.

(** [c.isascii() and c.isalpha()] *)
Definition is_ascii_alpha (c : ascii) : bool :=
  in_range 65 90 c || in_range 97 122 c.

(** [str.lower] on one character (code points below 256): A-Z and the
    Latin-1 capitals move 32 places up. *)
Definition lower_char (c : ascii) : ascii :=
  if in_range 65 90 c || in_range 192 214 c || in_range 216 222 c
  then ascii_of_nat (nat_of_ascii c + 32)
  else c.

Fixpoint lower (s : string) : string :=
  match s with
  | EmptyString => EmptyString
  | String c s' => String (lower_char c) (lower s')
  end.

(** [s.find(c)]: the index of the first [c], or -1. *)
Fixpoint find (c : ascii) (s : string) : Z :=
  match s with
  | EmptyString => -1
  | String x s' =>
      if Ascii.eqb x c then 0
      else let i := find c s' in if i <? 0 then -1 else i + 1
  end.

(** [s[:n]] and [s[n:]] for [n >= 0]. *)
Fixpoint take (n : nat) (s : string) : string :=
  match n, s with
  | S n', String c s' => String c (take n' s')
  | _, _ => EmptyString
  end.

Fixpoint drop (n : nat) (s : string) : string :=
  match n, s with
  | S n', String _ s' => drop n' s'
  | _, _ => s
  end.

Fixpoint forallb (p : ascii -> bool) (s : string) : bool :=
  match s with
  | EmptyString => true
  | String c s' => p c && forallb p s'
  end.

(** [s.lstrip(chars)], [s.rstrip(chars)], [s.strip(chars)], with the set
    of characters given as a predicate. *)
Fixpoint lstrip (p : ascii -> bool) (s : string) : string :=
  match s with
  | String c s' => if p c then lstrip p s' else s
  | EmptyString => EmptyString
  end.

Fixpoint rstrip (p : ascii -> bool) (s : string) : string :=
  match s with
  | String c s' =>
      match rstrip p s' with
      | EmptyString => if p c then EmptyString else String c EmptyString
      | r => String c r
      end
  | EmptyString => EmptyString
  end.

Definition strip (p : ascii -> bool) (s : string) : string :=
  rstrip p (lstrip p s).

(** [s.replace(c, "")] for each character [c] that satisfies [p]. *)
Fixpoint remove (p : ascii -> bool) (s : string) : string :=
  match s with
  | String c s' => if p c then remove p s' else String c (remove p s')
  | EmptyString => EmptyString
  end.

(** [s.partition(c)]: the parts before and after the first [c], when there
    is one. *)
Fixpoint partition (c : ascii) (s : string) : option (string * string) :=
  match s with
  | EmptyString => None
  | String x s' =>
      if Ascii.eqb x c then Some (EmptyString, s')
      else match partition c s' with
           | Some (a, b) => Some (String x a, b)
           | None => None
           end
  end.

(** [s.rpartition(c)]: the parts before and after the last [c]. *)
Fixpoint rpartition (c : ascii) (s : string) : option (string * string) :=
  match s with
  | EmptyString => None
  | String x s' =>
      match rpartition c s' with
      | Some (a, b) => Some (String x a, b)
      | None => if Ascii.eqb x c then Some (EmptyString, s') else None
      end
  end.

(** [s.split(c)] *)
Fixpoint split (c : ascii) (s : string) : list string :=
  match s with
  | EmptyString => [EmptyString]
  | String x s' =>
      if Ascii.eqb x c then EmptyString :: split c s'
      else match split c s' with
           | seg :: segs => String x seg :: segs
           | [] => [String x EmptyString]
           end
  end.

(** [sep.join(l)] *)
Fixpoint join (sep : string) (l : list string) : string :=
  match l with
  | [] => EmptyString
  | [x] => x
  | x :: l' => x +:+ sep +:+ join sep l'
  end.

(** [s.startswith(p)] *)
Fixpoint startswith (p s : string) : bool :=
  match p, s with
  | EmptyString, _ => true
  | String a p', String b s' => Ascii.eqb a b && startswith p' s'
  | String _ _, EmptyString => false
  end.

(** [needle in hay] for strings. *)
Fixpoint contains (needle hay : string) : bool :=
  startswith needle hay ||
  match hay with
  | EmptyString => false
  | String _ hay' => contains needle hay'
  end.

End Str.

(** ** Regular expressions: the part of Python's [re] that [URL_PATTERN] uses

    Only the existence of a match matters to the program
    ([re.match(...) is not None]), so the matcher explores every way to
    match, as the backtracking engine does, and capture groups are left
    out. [IGNORECASE] is carried by the character classes. *)
Module Re.

Inductive regex : Type :=
| Char (p : ascii -> bool)      (* one character of a class *)
| Empty
| Seq (r1 r2 : regex)
| Alt (r1 r2 : regex)           (* r1|r2 *)
| Repeat (r : regex) (lo : nat) (hi : option nat)  (* r{lo,hi}; r+ is r{1,} *)
| Lookahead (r : regex)         (* (?=r) *)
| Bol                           (* ^ *)
| Eol.                          (* $ *)

(** [$] without [MULTILINE]: at the end of the string, or just before a
    newline that ends the string. *)
Definition at_eol (s : string) : bool :=
  match s with
  | EmptyString => true
  | String c EmptyString => Ascii.eqb c "010"
  | _ => false
  end.

(** [matches r pos s k]: can [r] match a prefix of [s], the text that
    starts at offset [pos], so that [k] accepts the offset and the text that
    remain. An unbounded repetition needs at most [lo + length s] rounds:
    beyond [lo], a round that consumes nothing can be dropped. *)
Fixpoint matches (r : regex) (pos : nat) (s : string)
    (k : nat -> string -> bool) {struct r} : bool :=
  match r with
  | Char p =>
      match s with
      | String c s' => if p c then k (S pos) s' else false
      | EmptyString => false
      end
  | Empty => k pos s
  | Seq r1 r2 => matches r1 pos s (fun pos' s' => matches r2 pos' s' k)
  | Alt r1 r2 => if matches r1 pos s k then true else matches r2 pos s k
  | Repeat r' lo hi =>
      (fix rounds (fuel count pos : nat) (s : string) {struct fuel} : bool :=
         if (if (lo <=? count)%nat then k pos s else false) then true
         else
           match fuel with
           | O => false
           | S fuel' =>
               matches r' pos s (fun pos' s' => rounds fuel' (S count) pos' s')
           end)
        (match hi with
         | Some h => h
         | None => (lo + String.length s)%nat
         end) O pos s
  | Lookahead r' =>
      if matches r' pos s (fun _ _ => true) then k pos s else false
  | Bol => if (pos =? 0)%nat then k pos s else false
  | Eol => if at_eol s then k pos s else false
  end.

(** [re.match(r, s) is not None] *)
Definition re_match (r : regex) (s : string) : bool :=
  matches r 0 s (fun _ _ => true).

(** A literal character under [IGNORECASE]. *)
Definition lit (c : ascii) : regex :=
  Char (fun x => Ascii.eqb (Str.lower_char x) (Str.lower_char c)).

Fixpoint lits (s : string) : regex :=
  match s with
  | EmptyString => Empty
  | String c s' => Seq (lit c) (lits s')
  end.

Definition opt (r : regex) : regex := Repeat r 0 (Some 1%nat).

(** [[a-z0-9]] under [IGNORECASE] *)
Definition alnum (c : ascii) : bool :=
  Str.in_range 97 122 c || Str.in_range 65 90 c || Str.in_range 48 57 c.

(** [[a-z0-9-]] under [IGNORECASE] *)
Definition alnum_dash (c : ascii) : bool := alnum c || Ascii.eqb c "-".

(** [\w] on a [str] pattern (code points below 256): letters, digits and
    other numeric characters, and the underscore. *)
Definition word (c : ascii) : bool :=
  Str.in_range 48 57 c || Str.in_range 65 90 c || (Str.code c =? 95) ||
  Str.in_range 97 122 c || (Str.code c =? 170) || Str.in_range 178 179 c ||
  (Str.code c =? 181) || Str.in_range 185 186 c || Str.in_range 188 190 c ||
  Str.in_range 192 214 c || Str.in_range 216 246 c || Str.in_range 248 255 c.

(** [\d] (code points below 256) *)
Definition digit (c : ascii) : bool := Str.in_range 48 57 c.

(** [\S] *)
Definition nonspace (c : ascii) : bool := negb (Str.isspace c).

(** [.] without [DOTALL] *)
Definition dot (c : ascii) : bool := negb (Ascii.eqb c "010").

End Re.

(** ** [urllib.parse]: [urlsplit], [urlparse], [urlunparse], [urljoin]

    The functions follow the library (CPython 3.11). The result cache is
    left out, and so is [_checknetloc], which never raises on code points
    below 256. The validation that [_check_bracketed_host] delegates to the
    [ipaddress] module is a parameter, [bracketed_host_ok]. *)
Module Urllib.

Definition uses_relative : list string :=
  [""; "ftp"; "http"; "gopher"; "nntp"; "imap"; "wais"; "file"; "https";
   "shttp"; "mms"; "prospero"; "rtsp"; "rtspu"; "sftp"; "svn"; "svn+ssh";
   "ws"; "wss"]%string.

Definition uses_netloc : list string :=
  [""; "ftp"; "http"; "gopher"; "nntp"; "telnet"; "imap"; "wais"; "file";
   "mms"; "https"; "shttp"; "snews"; "prospero"; "rtsp"; "rtspu"; "rsync";
   "svn"; "svn+ssh"; "sftp"; "nfs"; "git"; "git+ssh"; "ws"; "wss"]%string.

Definition uses_params : list string :=
  [""; "ftp"; "hdl"; "prospero"; "http"; "imap"; "https"; "shttp"; "rtsp";
   "rtspu"; "sip"; "sips"; "mms"; "sftp"; "tel"]%string.

(** [s in l] for a list of strings. *)
Definition in_list (s : string) (l : list string) : bool :=
  existsb (String.eqb s) l.

(** [c in scheme_chars] *)
Definition scheme_char (c : ascii) : bool :=
  Str.in_range 97 122 c || Str.in_range 65 90 c || Str.in_range 48 57 c ||
  Str.contains_char c "+-.".

(** [c in _WHATWG_C0_CONTROL_OR_SPACE] *)
Definition c0_control_or_space (c : ascii) : bool := Str.code c <=? 32.

(** [c in _UNSAFE_URL_BYTES_TO_REMOVE] *)
Definition unsafe_url_byte (c : ascii) : bool :=
  Str.contains_char c (String "009" (String "013" (String "010" EmptyString))).

Record SplitResult : Set := {
  scheme : string;
  netloc : string;
  path : string;
  query : string;
  fragment : string
}.

Record ParseResult : Set := {
  p_scheme : string;
  p_netloc : string;
  p_path : string;
  p_params : string;
  p_query : string;
  p_fragment : string
}.

(** [url.find(c, start)] *)
Definition find_from (c : ascii) (start : nat) (url : string) : Z :=
  let i := Str.find c (Str.drop start url) in
  if i <? 0 then -1 else i + Z.of_nat start.

(** [url.rfind(c)] *)
Fixpoint rfind (c : ascii) (s : string) : Z :=
  match s with
  | EmptyString => -1
  | String x s' =>
      let i := rfind c s' in
      if 0 <=? i then i + 1 else if Ascii.eqb x c then 0 else -1
  end.

Definition _splitnetloc (url : string) (start : nat) : string * string :=
  let delim :=
    fold_left (fun delim c =>
                 let wdelim := find_from c start url in
                 if 0 <=? wdelim then Z.min delim wdelim else delim)
      ["/"; "?"; "#"]%char (Z.of_nat (String.length url)) in
  (Str.take (Z.to_nat delim - start) (Str.drop start url),
   Str.drop (Z.to_nat delim) url).

Definition _splitparams (url : string) : string * string :=
  if Str.contains_char "/" url then
    let i := find_from ";" (Z.to_nat (rfind "/" url)) url in
    if i <? 0 then (url, EmptyString)
    else (Str.take (Z.to_nat i) url, Str.drop (Z.to_nat (i + 1)) url)
  else
    let i := Str.find ";" url in
    (Str.take (Z.to_nat i) url, Str.drop (Z.to_nat (i + 1)) url).

(** [s.partition(c)[2]] and [s.rpartition(c)[2]] *)
Definition after_first (c : ascii) (s : string) : string :=
  match Str.partition c s with
  | Some (_, b) => b
  | None => EmptyString
  end.

Definition after_last (c : ascii) (s : string) : string :=
  match Str.rpartition c s with
  | Some (_, b) => b
  | None => s
  end.

(** [s.partition(c)[0]] *)
Definition before_first (c : ascii) (s : string) : string :=
  match Str.partition c s with
  | Some (a, _) => a
  | None => s
  end.

Definition nonempty (s : string) : bool :=
  match s with
  | EmptyString => false
  | String _ _ => true
  end.

Section Parse.
(** [bracketed_host_ok h] holds when [_check_bracketed_host(h)] returns
    without raising. *)
Variable bracketed_host_ok : string -> bool.

Definition _check_bracketed_netloc (netloc : string) : result unit :=
  let hostname_and_port := after_last "@" netloc in
  match Str.partition "[" hostname_and_port with
  | Some (before_bracket, bracketed) =>
      if nonempty before_bracket then Raise ValueError
      else
        let hostname := before_first "]" bracketed in
        let port := after_first "]" bracketed in
        if nonempty port && negb (Str.startswith ":" port)
        then Raise ValueError
        else if bracketed_host_ok hostname then Ok tt else Raise ValueError
  | None =>
      let hostname := before_first ":" hostname_and_port in
      if bracketed_host_ok hostname then Ok tt else Raise ValueError
  end.

(** The checks that [urlsplit] runs on the network location. *)
Definition check_netloc_brackets (netloc : string) : result unit :=
  let has_open := Str.contains_char "[" netloc in
  let has_close := Str.contains_char "]" netloc in
  if (has_open && negb has_close) || (has_close && negb has_open)
  then Raise ValueError
  else if has_open && has_close then _check_bracketed_netloc netloc
  else Ok tt.

Definition urlsplit (url scheme : string) : result SplitResult :=
  let url := Str.lstrip c0_control_or_space url in
  let scheme := Str.strip c0_control_or_space scheme in
  let url := Str.remove unsafe_url_byte url in
  let scheme := Str.remove unsafe_url_byte scheme in
  let i := Str.find ":" url in
  let '(scheme, url) :=
    if (0 <? i) && Str.forallb Str.is_ascii_alpha (Str.take 1 url)
       && Str.forallb scheme_char (Str.take (Z.to_nat i) url)
    then (Str.lower (Str.take (Z.to_nat i) url), Str.drop (Z.to_nat (i + 1)) url)
    else (scheme, url) in
  '(netloc, url) ←
    (if String.eqb (Str.take 2 url) "//" then
       let '(netloc, url) := _splitnetloc url 2 in
       _ ← check_netloc_brackets netloc;
       Ok (netloc, url)
     else Ok (EmptyString, url));
  let '(url, fragment) :=
    match Str.partition "#" url with
    | Some (a, b) => (a, b)
    | None => (url, EmptyString)
    end in
  let '(url, query) :=
    match Str.partition "?" url with
    | Some (a, b) => (a, b)
    | None => (url, EmptyString)
    end in
  Ok {| scheme := scheme; netloc := netloc; path := url; query := query;
        fragment := fragment |}.

Definition urlparse (url scheme : string) : result ParseResult :=
  r ← urlsplit url scheme;
  let '(url, params) :=
    if in_list (Urllib.scheme r) uses_params && Str.contains_char ";" (path r)
    then _splitparams (path r)
    else (path r, EmptyString) in
  Ok {| p_scheme := Urllib.scheme r; p_netloc := netloc r; p_path := url;
        p_params := params; p_query := query r; p_fragment := fragment r |}.

End Parse.

Definition urlunsplit (scheme netloc url query fragment : string) : string :=
  let url :=
    if nonempty netloc ||
       (nonempty scheme && in_list scheme uses_netloc
        && negb (String.eqb (Str.take 2 url) "//"))
    then
      let url :=
        if nonempty url && negb (String.eqb (Str.take 1 url) "/")
        then "/" +:+ url else url in
      "//" +:+ netloc +:+ url
    else url in
  let url := if nonempty scheme then scheme +:+ ":" +:+ url else url in
  let url := if nonempty query then url +:+ "?" +:+ query else url in
  let url := if nonempty fragment then url +:+ "#" +:+ fragment else url in
  url.

Definition urlunparse (scheme netloc url params query fragment : string)
    : string :=
  let url := if nonempty params then url +:+ ";" +:+ params else url in
  urlunsplit scheme netloc url query fragment.

(** [segments[1:-1] = filter(None, segments[1:-1])] *)
Definition filter_middle (segments : list string) : list string :=
  match segments with
  | first :: rest =>
      match rest with
      | [] => segments
      | _ :: _ =>
          first :: List.filter nonempty (removelast rest)
            ++ match last rest with Some x => [x] | None => [] end
      end
  | [] => []
  end.

(** The loop over [segments] that builds [resolved_path]. *)
Definition resolve_segment (resolved_path : list string) (seg : string)
    : list string :=
  if String.eqb seg ".." then removelast resolved_path
  else if String.eqb seg "." then resolved_path
  else resolved_path ++ [seg].

Definition last_is_dot (segments : list string) : bool :=
  match last segments with
  | Some seg => String.eqb seg "." || String.eqb seg ".."
  | None => false
  end.

Definition last_nonempty (parts : list string) : bool :=
  match last parts with
  | Some seg => nonempty seg
  | None => false
  end.

Section Join.
Variable bracketed_host_ok : string -> bool.

Definition urljoin (base url : string) : result string :=
  if negb (nonempty base) then Ok url
  else if negb (nonempty url) then Ok base
  else
    b ← urlparse bracketed_host_ok base EmptyString;
    u ← urlparse bracketed_host_ok url (p_scheme b);
    let scheme := p_scheme u in
    if negb (String.eqb scheme (p_scheme b)) || negb (in_list scheme uses_relative)
    then Ok url
    else
      let in_uses_netloc := in_list scheme uses_netloc in
      if in_uses_netloc && nonempty (p_netloc u) then
        Ok (urlunparse scheme (p_netloc u) (p_path u) (p_params u)
              (p_query u) (p_fragment u))
      else
        let netloc := if in_uses_netloc then p_netloc b else p_netloc u in
        if negb (nonempty (p_path u)) && negb (nonempty (p_params u)) then
          let query :=
            if negb (nonempty (p_query u)) then p_query b else p_query u in
          Ok (urlunparse scheme netloc (p_path b) (p_params b) query
                (p_fragment u))
        else
          let base_parts := Str.split "/" (p_path b) in
          let base_parts :=
            if last_nonempty base_parts then removelast base_parts
            else base_parts in
          let segments :=
            if String.eqb (Str.take 1 (p_path u)) "/"
            then Str.split "/" (p_path u)
            else filter_middle (base_parts ++ Str.split "/" (p_path u)) in
          let resolved_path := fold_left resolve_segment segments [] in
          let resolved_path :=
            if last_is_dot segments then resolved_path ++ [EmptyString]
            else resolved_path in
          let joined := Str.join "/" resolved_path in
          Ok (urlunparse scheme netloc
                (if nonempty joined then joined else "/"%string)
                (p_params u) (p_query u) (p_fragment u)).

End Join.

(** [SplitResult.hostname]; [None] is Python's [None]. *)
Definition hostname (r : SplitResult) : option string :=
  let hostinfo := after_last "@" (netloc r) in
  let host :=
    match Str.partition "[" hostinfo with
    | Some (_, bracketed) => before_first "]" bracketed
    | None => before_first ":" hostinfo
    end in
  if nonempty host then
    match Str.partition "%" host with
    | Some (h, zone) => Some (Str.lower h +:+ "%" +:+ zone)
    | None => Some (Str.lower host)
    end
  else None.

End Urllib.

(** ** One.py: the page-metadata pipeline *)
Module One.
Import Re Urllib.

(** [URL_PATTERN], group by group as in the source. *)
Definition re_scheme : regex :=
  Seq Bol (Seq (lits "http") (Seq (opt (lit "s")) (lits "://"))).

Definition re_basic_auth : regex :=
  opt (Seq (Repeat (Char word) 1 (Some 255%nat))
        (Seq (lit ":") (Seq (Repeat (Char dot) 1 (Some 255%nat)) (lit "@")))).

Definition re_domain_length : regex :=
  Lookahead (Seq (Repeat (Char nonspace) 0 (Some 253%nat)) (Alt Eol (lit ":"))).

Definition re_label : regex :=
  Seq (Char alnum)
    (opt (Seq (Repeat (Char alnum_dash) 0 (Some 61%nat)) (Char alnum))).

Definition re_subdomains : regex :=
  Repeat (Seq re_label (lit ".")) 1 None.

Definition re_top_level : regex := Repeat (Char alnum) 1 (Some 63%nat).

Definition re_host : regex :=
  Alt (Seq re_domain_length (Seq re_subdomains re_top_level))
      (lits "localhost").

Definition re_port : regex :=
  opt (Seq (lit ":") (Repeat (Char digit) 1 (Some 5%nat))).

Definition re_tail : regex :=
  Seq (Alt (opt (lit "/"))
           (Seq (Char (fun c => Str.contains_char c "/?"))
                (Repeat (Char nonspace) 1 None)))
      Eol.

Definition URL_PATTERN : regex :=
  Seq re_scheme (Seq re_basic_auth (Seq re_host (Seq re_port re_tail))).

Definition _is_valid_url (user_input : string) : bool :=
  re_match URL_PATTERN user_input.

(** An HTTP response as [requests] presents it. The header names are
    compared without regard to case: the map is keyed by the lowered name. *)
Record Response : Type := {
  status_code : Z;
  headers : gmap string string;
  content : string
}.

(** [response.raise_for_status()] *)
Definition raise_for_status (response : Response) : result unit :=
  if (400 <=? status_code response) && (status_code response <? 600)
  then Raise HTTPError
  else Ok tt.

(** [headers[key]] on the case-insensitive dictionary of [requests]. *)
Definition headers_getitem (h : gmap string string) (key : string)
    : result string :=
  match h !! Str.lower key with
  | Some v => Ok v
  | None => Raise KeyError
  end.

(** A node of the tree that [lxml.html] builds: an element with its tag,
    attributes, text before its first child ([None] when there is none) and
    children, or a comment. *)
Inductive node : Set :=
| Element (tag : string) (attrib : list (string * string))
    (text : option string) (children : list node)
| Comment (body : string).

Definition children (n : node) : list node :=
  match n with
  | Element _ _ _ cs => cs
  | Comment _ => []
  end.

Definition tag_is (name : string) (n : node) : bool :=
  match n with
  | Element t _ _ _ => String.eqb t name
  | Comment _ => false
  end.

Definition text (n : node) : option string :=
  match n with
  | Element _ _ t _ => t
  | Comment _ => None
  end.

Fixpoint assoc (name : string) (l : list (string * string)) : option string :=
  match l with
  | [] => None
  | (k, v) :: l' => if String.eqb k name then Some v else assoc name l'
  end.

Definition attr (name : string) (n : node) : option string :=
  match n with
  | Element _ a _ _ => assoc name a
  | Comment _ => None
  end.

(** The descendants of a node, in document order. *)
Fixpoint descendants (n : node) : list node :=
  match n with
  | Element _ _ _ cs => flat_map (fun c => c :: descendants c) cs
  | Comment _ => []
  end.

(** The child elements with a given tag, in document order. *)
Definition children_named (name : string) (n : node) : list node :=
  List.filter (tag_is name) (children n).

(** [root.xpath("./head/title")] *)
Definition xpath_head_title (root : node) : list node :=
  flat_map (children_named "title") (children_named "head" root).

(** [root.xpath(".//link[@rel='stylesheet']")] *)
Definition xpath_stylesheet_links (root : node) : list node :=
  List.filter
    (fun n => tag_is "link" n &&
              match attr "rel" n with
              | Some v => String.eqb v "stylesheet"
              | None => false
              end)
    (descendants root).

(** [root.xpath("./body//img/@src")] *)
Definition xpath_body_img_src (root : node) : list string :=
  flat_map
    (fun body => omap (attr "src") (List.filter (tag_is "img") (descendants body)))
    (children_named "body" root).

Record Output : Set := {
  domain_name : string;
  protocol : string;
  out_title : option string;
  image : list string;
  out_stylesheets : Z
}.

(** The attributes of a [Worker]; [title] is [None] for Python's [None]. *)
Record Worker : Set := {
  url : string;
  url_components : SplitResult;
  page_source : string;
  title : option string;
  stylesheets : Z;
  image_urls : list string;
  images : Z;
  output : Output
}.

Definition new_worker : Worker :=
  {| url := EmptyString;
     url_components :=
       {| scheme := EmptyString; netloc := EmptyString; path := EmptyString;
          query := EmptyString; fragment := EmptyString |};
     page_source := EmptyString; title := None; stylesheets := 0;
     image_urls := []; images := 0;
     output := {| domain_name := EmptyString; protocol := EmptyString;
                  out_title := None; image := []; out_stylesheets := 0 |} |}.

(** What [do_work] returns as its first component. *)
Inductive rendered : Set :=
| Message (msg : string)
| JsonDump (out : Output).

(** [l[i] = v] on a list. *)
Definition setitem {A} (l : list A) (i : nat) (v : A) : result (list A) :=
  if (i <? List.length l)%nat then Ok (<[i := v]> l) else Raise IndexError.

Fixpoint for_each {A B} (body : A -> B -> result A) (a : A) (l : list B)
    : result A :=
  match l with
  | [] => Ok a
  | b :: l' => a' ← body a b; for_each body a' l'
  end.

Section Pipeline.
(** The outside world: what a GET of a URL yields (a response, or the
    exception [requests.get] raises), what [lxml.html.fromstring] makes of
    a body (a tree, or the exception it raises), and the check of
    bracketed hosts in [urllib.parse]. *)
Variable network : string -> result Response.
Variable fromstring : string -> result node.
Variable bracketed_host_ok : string -> bool.

(** [requests.get(url)]; [gets] lists the requests issued so far. *)
Definition requests_get (url : string) (gets : list string)
    : result Response * list string :=
  (network url, gets ++ [url]).

(** [_get_valid_user_url], on the line [typed] that [input] returns. *)
Definition _get_valid_user_url (self : Worker) (typed : string)
    : result (bool * Worker) :=
  let user_input := Str.strip Str.isspace typed in
  if _is_valid_url user_input then
    components ← urlsplit bracketed_host_ok user_input EmptyString;
    Ok (true, {| url := user_input; url_components := components;
                 page_source := page_source self; title := title self;
                 stylesheets := stylesheets self;
                 image_urls := image_urls self; images := images self;
                 output := output self |})
  else Ok (false, self).

Definition _get_page_source (self : Worker) (gets : list string)
    : result (bool * Worker) * list string :=
  let '(got, gets) := requests_get (url self) gets in
  match got ≫= (fun response => raise_for_status response ≫=
                                  (fun _ => Ok response)) with
  | Raise e =>
      if issubclass e (or_class HTTPError RequestException)
      then (Ok (false, self), gets)
      else (Raise e, gets)
  | Ok response =>
      (content_type ← headers_getitem (headers response) "content-type";
       if Str.contains "text/html" content_type then
         Ok (true, {| url := url self; url_components := url_components self;
                      page_source := content response; title := title self;
                      stylesheets := stylesheets self;
                      image_urls := image_urls self; images := images self;
                      output := output self |})
       else Ok (false, self),
       gets)
  end.

Definition _parse_page_source (self : Worker) : result (bool * Worker) :=
  match fromstring (page_source self) with
  | Raise e => if issubclass e LxmlError then Ok (false, self) else Raise e
  | Ok root =>
      let title := xpath_head_title root in
      let title :=
        match title with
        | first :: _ => text first
        | [] => Some EmptyString
        end in
      let stylesheets := len (xpath_stylesheet_links root) in
      let image_urls := xpath_body_img_src root in
      Ok (true, {| url := url self; url_components := url_components self;
                   page_source := page_source self; title := title;
                   stylesheets := stylesheets; image_urls := image_urls;
                   images := len image_urls; output := output self |})
  end.

(** The body of the loop of [_ensure_img_abs_urls], at index [i]. *)
Definition ensure_img_abs_url (base : string) (image_urls : list string)
    (i : nat) : result (list string) :=
  ref ← getitem image_urls (Z.of_nat i);
  components ← urlsplit bracketed_host_ok ref EmptyString;
  if negb (nonempty (scheme components) && nonempty (netloc components)) then
    joined ← urljoin bracketed_host_ok base ref;
    setitem image_urls i joined
  else Ok image_urls.

Definition _ensure_img_abs_urls (self : Worker) : result Worker :=
  image_urls ← for_each (ensure_img_abs_url (url self)) (image_urls self)
                  (seq 0 (Z.to_nat (images self)));
  Ok {| url := url self; url_components := url_components self;
        page_source := page_source self; title := title self;
        stylesheets := stylesheets self; image_urls := image_urls;
        images := images self; output := output self |}.

Definition _generate_output (self : Worker) : Worker :=
  {| url := url self; url_components := url_components self;
     page_source := page_source self; title := title self;
     stylesheets := stylesheets self; image_urls := image_urls self;
     images := images self;
     output := {| domain_name := netloc (url_components self);
                  protocol := scheme (url_components self);
                  out_title := title self;
                  image := image_urls self;
                  out_stylesheets := stylesheets self |} |}.

Definition invalid_url_message : string :=
  "Sorry, you entered an invalid or unsupported URL.".

Definition invalid_page_message : string :=
  "Sorry, your URL does not link to a valid HTML page.".

(** [do_work], on the line [typed] read from the user; the second component
    lists the GET requests issued. *)
Definition do_work (self : Worker) (typed : string)
    : result (rendered * Z) * list string :=
  match _get_valid_user_url self typed with
  | Raise e => (Raise e, [])
  | Ok (false, _) => (Ok (Message invalid_url_message, 1), [])
  | Ok (true, self) =>
      match _get_page_source self [] with
      | (Raise e, gets) => (Raise e, gets)
      | (Ok (false, _), gets) => (Ok (Message invalid_page_message, 1), gets)
      | (Ok (true, self), gets) =>
          match _parse_page_source self with
          | Raise e => (Raise e, gets)
          | Ok (false, _) => (Ok (Message invalid_page_message, 1), gets)
          | Ok (true, self) =>
              match _ensure_img_abs_urls self with
              | Raise e => (Raise e, gets)
              | Ok self =>
                  let self := _generate_output self in
                  (Ok (JsonDump (output self), 0), gets)
              end
          end
      end
  end.

End Pipeline.

End One.

(** ** Two.py: the exchange-rate pipeline *)
Module Two.

(** The fields of [time.struct_time] that the program reads. *)
Record struct_time : Set := {
  tm_year : Z;
  tm_mon : Z;
  tm_mday : Z
}.

(** [_last_month], on the reading [time_now] of [gmtime()]. *)
Definition _last_month (time_now : struct_time) : string :=
  if 1 <? tm_mon time_now
  then str_of_int (tm_year time_now) +:+ "-"
         +:+ format_02d (tm_mon time_now - 1)
  else str_of_int (tm_year time_now - 1) +:+ "-12".

Section Rates.
(** The lxml parse of the response and the XPath query
    [.//generic:ObsValue/@value] (lines 116-117) are library calls: they
    turn the response bytes into the list of observation values, or
    raise. [float] turns one such value into a number, or raises. *)
Context {Bytes Float : Type}.
Variable obs_values : Bytes -> result (list string).
Variable float : string -> result Float.

Definition _get_latest_ecb_rate (data : Bytes) : result Float :=
  values ← obs_values data;
  let last_value := len values - 1 in
  v ← getitem values last_value;
  float v.
End Rates.

(** A numeric conversion for the examples: the rational number that a plain
    decimal literal (an optional sign, digits, an optional point and more
    digits) denotes. *)
Definition digit_val (c : ascii) : option Z :=
  let n := Z.of_nat (nat_of_ascii c) in
  if (48 <=? n) && (n <=? 57) then Some (n - 48) else None.

Fixpoint digits_val (acc : Z) (s : string) : Z * string :=
  match s with
  | String c s' =>
      match digit_val c with
      | Some d => digits_val (10 * acc + d) s'
      | None => (acc, s)
      end
  | EmptyString => (acc, s)
  end.

Definition decimal_value (s : string) : result Q :=
  let '(neg, body) :=
    match s with
    | String "-" s' => (true, s')
    | String "+" s' => (false, s')
    | _ => (false, s)
    end in
  let '(ip, rest) := digits_val 0 body in
  let ndigits := (String.length body - String.length rest)%nat in
  match rest with
  | EmptyString =>
      if (0 <? ndigits)%nat then Ok (inject_Z (if neg then - ip else ip))
      else Raise ValueError
  | String "." frac =>
      let '(fp, rest') := digits_val 0 frac in
      match rest' with
      | EmptyString =>
          if (0 <? ndigits + String.length frac)%nat then
            let scale := 10 ^ Z.of_nat (String.length frac) in
            let num := ip * scale + fp in
            Ok (Qmake (if neg then - num else num) (Z.to_pos scale))
          else Raise ValueError
      | _ => Raise ValueError
      end
  | _ => Raise ValueError
  end.

(** The constants of the module. The two templates are functions: the
    value of [ECB_EXR_GBP_EUR.format(frequency)] and of
    [ECB_QUERY_PARAMS.format(start, end)]. *)
Definition BITCOIN_TICKER : string := "https://blockchain.info/ticker".








Section Data.
Variable network : string -> result One.Response.
Variable bracketed_host_ok : string -> bool.


Section Monthly.
Context {Float : Type}.
Variable obs_values : string -> result (list string).
Variable float : string -> result Float.

End Monthly.
End Data.

End Two.

(** * Definitions for the statements

    The words of the specification, the stages of the library functions
    that the proofs follow, and the values of the examples. *)

Import Two.
Import Re Urllib One.

(** ** The exchange-rate pipeline *)

(** The month before month [m] of year [y], by counting months from year 0. *)
Definition spec_prev_month (y m : Z) : Z * Z :=
  let idx := 12 * y + (m - 1) - 1 in
  (idx / 12, idx mod 12 + 1).

(** The character of a decimal digit. *)
Definition digit_char (d : Z) : ascii := ascii_of_nat (Z.to_nat (48 + d)).

(** The label [YYYY-MM]: four digits, a dash, two digits. *)
Definition spec_yyyy_mm (y m : Z) : string :=
  String (digit_char (y / 1000)) (String (digit_char (y / 100 mod 10))
  (String (digit_char (y / 10 mod 10)) (String (digit_char (y mod 10))
  (String "-" (String (digit_char (m / 10)) (String (digit_char (m mod 10))
  EmptyString)))))).

(** A month on two digits. *)
Definition two_digits (m : Z) : string :=
  String (digit_char (m / 10)) (String (digit_char (m mod 10)) EmptyString).

(** The four digits of a year between 1000 and 9999. *)
Definition four_digits (y : Z) : string :=
  String (digit_char (y / 1000)) (String (digit_char (y / 100 mod 10))
  (String (digit_char (y / 10 mod 10)) (String (digit_char (y mod 10))
  EmptyString))).

(** ** The page-metadata pipeline *)

(** An instance of the bracketed-host check for the examples, none of which
    has a bracketed host: it accepts none. *)
Definition no_bracketed_host (hostname : string) : bool := false.

(** A worker whose URL has been validated. *)
Definition example_worker : Worker :=
  {| url := "https://example.com";
     url_components :=
       {| scheme := "https"; netloc := "example.com"; path := EmptyString;
          query := EmptyString; fragment := EmptyString |};
     page_source := EmptyString; title := None; stylesheets := 0;
     image_urls := []; images := 0; output := output new_worker |}.

(** A response with status 300 (Multiple Choices) and an HTML body. *)
Definition multiple_choices_response : Response :=
  {| status_code := 300;
     headers := {[ "content-type"%string := "text/html; charset=utf-8"%string ]};
     content := "<html></html>" |}.

(** A response with status 200 and no header at all. *)
Definition bare_response : Response :=
  {| status_code := 200; headers := ∅; content := "<html></html>" |}.

(** The element [h] has no [title] child. *)
Definition no_title_child (h : node) : Prop :=
  forall c, In c (children h) -> tag_is "title" c = false.

(** In the words of the specification: [t] is the first [title] element
    that is a direct child of [head]. It is a [title] child of a [head]
    child of the root, no [title] comes before it under that [head], and no
    earlier [head] has a [title] child. *)
Definition spec_first_head_title (root t : node) : Prop :=
  exists before h after before' after',
    children root = before ++ h :: after /\
    tag_is "head" h = true /\
    (forall h', In h' before -> tag_is "head" h' = true -> no_title_child h') /\
    children h = before' ++ t :: after' /\
    tag_is "title" t = true /\
    (forall c, In c before' -> tag_is "title" c = false).

Definition spec_no_head_title (root : node) : Prop :=
  forall h, In h (children root) -> tag_is "head" h = true -> no_title_child h.

(** A page with a comment, an empty [head], and a second [head] that holds
    the title after a [meta] element. *)
Definition example_page : node :=
  Element "html" []  None
    [Comment "generated";
     Element "head" [] None [];
     Element "head" [] None
       [Element "meta" [("charset", "utf-8")]%string None [];
        Element "title" [] (Some "Example"%string) [];
        Element "title" [] (Some "Second"%string) []];
     Element "body" [] None
       [Element "img" [("src", "img/a.png")]%string None []]].

(** A page whose body holds an image with a reference that [urlsplit]
    refuses: its network location opens a bracket that is never closed. *)
Definition broken_image_page : node :=
  Element "html" [] None
    [Element "body" [] None
       [Element "img" [("src", "a.png")]%string None [];
        Element "img" [("src", "//[cdn/b.png")]%string None []]].

(** A response with status 200 and an HTML body. *)
Definition html_response : Response :=
  {| status_code := 200;
     headers := {[ "content-type"%string := "text/html; charset=utf-8"%string ]};
     content := "<html></html>" |}.

(** What the normalizer does to one reference: a reference with both a
    scheme and a network location is kept, any other is joined with the
    base. *)
Definition spec_normalize_ref (bracketed_host_ok : string -> bool)
    (base ref : string) : result string :=
  components ← urlsplit bracketed_host_ok ref EmptyString;
  if nonempty (scheme components) && nonempty (netloc components)
  then Ok ref
  else urljoin bracketed_host_ok base ref.

(** [f] on every element in turn, up to the first that raises. *)
Fixpoint map_result {A B} (f : A -> result B) (l : list A) : result (list B) :=
  match l with
  | [] => Ok []
  | a :: l' => b ← f a; bs ← map_result f l'; Ok (b :: bs)
  end.

(** A worker as the parser leaves it: the page URL, the image references
    and their count. *)
Definition parsed_worker (base : string) (refs : list string) : Worker :=
  {| url := base; url_components := url_components new_worker;
     page_source := EmptyString; title := Some EmptyString; stylesheets := 0;
     image_urls := refs; images := len refs; output := output new_worker |}.

(** The normalizer as a function from the base and the references to the
    new references. *)
Definition normalize (bracketed_host_ok : string -> bool) (base : string)
    (refs : list string) : result (list string) :=
  self ← _ensure_img_abs_urls bracketed_host_ok (parsed_worker base refs);
  Ok (image_urls self).

(** ** The stages of [urlsplit] *)

(** The detection of a scheme at the head of the cleaned URL. *)
Definition detect_scheme (url default : string) : string * string :=
  let i := Str.find ":" url in
  if (0 <? i) && Str.forallb Str.is_ascii_alpha (Str.take 1 url)
     && Str.forallb scheme_char (Str.take (Z.to_nat i) url)
  then (Str.lower (Str.take (Z.to_nat i) url), Str.drop (Z.to_nat (i + 1)) url)
  else (default, url).

(** The rest of [urlsplit], once the scheme is known. *)
Definition split_after_scheme (bracketed_host_ok : string -> bool)
    (scheme url : string) : result SplitResult :=
  '(netloc, url) ←
    (if String.eqb (Str.take 2 url) "//" then
       let '(netloc, url) := _splitnetloc url 2 in
       _ ← check_netloc_brackets bracketed_host_ok netloc;
       Ok (netloc, url)
     else Ok (EmptyString, url));
  let '(url, fragment) :=
    match Str.partition "#" url with
    | Some (a, b) => (a, b)
    | None => (url, EmptyString)
    end in
  let '(url, query) :=
    match Str.partition "?" url with
    | Some (a, b) => (a, b)
    | None => (url, EmptyString)
    end in
  Ok {| scheme := scheme; netloc := netloc; path := url; query := query;
        fragment := fragment |}.

(** The URL and the default scheme after the stripping and the removal of
    unsafe characters. *)
Definition clean_url (url : string) : string :=
  Str.remove unsafe_url_byte (Str.lstrip c0_control_or_space url).

Definition clean_scheme (scheme : string) : string :=
  Str.remove unsafe_url_byte (Str.strip c0_control_or_space scheme).

(** A delimiter that ends the network location. *)
Definition netloc_delim (c : ascii) : bool := Str.contains_char c "/?#".

(** A string that is empty or starts with a delimiter. *)
Definition starts_with_delim (t : string) : bool :=
  match t with
  | EmptyString => true
  | String c _ => netloc_delim c
  end.

(** A string without delimiter, and a string without unsafe character. *)
Definition no_delim (n : string) : bool :=
  Str.forallb (fun c => negb (netloc_delim c)) n.

Definition no_unsafe (s : string) : bool :=
  Str.forallb (fun c => negb (unsafe_url_byte c)) s.

(** A string that [urlsplit] takes for a scheme when a colon follows it. *)
Definition scheme_like (p : string) : bool :=
  nonempty p && Str.forallb Str.is_ascii_alpha (Str.take 1 p)
  && Str.forallb scheme_char p.

(** What [urlsplit] returns as a network location. *)
Definition good_netloc (bracketed_host_ok : string -> bool) (n : string) : Prop :=
  no_delim n = true /\ no_unsafe n = true /\
  check_netloc_brackets bracketed_host_ok n = Ok tt.

(** A base URL as the validation stage leaves it: the validator accepts it
    and [urlsplit] returns its components. *)
Definition validated_base (bracketed_host_ok : string -> bool) (base : string)
    : Prop :=
  _is_valid_url base = true /\
  exists b, urlsplit bracketed_host_ok base EmptyString = Ok b.

(** What the proofs use of a validated base: it splits, into the scheme
    [http] or [https] and a network location that is not empty. *)
Definition absolute_base (bracketed_host_ok : string -> bool) (base : string)
    : Prop :=
  exists b, urlsplit bracketed_host_ok base EmptyString = Ok b /\
            (scheme b = "http"%string \/ scheme b = "https"%string) /\
            nonempty (netloc b) = true.

(** A reference that the normalizer keeps as it is. *)
Definition is_absolute (bracketed_host_ok : string -> bool) (ref : string)
    : Prop :=
  exists r, urlsplit bracketed_host_ok ref EmptyString = Ok r /\
            nonempty (scheme r) = true /\ nonempty (netloc r) = true.

(** ** The language of a pattern *)

(** The first character of a string that matches. *)
Definition first_char (p : ascii -> bool) (s : string) : Prop :=
  exists c s', s = String c s' /\ p c = true.

(** [n] rounds of a body, each on the text left by the one before. *)
Inductive reps (body : nat -> string -> string -> Prop)
    : nat -> nat -> string -> string -> Prop :=
| reps_zero (pos : nat) (rest : string) : reps body 0 pos EmptyString rest
| reps_succ (n pos : nat) (c1 c2 rest : string) :
    body pos c1 (c2 +:+ rest) ->
    reps body n (pos + String.length c1) c2 rest ->
    reps body (S n) pos (c1 +:+ c2) rest.

(** [lang r pos c rest]: at offset [pos], the pattern [r] can consume [c]
    when [rest] follows. *)
Fixpoint lang (r : regex) (pos : nat) (c rest : string) : Prop :=
  match r with
  | Char p => exists x, c = String x EmptyString /\ p x = true
  | Empty => c = EmptyString
  | Seq r1 r2 =>
      exists c1 c2, c = c1 +:+ c2 /\ lang r1 pos c1 (c2 +:+ rest) /\
                    lang r2 (pos + String.length c1) c2 rest
  | Alt r1 r2 => lang r1 pos c rest \/ lang r2 pos c rest
  | Repeat r' lo hi =>
      exists n, (lo <= n)%nat /\
                (n <= match hi with
                      | Some h => h
                      | None => lo + String.length (c +:+ rest)
                      end)%nat /\
                reps (lang r') n pos c rest
  | Lookahead r' =>
      c = EmptyString /\
      exists c' rest', rest = c' +:+ rest' /\ lang r' pos c' rest'
  | Bol => c = EmptyString /\ pos = 0%nat
  | Eol => c = EmptyString /\ at_eol rest = true
  end.

(** ** Hosts and their labels *)

(** [s.endswith(c)] for a character [c]. *)
Fixpoint last_char_is (c : ascii) (s : string) : bool :=
  match s with
  | EmptyString => false
  | String x EmptyString => Ascii.eqb x c
  | String _ s' => last_char_is c s'
  end.

(** A label that starts with a dash, and a label that ends with one. *)
Definition leading_dash (label : string) : bool := Str.startswith "-" label.
Definition trailing_dash (label : string) : bool := last_char_is "-" label.

(** In the words of the specification: the host contains a label with a
    leading or trailing dash. *)
Definition spec_dash_label (host : string) : Prop :=
  exists label, In label (Str.split "." host) /\
                (leading_dash label = true \/ trailing_dash label = true).

(** A character that cannot occur in a host: one that ends the host or the
    network location, the [@] of the user information, or a line break. *)
Definition host_separator (c : ascii) : bool :=
  Str.contains_char c ":/?#@" || Ascii.eqb c "010".

(** The characters the pattern allows in a host. *)
Definition host_char (c : ascii) : bool := alnum_dash c || Ascii.eqb c ".".

(** A string without separator. *)
Definition no_separator (s : string) : bool :=
  Str.forallb (fun c => negb (host_separator c)) s.

(** A host whose labels have neither a leading nor a trailing dash. *)
Definition dashes_inside (host : string) : Prop :=
  forall label, In label (Str.split "." host) ->
                leading_dash label = false /\ trailing_dash label = false.

(** A label: 1 to 63 characters among letters, digits and dashes, with no
    dash at either end. *)
Definition wf_label (label : string) : bool :=
  (1 <=? String.length label)%nat && (String.length label <=? 63)%nat
  && Str.forallb alnum_dash label
  && negb (leading_dash label) && negb (trailing_dash label).

(** A top-level label: 1 to 63 letters and digits. *)
Definition wf_top_level (label : string) : bool :=
  (1 <=? String.length label)%nat && (String.length label <=? 63)%nat
  && Str.forallb alnum label.

(** The labels, each followed by a dot. *)
Fixpoint subdomains (labels : list string) : string :=
  match labels with
  | [] => EmptyString
  | label :: labels' => label +:+ "." +:+ subdomains labels'
  end.

(** The host made of the given labels and top-level label. *)
Definition host_of_labels (labels : list string) (top_level : string) : string :=
  Str.join "." (labels ++ [top_level]).

(** ** The port and the tail of a URL *)



(** ** The ECB query *)




(** * Properties *)

(** ** Two.py *)

Lemma str_of_int_four_digits_table :
  forallb (fun n => String.eqb (str_of_int (Z.of_nat n + 1000))
                      (four_digits (Z.of_nat n + 1000)))
          (seq 0 (Z.to_nat 9000)) = true.
Proof. vm_compute. reflexivity. Qed.

Lemma str_of_int_four_digits (y : Z) :
  1000 <= y <= 9999 -> str_of_int y = four_digits y.
Proof.
  intros Hy.
  pose proof str_of_int_four_digits_table as T.
  rewrite forallb_forall in T.
  specialize (T (Z.to_nat (y - 1000))).
  replace (Z.of_nat (Z.to_nat (y - 1000)) + 1000) with y in T by lia.
  apply String.eqb_eq, T, in_seq. lia.
Qed.

Lemma spec_yyyy_mm_split (y m : Z) :
  spec_yyyy_mm y m = four_digits y +:+ "-" +:+ two_digits m.
Proof. reflexivity. Qed.

(** C9. For a clock reading with a month in 1..12, [_last_month] returns
    the year and the month of the calendar month before the current one, the
    year in decimal, a dash, and the month on two digits; this is the label
    YYYY-MM whenever that year has four digits; and in January of year Y it
    is str(Y-1) followed by "-12". *)
Theorem last_month_is_previous_month (t : struct_time) :
  1 <= tm_mon t <= 12 ->
  _last_month t
  = str_of_int (fst (spec_prev_month (tm_year t) (tm_mon t))) +:+ "-"
    +:+ two_digits (snd (spec_prev_month (tm_year t) (tm_mon t)))
  /\ (1000 <= fst (spec_prev_month (tm_year t) (tm_mon t)) <= 9999 ->
      _last_month t
      = spec_yyyy_mm (fst (spec_prev_month (tm_year t) (tm_mon t)))
                     (snd (spec_prev_month (tm_year t) (tm_mon t))))
  /\ (tm_mon t = 1 ->
      spec_prev_month (tm_year t) (tm_mon t) = (tm_year t - 1, 12) /\
      _last_month t = str_of_int (tm_year t - 1) +:+ "-12").
Proof.
  destruct t as [y m d]; cbn [tm_year tm_mon]. intros Hm.
  assert (Hlabel :
    _last_month {| tm_year := y; tm_mon := m; tm_mday := d |}
    = str_of_int (fst (spec_prev_month y m)) +:+ "-"
      +:+ two_digits (snd (spec_prev_month y m))
    /\ (m = 1 -> spec_prev_month y m = (y - 1, 12))).
  { assert (Hcases : m = 1 \/ m = 2 \/ m = 3 \/ m = 4 \/ m = 5 \/ m = 6 \/
                     m = 7 \/ m = 8 \/ m = 9 \/ m = 10 \/ m = 11 \/ m = 12)
      by lia.
    unfold spec_prev_month, _last_month; cbn [fst snd tm_year tm_mon].
    repeat destruct Hcases as [-> | Hcases]; try subst m.
    all: match goal with
         | |- context [(12 * ?y0 + (?k - 1) - 1) / 12] =>
             let q := eval cbv in (if k =? 1 then -1 else 0) in
             replace ((12 * y0 + (k - 1) - 1) / 12) with (y0 + q)
               by (Z.div_mod_to_equations; lia);
             let r := eval cbv in ((k - 2) mod 12) in
             replace ((12 * y0 + (k - 1) - 1) mod 12) with r
               by (Z.div_mod_to_equations; lia)
         end.
    all: rewrite ?Z.add_0_r.
    all: split; [reflexivity | intros ?; try lia].
    reflexivity. }
  destruct Hlabel as [Hlabel Hjanuary].
  split; [exact Hlabel |]. split.
  - intros Hyear. rewrite Hlabel, spec_yyyy_mm_split.
    now rewrite (str_of_int_four_digits _ Hyear).
  - intros ->. split; [now apply Hjanuary | reflexivity].
Qed.

Lemma last_month_is_previous_month_witness :
  _last_month {| tm_year := 2019; tm_mon := 7; tm_mday := 28 |} = "2019-06"%string
  /\ _last_month {| tm_year := 2020; tm_mon := 1; tm_mday := 1 |} = "2019-12"%string.
Proof.
  split.
  - refine (proj1 (last_month_is_previous_month
                     {| tm_year := 2019; tm_mon := 7; tm_mday := 28 |} _)).
    cbn. lia.
  - refine (proj1 (last_month_is_previous_month
                     {| tm_year := 2020; tm_mon := 1; tm_mday := 1 |} _)).
    cbn. lia.
Defined.

Lemma getitem_last {A} (l : list A) (v : A) :
  last l = Some v -> getitem l (len l - 1) = Ok v.
Proof.
  intros Hlast. rewrite last_lookup in Hlast.
  assert (Hlen : (0 < List.length l)%nat).
  { destruct l; [discriminate | cbn; lia]. }
  unfold getitem, len.
  destruct (Z.ltb_spec (Z.of_nat (List.length l) - 1) 0); [lia |].
  destruct (Z.ltb_spec (Z.of_nat (List.length l) - 1) 0); [lia |].
  destruct (Z.leb_spec (Z.of_nat (List.length l))
              (Z.of_nat (List.length l) - 1)); [lia |].
  cbn [orb].
  replace (Z.to_nat (Z.of_nat (List.length l) - 1))
    with (Nat.pred (List.length l)) by lia.
  now rewrite Hlast.
Qed.

(** C8. When the observation sequence is not empty, the extractor returns
    the numeric conversion of its last element, whatever the other elements
    are: no maximum is taken and no date is compared. *)
Theorem latest_rate_is_last_observation {Bytes Float : Type}
    (obs_values : Bytes -> result (list string))
    (float : string -> result Float)
    (data : Bytes) (values : list string) (v : string) :
  obs_values data = Ok values ->
  last values = Some v ->
  _get_latest_ecb_rate obs_values float data = float v.
Proof.
  intros Hobs Hlast. unfold _get_latest_ecb_rate.
  rewrite Hobs. cbn. rewrite (getitem_last _ _ Hlast). reflexivity.
Qed.

Lemma latest_rate_is_last_observation_witness :
  _get_latest_ecb_rate (fun values : list string => Ok values) decimal_value
    ["0.85"; "0.86"; "0.84"]%string = Ok (84 # 100)%Q.
Proof.
  exact (latest_rate_is_last_observation
           (fun values : list string => Ok values) decimal_value
           ["0.85"; "0.86"; "0.84"]%string ["0.85"; "0.86"; "0.84"]%string
           "0.84"%string eq_refl eq_refl).
Defined.

(** C2 as stated fails: on an empty observation sequence the extractor
    raises [IndexError]. *)
Lemma empty_series_raises_index_error :
  _get_latest_ecb_rate (fun values : list string => Ok values) decimal_value []
  = Raise IndexError.
Proof. reflexivity. Qed.

(** C2, amended. When the observation sequence is empty, the extractor
    raises the out-of-range [IndexError] of the list lookup, whatever the
    numeric conversion is; nothing in the function turns it into another
    outcome. *)
Theorem empty_series_index_error {Bytes Float : Type}
    (obs_values : Bytes -> result (list string))
    (float : string -> result Float) (data : Bytes) :
  obs_values data = Ok [] ->
  _get_latest_ecb_rate obs_values float data = Raise IndexError.
Proof.
  intros Hobs. unfold _get_latest_ecb_rate. rewrite Hobs. reflexivity.
Qed.

Lemma empty_series_index_error_witness :
  _get_latest_ecb_rate (fun _ : unit => Ok []) decimal_value tt
  = Raise IndexError.
Proof.
  exact (empty_series_index_error (fun _ : unit => Ok []) decimal_value tt
           eq_refl).
Defined.

(** ** One.py *)

(** *** Page acquisition *)

(** The handler of [_get_page_source] names [HTTPError or RequestException]:
    the value of that expression is [HTTPError]. *)
Lemma handler_class_is_http_error :
  or_class HTTPError RequestException = HTTPError.
Proof. reflexivity. Qed.

(** Whatever the network does, [_get_page_source] issues exactly one GET,
    to the worker's URL. *)
Lemma get_page_source_one_get (network : string -> result Response)
    (self : Worker) (gets : list string) :
  snd (_get_page_source network self gets) = gets ++ [url self].
Proof.
  unfold _get_page_source, requests_get.
  destruct (network (url self)) as [response | e]; cbn;
    [destruct (raise_for_status response); cbn |];
    repeat case_match; reflexivity.
Qed.

(** C1 as stated fails. A status that is not 2xx and not an error status,
    here 300, passes: the stage returns [True]. And a transport failure is
    not turned into an outcome: when the GET raises [ConnectionError], a
    subclass of [RequestException] but not of [HTTPError], the stage lets
    it through, and so does [do_work]. *)
Lemma redirect_status_passes_and_connection_error_escapes :
  (fst (_get_page_source (fun _ => Ok multiple_choices_response)
          example_worker [])
     ≫= fun outcome => Ok (fst outcome)) = Ok true /\
  issubclass ConnectionError RequestException = true /\
  _get_page_source (fun _ => Raise ConnectionError) example_worker []
  = (Raise ConnectionError, ["https://example.com"%string]) /\
  do_work (fun _ => Raise ConnectionError) (fun _ => Raise ParserError)
    no_bracketed_host new_worker "https://example.com"
  = (Raise ConnectionError, ["https://example.com"%string]).
Proof. repeat split; vm_compute; reflexivity. Qed.

(** C1, amended. Every run of [_get_page_source] issues exactly one GET, to
    the worker's URL; and when the response has a status from 400 to 599,
    the stage returns [False] with the worker unchanged, and [do_work]
    returns the message for an invalid page with exit code 1. *)
Theorem error_status_is_failure_outcome
    (network : string -> result Response) (fromstring : string -> result node)
    (bracketed_host_ok : string -> bool) (self : Worker) (gets : list string) :
  snd (_get_page_source network self gets) = gets ++ [url self] /\
  forall response,
    network (url self) = Ok response ->
    400 <= status_code response < 600 ->
    fst (_get_page_source network self gets) = Ok (false, self) /\
    forall typed,
      _get_valid_user_url bracketed_host_ok new_worker typed = Ok (true, self) ->
      do_work network fromstring bracketed_host_ok new_worker typed
      = (Ok (Message invalid_page_message, 1), [url self]).
Proof.
  split; [apply get_page_source_one_get |].
  intros response Hnet Hstatus.
  assert (Hstage : _get_page_source network self []
                   = (Ok (false, self), [url self])
                   /\ fst (_get_page_source network self gets) = Ok (false, self)).
  { unfold _get_page_source, requests_get, raise_for_status.
    rewrite Hnet. cbn [mbind result_bind].
    destruct (Z.leb_spec 400 (status_code response)); [| lia].
    destruct (Z.ltb_spec (status_code response) 600); [| lia].
    split; reflexivity. }
  destruct Hstage as [Hstage Hfst]. split; [exact Hfst |].
  intros typed Hvalid. unfold do_work. now rewrite Hvalid, Hstage.
Qed.

Lemma error_status_is_failure_outcome_witness :
  fst (_get_page_source
         (fun _ => Ok {| status_code := 404; headers := ∅;
                         content := EmptyString |})
         example_worker [])
  = Ok (false, example_worker).
Proof.
  refine (proj1 (proj2 (error_status_is_failure_outcome
                          (fun _ => Ok {| status_code := 404; headers := ∅;
                                          content := EmptyString |})
                          (fun _ => Raise ParserError) no_bracketed_host
                          example_worker [])
                   {| status_code := 404; headers := ∅; content := EmptyString |}
                   eq_refl _)).
  cbn. lia.
Defined.

(** C10. There is a response with a 2xx status and no content-type header
    on which [_get_page_source] raises [KeyError], and [do_work] with it.
    On every response that passes [raise_for_status], the stage raises
    [KeyError] when the content-type header is absent, and returns an
    outcome, [True] exactly when the header contains [text/html], when it
    is present. *)
Theorem missing_content_type_raises_key_error :
  (exists response : Response,
     200 <= status_code response < 300 /\
     headers response !! "content-type"%string = None /\
     (forall self gets,
        _get_page_source (fun _ => Ok response) self gets
        = (Raise KeyError, gets ++ [url self])) /\
     (forall fromstring bracketed_host_ok,
        do_work (fun _ => Ok response) fromstring bracketed_host_ok
          new_worker "https://example.com"
        = (Raise KeyError, ["https://example.com"%string]))) /\
  (forall network self gets response,
     network (url self) = Ok response ->
     raise_for_status response = Ok tt ->
     (headers response !! "content-type"%string = None ->
      fst (_get_page_source network self gets) = Raise KeyError) /\
     (forall content_type,
        headers response !! "content-type"%string = Some content_type ->
        exists self',
          fst (_get_page_source network self gets)
          = Ok (Str.contains "text/html" content_type, self'))).
Proof.
  split.
  - exists bare_response. split; [cbn; lia |]. split; [reflexivity |].
    split; [reflexivity |]. intros. vm_compute. reflexivity.
  - intros network self gets response Hnet Hstatus.
    unfold _get_page_source, requests_get. rewrite Hnet. cbn.
    rewrite Hstatus. cbn. unfold headers_getitem.
    change (Str.lower "content-type") with "content-type"%string.
    split.
    + intros ->. reflexivity.
    + intros content_type ->. cbn.
      destruct (Str.contains _ content_type); eauto.
Qed.

Lemma missing_content_type_raises_key_error_witness :
  fst (_get_page_source (fun _ => Ok bare_response) example_worker [])
  = Raise KeyError.
Proof.
  refine (proj1 (proj2 missing_content_type_raises_key_error
                   (fun _ => Ok bare_response) example_worker [] bare_response
                   eq_refl eq_refl) eq_refl).
Defined.

(** *** Page parsing *)

Lemma filter_none {A} (p : A -> bool) (l : list A) :
  (forall x, In x l -> p x = false) -> List.filter p l = [].
Proof.
  induction l as [| a l IH]; intros H; [reflexivity |].
  cbn. rewrite (H a (or_introl eq_refl)). apply IH.
  intros x Hx. apply H. now right.
Qed.

Lemma flat_map_none {A B} (f : A -> list B) (l : list A) :
  (forall x, In x l -> f x = []) -> flat_map f l = [].
Proof.
  induction l as [| a l IH]; intros H; [reflexivity |].
  cbn. rewrite (H a (or_introl eq_refl)). apply IH.
  intros x Hx. apply H. now right.
Qed.

Lemma xpath_head_title_first (root t : node) :
  spec_first_head_title root t ->
  exists rest, xpath_head_title root = t :: rest.
Proof.
  intros (before & h & after & before' & after' & Hroot & Hh & Hbefore
          & Hchildren & Ht & Hbefore').
  unfold xpath_head_title, children_named.
  rewrite Hroot, List.filter_app, flat_map_app. cbn [List.filter].
  rewrite Hh. cbn [flat_map].
  rewrite flat_map_none.
  - rewrite Hchildren, List.filter_app. cbn [List.filter]. rewrite Ht.
    rewrite (filter_none _ before' Hbefore'). cbn. eauto.
  - intros h' Hin. apply List.filter_In in Hin as [Hin Hhead].
    apply filter_none. exact (Hbefore h' Hin Hhead).
Qed.

Lemma xpath_head_title_none (root : node) :
  spec_no_head_title root -> xpath_head_title root = [].
Proof.
  intros Hnone. unfold xpath_head_title, children_named.
  apply flat_map_none. intros h Hin.
  apply List.filter_In in Hin as [Hin Hhead].
  apply filter_none. exact (Hnone h Hin Hhead).
Qed.

(** C7. When the body parses to a tree, [_parse_page_source] succeeds and
    the title it stores is the text of the first [title] element that is a
    direct child of [head], and the empty string when there is no such
    element. *)
Theorem parsed_title_is_first_head_title
    (fromstring : string -> result node) (self : Worker) (root : node) :
  fromstring (page_source self) = Ok root ->
  exists self',
    _parse_page_source fromstring self = Ok (true, self') /\
    (forall t, spec_first_head_title root t -> title self' = text t) /\
    (spec_no_head_title root -> title self' = Some EmptyString).
Proof.
  intros Hparse. unfold _parse_page_source. rewrite Hparse.
  eexists. split; [reflexivity |]. cbn [title]. split.
  - intros t Hfirst.
    destruct (xpath_head_title_first root t Hfirst) as [rest ->]. reflexivity.
  - intros Hnone. rewrite (xpath_head_title_none root Hnone). reflexivity.
Qed.

Lemma parsed_title_is_first_head_title_witness :
  exists self',
    _parse_page_source (fun _ => Ok example_page) example_worker
    = Ok (true, self') /\
    (forall t, spec_first_head_title example_page t -> title self' = text t) /\
    (spec_no_head_title example_page -> title self' = Some EmptyString).
Proof.
  exact (parsed_title_is_first_head_title (fun _ => Ok example_page)
           example_worker example_page eq_refl).
Defined.

(** *** Facts about strings *)

(** A fact about one character that holds by inspection of the 256
    characters. *)
Ltac by_all_chars c :=
  destruct c as [[] [] [] [] [] [] [] []]; vm_compute;
  let H := fresh in
  intros H; first [discriminate H | repeat split; reflexivity].

Lemma str_app_cons (x : ascii) (a b : string) :
  String x a +:+ b = String x (a +:+ b).
Proof. reflexivity. Qed.

Lemma str_app_nil_l (b : string) : EmptyString +:+ b = b.
Proof. reflexivity. Qed.

Lemma str_app_assoc (a b c : string) : (a +:+ b) +:+ c = a +:+ (b +:+ c).
Proof. induction a as [| x a IH]; rewrite ?str_app_cons, ?str_app_nil_l; simpl; congruence. Qed.

Lemma str_app_nil_r (a : string) : a +:+ EmptyString = a.
Proof. induction a as [| x a IH]; rewrite ?str_app_cons, ?str_app_nil_l; simpl; congruence. Qed.

Lemma str_length_app (a b : string) :
  String.length (a +:+ b) = (String.length a + String.length b)%nat.
Proof. induction a as [| x a IH]; rewrite ?str_app_cons, ?str_app_nil_l; simpl; congruence. Qed.

Lemma take_app (a b : string) : Str.take (String.length a) (a +:+ b) = a.
Proof. induction a as [| x a IH]; rewrite ?str_app_cons, ?str_app_nil_l; simpl; [now destruct b | congruence]. Qed.

Lemma drop_app (a b : string) : Str.drop (String.length a) (a +:+ b) = b.
Proof. induction a as [| x a IH]; rewrite ?str_app_cons, ?str_app_nil_l; simpl; [reflexivity | exact IH]. Qed.

Lemma forallb_app (p : ascii -> bool) (a b : string) :
  Str.forallb p (a +:+ b) = Str.forallb p a && Str.forallb p b.
Proof.
  induction a as [| x a IH]; rewrite ?str_app_cons, ?str_app_nil_l; simpl; [reflexivity |].
  rewrite IH. now destruct (p x).
Qed.

Lemma remove_app (p : ascii -> bool) (a b : string) :
  Str.remove p (a +:+ b) = Str.remove p a +:+ Str.remove p b.
Proof.
  induction a as [| x a IH]; rewrite ?str_app_cons, ?str_app_nil_l; simpl; [reflexivity |].
  rewrite IH. now destruct (p x).
Qed.

Lemma remove_none (p : ascii -> bool) (a : string) :
  Str.forallb (fun c => negb (p c)) a = true -> Str.remove p a = a.
Proof.
  induction a as [| x a IH]; rewrite ?str_app_cons, ?str_app_nil_l; simpl; [reflexivity |].
  destruct (p x); cbn; [discriminate |]. intros H. now rewrite IH.
Qed.

Lemma remove_clean (p : ascii -> bool) (a : string) :
  Str.forallb (fun c => negb (p c)) (Str.remove p a) = true.
Proof.
  induction a as [| x a IH]; rewrite ?str_app_cons, ?str_app_nil_l; simpl; [reflexivity |].
  destruct (p x) eqn:E; cbn; [exact IH |]. now rewrite E.
Qed.

Lemma forallb_drop (p : ascii -> bool) (n : nat) (a : string) :
  Str.forallb p a = true -> Str.forallb p (Str.drop n a) = true.
Proof.
  revert a. induction n as [| n IH]; intros [| x a]; cbn; auto.
  intros H. apply andb_prop in H as [_ H]. now apply IH.
Qed.

Lemma forallb_impl (p q : ascii -> bool) (a : string) :
  (forall c, p c = true -> q c = true) ->
  Str.forallb p a = true -> Str.forallb q a = true.
Proof.
  intros Hpq. induction a as [| x a IH]; rewrite ?str_app_cons, ?str_app_nil_l; simpl; [reflexivity |].
  intros H. apply andb_prop in H as [Hx H]. now rewrite (Hpq x Hx), IH.
Qed.

Lemma find_lower_bound (c : ascii) (a : string) : -1 <= Str.find c a.
Proof.
  induction a as [| x a IH]; cbn; [lia |].
  destruct (Ascii.eqb x c); [lia |].
  destruct (Z.ltb_spec (Str.find c a) 0); lia.
Qed.

Lemma find_app_skip (c : ascii) (a b : string) :
  Str.forallb (fun x => negb (Ascii.eqb x c)) a = true ->
  Str.find c (a +:+ b) =
  if Str.find c b <? 0 then -1 else Str.find c b + Z.of_nat (String.length a).
Proof.
  pose proof (find_lower_bound c b) as Hb.
  induction a as [| x a IH]; rewrite ?str_app_cons, ?str_app_nil_l;
    cbn [Str.forallb Str.find String.length].
  - intros _. destruct (Z.ltb_spec (Str.find c b) 0); lia.
  - intros H. apply andb_prop in H as [Hx H].
    destruct (Ascii.eqb x c); [discriminate |].
    rewrite (IH H).
    destruct (Z.ltb_spec (Str.find c b) 0); cbn; [reflexivity |].
    destruct (Z.ltb_spec (Str.find c b + Z.of_nat (String.length a)) 0); lia.
Qed.

(** *** URL validation *)

(** **** The pattern, read from the left *)

Lemma matches_ext (r : regex) :
  forall pos s k1 k2,
    (forall pos' s', k1 pos' s' = k2 pos' s') ->
    matches r pos s k1 = matches r pos s k2.
Proof.
  induction r as [p | | r1 IH1 r2 IH2 | r1 IH1 r2 IH2 | r IH lo hi | r IH | |];
    intros pos s k1 k2 Hk; cbn [matches].
  - destruct s; [reflexivity |]. now rewrite Hk.
  - apply Hk.
  - apply IH1. intros pos' s'. now apply IH2.
  - now rewrite (IH1 pos s k1 k2 Hk), (IH2 pos s k1 k2 Hk).
  - generalize (match hi with
                | Some h => h
                | None => (lo + String.length s)%nat
                end) as fuel.
    generalize 0%nat as count. revert pos s.
    intros pos s count fuel. revert pos s count.
    induction fuel as [| fuel IHfuel]; intros pos s count.
    + now rewrite Hk.
    + rewrite Hk. destruct (if (lo <=? count)%nat then k2 pos s else false);
        [reflexivity |].
      apply IH. intros pos' s'. apply IHfuel.
  - now rewrite Hk.
  - now rewrite Hk.
  - now rewrite Hk.
Qed.

Lemma matches_seq (r1 r2 : regex) (pos : nat) (s : string)
    (k : nat -> string -> bool) :
  matches (Seq r1 r2) pos s k
  = matches r1 pos s (fun pos' s' => matches r2 pos' s' k).
Proof. reflexivity. Qed.

Lemma matches_bol_inv (pos : nat) (s : string) (k : nat -> string -> bool) :
  matches Bol pos s k = true -> k pos s = true.
Proof. cbn [matches]. destruct (pos =? 0)%nat; [auto | discriminate]. Qed.

Lemma matches_empty (pos : nat) (s : string) (k : nat -> string -> bool) :
  matches Empty pos s k = k pos s.
Proof. reflexivity. Qed.

Lemma lits_cons (c : ascii) (s : string) :
  lits (String c s) = Seq (lit c) (lits s).
Proof. reflexivity. Qed.

Lemma lits_nil : lits EmptyString = Empty.
Proof. reflexivity. Qed.

Lemma matches_char_inv (p : ascii -> bool) (pos : nat) (s : string)
    (k : nat -> string -> bool) :
  matches (Char p) pos s k = true ->
  exists c s', s = String c s' /\ p c = true /\ k (S pos) s' = true.
Proof.
  cbn [matches]. destruct s as [| c s']; [discriminate |].
  destruct (p c) eqn:Hp; [| discriminate]. eauto.
Qed.

Lemma matches_lit_inv (c : ascii) (pos : nat) (s : string)
    (k : nat -> string -> bool) :
  matches (lit c) pos s k = true ->
  exists x s', s = String x s' /\ Str.lower_char x = Str.lower_char c /\
               k (S pos) s' = true.
Proof.
  intros H. apply matches_char_inv in H as (x & s' & -> & Hx & Hk).
  apply Ascii.eqb_eq in Hx. eauto.
Qed.

Lemma matches_opt (r : regex) (pos : nat) (s : string)
    (k : nat -> string -> bool) :
  matches (opt r) pos s k = if k pos s then true else matches r pos s k.
Proof.
  unfold opt. cbn [matches]. cbn [Nat.leb].
  destruct (k pos s); [reflexivity |].
  apply matches_ext. intros pos' s'. now destruct (k pos' s').
Qed.

Lemma matches_opt_inv (r : regex) (pos : nat) (s : string)
    (k : nat -> string -> bool) :
  matches (opt r) pos s k = true ->
  k pos s = true \/ matches r pos s k = true.
Proof. rewrite matches_opt. destruct (k pos s); auto. Qed.

(** A repetition that must run at least once starts as its body does. *)
Lemma matches_repeat_first (r : regex) (lo : nat) (hi : option nat)
    (pos : nat) (s : string) (k : nat -> string -> bool) :
  matches (Repeat r (S lo) hi) pos s k = true ->
  exists k', matches r pos s k' = true.
Proof.
  cbn [matches].
  generalize (match hi with
              | Some h => h
              | None => (S lo + String.length s)%nat
              end) as fuel.
  intros [| fuel]; cbn [Nat.leb]; [discriminate |]. eauto.
Qed.

Lemma matches_alt_inv (r1 r2 : regex) (pos : nat) (s : string)
    (k : nat -> string -> bool) :
  matches (Alt r1 r2) pos s k = true ->
  matches r1 pos s k = true \/ matches r2 pos s k = true.
Proof. cbn [matches]. destruct (matches r1 pos s k); auto. Qed.

Lemma matches_lookahead_inv (r : regex) (pos : nat) (s : string)
    (k : nat -> string -> bool) :
  matches (Lookahead r) pos s k = true -> k pos s = true.
Proof.
  cbn [matches]. destruct (matches r pos s (fun _ _ => true));
    [auto | discriminate].
Qed.

Lemma first_char_label (pos : nat) (s : string) (k : nat -> string -> bool) :
  matches re_label pos s k = true -> first_char alnum s.
Proof.
  unfold re_label. cbn [matches]. destruct s as [| c s']; [discriminate |].
  destruct (alnum c) eqn:Hc; [| discriminate]. intros _. now exists c, s'.
Qed.

Lemma first_char_host (pos : nat) (s : string) (k : nat -> string -> bool) :
  matches re_host pos s k = true ->
  first_char (fun c => alnum c || Ascii.eqb (Str.lower_char c) "l") s.
Proof.
  unfold re_host. intros H. apply matches_alt_inv in H as [H | H].
  - rewrite matches_seq in H. unfold re_domain_length in H.
    apply matches_lookahead_inv in H.
    rewrite matches_seq in H. unfold re_subdomains in H.
    apply matches_repeat_first in H as [k' H].
    rewrite matches_seq in H.
    apply first_char_label in H as (c & s' & -> & Hc).
    exists c, s'. now rewrite Hc.
  - rewrite lits_cons, matches_seq in H.
    apply matches_lit_inv in H as (c & s' & -> & Hc & _).
    exists c, s'. split; [reflexivity |].
    rewrite Hc. apply orb_true_r.
Qed.

Lemma first_char_after_scheme (pos : nat) (s : string)
    (k : nat -> string -> bool) :
  matches (Seq re_basic_auth (Seq re_host (Seq re_port re_tail))) pos s k = true ->
  first_char (fun c => word c || alnum c || Ascii.eqb (Str.lower_char c) "l") s.
Proof.
  intros H. rewrite matches_seq in H.
  unfold re_basic_auth in H. apply matches_opt_inv in H as [H | H].
  - rewrite matches_seq in H.
    apply first_char_host in H as (c & s' & -> & Hc).
    exists c, s'. split; [reflexivity |].
    rewrite <- orb_assoc, Hc. apply orb_true_r.
  - rewrite matches_seq in H.
    apply matches_repeat_first in H as [k' H].
    apply matches_char_inv in H as (c & s' & -> & Hc & _).
    exists c, s'. now rewrite Hc.
Qed.

Lemma lower_char_letter (x y : ascii) :
  Str.lower_char x = y -> Str.in_range 97 122 y = true ->
  Str.is_ascii_alpha x = true /\ scheme_char x = true.
Proof.
  intros <-.
  by_all_chars x.
Qed.

Lemma lower_char_symbol (x y : ascii) :
  Str.lower_char x = y -> Str.in_range 33 64 y = true -> x = y.
Proof.
  intros <-.
  by_all_chars x.
Qed.

Lemma netloc_first_char (c : ascii) :
  word c || alnum c || Ascii.eqb (Str.lower_char c) "l" = true ->
  netloc_delim c = false /\ unsafe_url_byte c = false.
Proof.
  by_all_chars c.
Qed.

(** A string that the validator accepts starts with [http://] or
    [https://], in either case of letters, and then with a character that
    can start a network location. *)
Lemma valid_url_shape (s : string) :
  _is_valid_url s = true ->
  exists p c rest,
    s = p +:+ String ":" (String "/" (String "/" (String c rest))) /\
    scheme_like p = true /\
    (Str.lower p = "http"%string \/ Str.lower p = "https"%string) /\
    netloc_delim c = false /\ unsafe_url_byte c = false.
Proof.
  unfold _is_valid_url, re_match, URL_PATTERN. intros H.
  rewrite matches_seq in H. unfold re_scheme in H.
  rewrite matches_seq in H. apply matches_bol_inv in H.
  rewrite matches_seq, !lits_cons, lits_nil in H.
  rewrite !matches_seq in H.
  apply matches_lit_inv in H as (c1 & s1 & -> & H1 & H).
  apply matches_lit_inv in H as (c2 & s2 & -> & H2 & H).
  apply matches_lit_inv in H as (c3 & s3 & -> & H3 & H).
  apply matches_lit_inv in H as (c4 & s4 & -> & H4 & H).
  rewrite ?matches_empty, matches_seq in H.
  destruct (lower_char_letter c1 _ H1 eq_refl) as [A1 S1].
  destruct (lower_char_letter c2 _ H2 eq_refl) as [A2 S2].
  destruct (lower_char_letter c3 _ H3 eq_refl) as [A3 S3].
  destruct (lower_char_letter c4 _ H4 eq_refl) as [A4 S4].
  apply matches_opt_inv in H as [H | H].
  - rewrite ?matches_seq in H.
    apply matches_lit_inv in H as (x1 & t1 & -> & X1 & H).
    apply matches_lit_inv in H as (x2 & t2 & -> & X2 & H).
    apply matches_lit_inv in H as (x3 & t3 & -> & X3 & H).
    apply lower_char_symbol in X1 as ->; [| reflexivity].
    apply lower_char_symbol in X2 as ->; [| reflexivity].
    apply lower_char_symbol in X3 as ->; [| reflexivity].
    rewrite ?matches_empty in H.
    apply first_char_after_scheme in H as (c & rest & -> & Hc).
    exists (String c1 (String c2 (String c3 (String c4 EmptyString)))), c, rest.
    split; [reflexivity |].
    split; [unfold scheme_like; cbn; now rewrite A1, S1, S2, S3, S4 |].
    split; [left; cbn; now rewrite H1, H2, H3, H4 |].
    now apply netloc_first_char.
  - apply matches_lit_inv in H as (c5 & s5 & -> & H5 & H).
    destruct (lower_char_letter c5 _ H5 eq_refl) as [A5 S5].
    rewrite ?matches_seq in H.
    apply matches_lit_inv in H as (x1 & t1 & -> & X1 & H).
    apply matches_lit_inv in H as (x2 & t2 & -> & X2 & H).
    apply matches_lit_inv in H as (x3 & t3 & -> & X3 & H).
    apply lower_char_symbol in X1 as ->; [| reflexivity].
    apply lower_char_symbol in X2 as ->; [| reflexivity].
    apply lower_char_symbol in X3 as ->; [| reflexivity].
    rewrite ?matches_empty in H.
    apply first_char_after_scheme in H as (c & rest & -> & Hc).
    exists (String c1 (String c2 (String c3 (String c4 (String c5 EmptyString))))),
      c, rest.
    split; [reflexivity |].
    split; [unfold scheme_like; cbn; now rewrite A1, S1, S2, S3, S4, S5 |].
    split; [right; cbn; now rewrite H1, H2, H3, H4, H5 |].
    now apply netloc_first_char.
Qed.

(** **** The language of a pattern *)

(** Every match of the matcher is a word of the language. *)
Lemma matches_sound (r : regex) :
  forall pos s k,
    matches r pos s k = true ->
    exists c rest, s = c +:+ rest /\ lang r pos c rest /\
                   k (pos + String.length c)%nat rest = true.
Proof.
  induction r as [p | | r1 IH1 r2 IH2 | r1 IH1 r2 IH2 | r IH lo hi | r IH | |];
    intros pos s k; cbn [matches lang].
  - destruct s as [| x s']; [discriminate |].
    destruct (p x) eqn:Hp; [| discriminate]. intros Hk.
    exists (String x EmptyString), s'. split; [reflexivity |].
    split; [eauto |]. cbn [String.length]. now rewrite Nat.add_1_r.
  - intros Hk. exists EmptyString, s. cbn [String.length].
    now rewrite Nat.add_0_r.
  - intros H. apply IH1 in H as (c1 & rest1 & -> & Hl1 & H).
    apply IH2 in H as (c2 & rest & -> & Hl2 & Hk).
    exists (c1 +:+ c2), rest. split; [now rewrite str_app_assoc |].
    split; [exists c1, c2; auto |].
    now rewrite str_length_app, Nat.add_assoc.
  - destruct (matches r1 pos s k) eqn:H1.
    + intros _. apply IH1 in H1 as (c & rest & -> & Hl & Hk).
      exists c, rest. auto.
    + intros H2. apply IH2 in H2 as (c & rest & -> & Hl & Hk).
      exists c, rest. auto.
  - set (fuel0 := match hi with
                  | Some h => h
                  | None => (lo + String.length s)%nat
                  end).
    assert (Hrounds : forall fuel count pos s,
      (fix rounds (fuel count pos : nat) (s : string) {struct fuel} : bool :=
         if (if (lo <=? count)%nat then k pos s else false) then true
         else
           match fuel with
           | O => false
           | S fuel' =>
               matches r pos s (fun pos' s' => rounds fuel' (S count) pos' s')
           end) fuel count pos s = true ->
      exists n c rest, s = c +:+ rest /\ reps (lang r) n pos c rest /\
                       (lo <= count + n)%nat /\ (n <= fuel)%nat /\
                       k (pos + String.length c)%nat rest = true).
    { clear pos s fuel0. induction fuel as [| fuel IHfuel]; intros count pos s.
      - destruct (lo <=? count)%nat eqn:Hlo; [| discriminate].
        destruct (k pos s) eqn:Hk; [| discriminate]. intros _.
        exists 0%nat, EmptyString, s. apply Nat.leb_le in Hlo.
        repeat split; [constructor | lia | lia |].
        cbn [String.length]. now rewrite Nat.add_0_r.
      - destruct (if (lo <=? count)%nat then k pos s else false) eqn:Hstop.
        + intros _. destruct (lo <=? count)%nat eqn:Hlo; [| discriminate].
          exists 0%nat, EmptyString, s. apply Nat.leb_le in Hlo.
          repeat split; [constructor | lia | lia |].
          cbn [String.length]. now rewrite Nat.add_0_r.
        + intros H. apply IH in H as (c1 & rest1 & -> & Hl1 & H).
          apply IHfuel in H as (n & c2 & rest & -> & Hreps & Hlo & Hn & Hk).
          exists (S n), (c1 +:+ c2), rest.
          split; [now rewrite str_app_assoc |].
          split; [now constructor |].
          split; [lia |]. split; [lia |].
          now rewrite str_length_app, Nat.add_assoc. }
    intros H. apply Hrounds in H as (n & c & rest & -> & Hreps & Hlo & Hn & Hk).
    exists c, rest. split; [reflexivity |]. split; [| exact Hk].
    exists n. split; [lia |]. split; [| exact Hreps].
    subst fuel0. destruct hi; exact Hn.
  - destruct (matches r pos s (fun _ _ => true)) eqn:Hlook; [| discriminate].
    intros Hk. apply IH in Hlook as (c' & rest' & -> & Hl & _).
    exists EmptyString, (c' +:+ rest'). split; [reflexivity |].
    split; [split; [reflexivity | eauto] |].
    cbn [String.length]. now rewrite Nat.add_0_r.
  - destruct (Nat.eqb_spec pos 0) as [-> |]; [| discriminate]. intros Hk.
    exists EmptyString, s. repeat split. exact Hk.
  - destruct (at_eol s) eqn:Heol; [| discriminate]. intros Hk.
    exists EmptyString, s. cbn [String.length]. rewrite Nat.add_0_r.
    repeat split; assumption.
Qed.

(** Every word of the language is matched. *)
Lemma matches_complete (r : regex) :
  forall pos c rest k,
    lang r pos c rest ->
    k (pos + String.length c)%nat rest = true ->
    matches r pos (c +:+ rest) k = true.
Proof.
  induction r as [p | | r1 IH1 r2 IH2 | r1 IH1 r2 IH2 | r IH lo hi | r IH | |];
    intros pos c rest k; cbn [matches lang].
  - intros (x & -> & Hp) Hk. rewrite str_app_cons, str_app_nil_l, Hp.
    cbn [String.length] in Hk. now rewrite Nat.add_1_r in Hk.
  - intros -> Hk. cbn [String.length] in Hk.
    now rewrite Nat.add_0_r in Hk.
  - intros (c1 & c2 & -> & Hl1 & Hl2) Hk. rewrite str_app_assoc.
    apply IH1; [exact Hl1 |]. apply IH2; [exact Hl2 |].
    now rewrite str_length_app, Nat.add_assoc in Hk.
  - intros [Hl | Hl] Hk.
    + now rewrite (IH1 pos c rest k Hl Hk).
    + rewrite (IH2 pos c rest k Hl Hk). now destruct (matches r1 _ _ _).
  - intros (n & Hlo & Hhi & Hreps) Hk.
    set (fuel0 := match hi with
                  | Some h => h
                  | None => (lo + String.length (c +:+ rest))%nat
                  end) in *.
    assert (Hcount : (lo <= 0 + n)%nat) by lia.
    revert Hcount Hhi Hk. generalize fuel0 as fuel. generalize 0%nat as count.
    clear fuel0 Hlo.
    induction Hreps as [pos rest | n pos c1 c2 rest Hbody Hreps IHreps];
      intros count fuel Hcount Hfuel Hk.
    + rewrite str_app_nil_l. cbn [String.length] in Hk.
      rewrite Nat.add_0_r in Hk.
      assert (Hlo : (lo <=? count)%nat = true) by (apply Nat.leb_le; lia).
      destruct fuel; now rewrite Hlo, Hk.
    + destruct fuel as [| fuel]; [lia |].
      destruct (if (lo <=? count)%nat then k pos ((c1 +:+ c2) +:+ rest) else false);
        [reflexivity |].
      rewrite str_app_assoc. apply IH; [exact Hbody |].
      apply IHreps; [lia | lia |].
      now rewrite str_length_app, Nat.add_assoc in Hk.
  - intros (-> & c' & rest' & -> & Hl) Hk. rewrite str_app_nil_l.
    rewrite (IH pos c' rest' (fun _ _ => true) Hl eq_refl).
    cbn [String.length] in Hk. now rewrite Nat.add_0_r in Hk.
  - intros (-> & ->) Hk. exact Hk.
  - intros (-> & Heol) Hk. rewrite str_app_nil_l, Heol.
    cbn [String.length] in Hk. now rewrite Nat.add_0_r in Hk.
Qed.

(** **** Hosts and their labels *)

Lemma lang_seq (r1 r2 : regex) (pos : nat) (c rest : string) :
  lang (Seq r1 r2) pos c rest <->
  exists c1 c2, c = c1 +:+ c2 /\ lang r1 pos c1 (c2 +:+ rest) /\
                lang r2 (pos + String.length c1) c2 rest.
Proof. reflexivity. Qed.

Lemma lang_lit (x : ascii) (pos : nat) (c rest : string) :
  lang (lit x) pos c rest <->
  exists y, c = String y EmptyString /\ Str.lower_char y = Str.lower_char x.
Proof.
  unfold lit. cbn [lang]. split; intros (y & -> & Hy); exists y;
    (split; [reflexivity |]); now apply Ascii.eqb_eq.
Qed.

Lemma lang_opt (r : regex) (pos : nat) (c rest : string) :
  lang (opt r) pos c rest <-> c = EmptyString \/ lang r pos c rest.
Proof.
  unfold opt. cbn [lang]. split.
  - intros (n & _ & Hn & Hreps).
    inversion Hreps as [| n' pos' c1 c2 rest' Hbody Hreps']; subst;
      [now left |].
    right. assert (n' = 0%nat) as -> by lia.
    inversion Hreps'; subst. now rewrite str_app_nil_r.
  - intros [-> | Hl].
    + exists 0%nat. split; [lia |]. split; [lia | constructor].
    + exists 1%nat. split; [lia |]. split; [lia |].
      rewrite <- (str_app_nil_r c). constructor; [| constructor].
      now rewrite str_app_nil_l.
Qed.

Lemma contains_char_app (x : ascii) (a b : string) :
  Str.contains_char x (a +:+ b) = Str.contains_char x a || Str.contains_char x b.
Proof.
  induction a as [| y a IH]; rewrite ?str_app_cons, ?str_app_nil_l;
    cbn [Str.contains_char]; [reflexivity |].
  rewrite IH. now destruct (Ascii.eqb y x).
Qed.

Lemma contains_char_forallb (x : ascii) (a : string) :
  Str.contains_char x a = false <->
  Str.forallb (fun c => negb (Ascii.eqb c x)) a = true.
Proof.
  induction a as [| y a IH]; cbn [Str.contains_char Str.forallb];
    [easy |].
  destruct (Ascii.eqb y x); cbn; [easy | exact IH].
Qed.

(** A string splits in one way only into a part free of separators and a
    rest that is empty or starts with one. *)
Lemma separator_split_unique (sep : ascii -> bool) (a a' b b' : string) :
  a +:+ b = a' +:+ b' ->
  Str.forallb (fun c => negb (sep c)) a = true ->
  Str.forallb (fun c => negb (sep c)) a' = true ->
  match b with EmptyString => true | String c _ => sep c end = true ->
  match b' with EmptyString => true | String c _ => sep c end = true ->
  a = a' /\ b = b'.
Proof.
  revert a'. induction a as [| x a IH]; intros [| x' a'];
    rewrite ?str_app_cons, ?str_app_nil_l; cbn [Str.forallb].
  - auto.
  - intros -> _ Ha' Hb _. apply andb_prop in Ha' as [Hx _].
    now rewrite Hb in Hx.
  - intros <- Ha _ _ Hb'. apply andb_prop in Ha as [Hx _].
    now rewrite Hb' in Hx.
  - intros [= <- Heq] Ha Ha' Hb Hb'.
    apply andb_prop in Ha as [_ Ha]. apply andb_prop in Ha' as [_ Ha'].
    destruct (IH a' Heq Ha Ha' Hb Hb') as [-> ->]. auto.
Qed.

(** ***** The scheme *)

Lemma scheme_letter_no_colon (x y : ascii) :
  Str.lower_char x = y -> Str.in_range 97 122 y = true ->
  Ascii.eqb x ":" = false.
Proof.
  intros <-.
  by_all_chars x.
Qed.

Lemma lang_scheme (pos : nat) (c rest : string) :
  lang re_scheme pos c rest ->
  exists p, c = p +:+ "://" /\ Str.contains_char ":" p = false.
Proof.
  unfold re_scheme. rewrite lang_seq.
  intros (c0 & c1 & -> & [-> _] & H). rewrite str_app_nil_l.
  rewrite lang_seq in H. destruct H as (ch & c2 & -> & Hhttp & H).
  rewrite lang_seq in H. destruct H as (cs & c3 & -> & Hs & Hsep).
  rewrite !lits_cons, lits_nil in Hhttp.
  rewrite !lang_seq in Hhttp.
  destruct Hhttp as (x1 & t1 & -> & H1 & x2 & t2 & -> & H2 & x3 & t3 & ->
                     & H3 & x4 & t4 & -> & H4 & ->).
  apply lang_lit in H1 as (y1 & -> & H1). apply lang_lit in H2 as (y2 & -> & H2).
  apply lang_lit in H3 as (y3 & -> & H3). apply lang_lit in H4 as (y4 & -> & H4).
  rewrite !lits_cons, lits_nil in Hsep. rewrite !lang_seq in Hsep.
  destruct Hsep as (z1 & u1 & -> & Z1 & z2 & u2 & -> & Z2 & z3 & u3 & ->
                    & Z3 & ->).
  apply lang_lit in Z1 as (w1 & -> & Z1). apply lang_lit in Z2 as (w2 & -> & Z2).
  apply lang_lit in Z3 as (w3 & -> & Z3).
  apply lower_char_symbol in Z1 as ->; [| reflexivity].
  apply lower_char_symbol in Z2 as ->; [| reflexivity].
  apply lower_char_symbol in Z3 as ->; [| reflexivity].
  pose proof (scheme_letter_no_colon _ _ H1 eq_refl) as N1.
  pose proof (scheme_letter_no_colon _ _ H2 eq_refl) as N2.
  pose proof (scheme_letter_no_colon _ _ H3 eq_refl) as N3.
  pose proof (scheme_letter_no_colon _ _ H4 eq_refl) as N4.
  apply lang_opt in Hs as [-> | Hs].
  - exists (String y1 (String y2 (String y3 (String y4 EmptyString)))).
    split; [reflexivity |]. cbn [Str.contains_char].
    now rewrite N1, N2, N3, N4.
  - apply lang_lit in Hs as (y5 & -> & H5).
    pose proof (scheme_letter_no_colon _ _ H5 eq_refl) as N5.
    exists (String y1 (String y2 (String y3 (String y4 (String y5 EmptyString))))).
    split; [reflexivity |]. cbn [Str.contains_char].
    now rewrite N1, N2, N3, N4, N5.
Qed.

(** ***** The user information *)

Lemma lang_basic_auth (pos : nat) (c rest : string) :
  lang re_basic_auth pos c rest ->
  c = EmptyString \/ Str.contains_char "@" c = true.
Proof.
  unfold re_basic_auth. rewrite lang_opt. intros [-> | H]; [now left |].
  right. rewrite !lang_seq in H.
  destruct H as (c1 & t1 & -> & _ & c2 & t2 & -> & _ & c3 & c4 & -> & _ & H).
  apply lang_lit in H as (y & -> & Hy).
  apply lower_char_symbol in Hy as ->; [| reflexivity].
  rewrite !contains_char_app. cbn. now rewrite !orb_true_r.
Qed.

(** ***** The port and the tail *)

Lemma lang_port (pos : nat) (c rest : string) :
  lang re_port pos c rest ->
  c = EmptyString \/ exists c', c = String ":" c'.
Proof.
  unfold re_port. rewrite lang_opt. intros [-> | H]; [now left |].
  right. rewrite lang_seq in H. destruct H as (c1 & c2 & -> & H & _).
  apply lang_lit in H as (y & -> & Hy).
  apply lower_char_symbol in Hy as ->; [| reflexivity]. eauto.
Qed.

Lemma lang_tail (pos : nat) (c rest : string) :
  lang re_tail pos c rest ->
  (c = EmptyString /\ at_eol rest = true) \/
  exists x c', c = String x c' /\ Str.contains_char x "/?" = true.
Proof.
  unfold re_tail. rewrite lang_seq.
  intros (c1 & c2 & -> & H & Heol). destruct Heol as [-> Heol].
  rewrite str_app_nil_r. rewrite str_app_nil_l in H.
  destruct H as [H | H].
  - apply lang_opt in H as [-> | H]; [now left |].
    apply lang_lit in H as (y & -> & Hy).
    apply lower_char_symbol in Hy as ->; [| reflexivity].
    right. now exists "/"%char, EmptyString.
  - rewrite lang_seq in H. destruct H as (d1 & d2 & -> & (x & -> & Hx) & _).
    right. exists x, d2. now rewrite str_app_cons, str_app_nil_l.
Qed.

(** ***** The host *)

Lemma reps_chars_inv (p : ascii -> bool) (n pos : nat) (c rest : string) :
  reps (lang (Char p)) n pos c rest ->
  Str.forallb p c = true /\ String.length c = n.
Proof.
  induction 1 as [| n pos c1 c2 rest (x & -> & Hx) _ [IH1 IH2]].
  - auto.
  - rewrite str_app_cons, str_app_nil_l. cbn. now rewrite Hx, IH1, IH2.
Qed.

Lemma alnum_char_facts (c : ascii) :
  alnum c = true ->
  alnum_dash c = true /\ Ascii.eqb c "-" = false /\ Ascii.eqb "-" c = false.
Proof.
  by_all_chars c.
Qed.

Lemma alnum_dash_char_facts (c : ascii) :
  alnum_dash c = true ->
  host_char c = true /\ Ascii.eqb c "." = false.
Proof.
  by_all_chars c.
Qed.

Lemma host_char_facts (c : ascii) :
  host_char c = true -> host_separator c = false /\ nonspace c = true.
Proof.
  by_all_chars c.
Qed.

Lemma last_char_is_cons (c x : ascii) (s : string) :
  nonempty s = true -> last_char_is c (String x s) = last_char_is c s.
Proof. destruct s; [discriminate | reflexivity]. Qed.

Lemma last_char_is_app_single (c b : ascii) (s : string) :
  last_char_is c (s +:+ String b EmptyString) = Ascii.eqb b c.
Proof.
  induction s as [| x s IH]; rewrite ?str_app_cons, ?str_app_nil_l;
    [reflexivity |].
  rewrite last_char_is_cons; [exact IH |]. now destruct s.
Qed.

Lemma last_char_is_none (p : ascii -> bool) (c : ascii) (s : string) :
  (forall x, p x = true -> Ascii.eqb x c = false) ->
  Str.forallb p s = true -> last_char_is c s = false.
Proof.
  intros Hp. induction s as [| x s IH]; [reflexivity |].
  cbn [Str.forallb]. intros H. apply andb_prop in H as [Hx Hs].
  destruct s as [| y s]; [now apply Hp | now apply IH].
Qed.

Lemma split_no_sep (c : ascii) (l : string) :
  Str.contains_char c l = false -> Str.split c l = [l].
Proof.
  induction l as [| x l IH]; [reflexivity |]. cbn [Str.contains_char Str.split].
  destruct (Ascii.eqb x c); cbn; [discriminate |].
  intros H. now rewrite (IH H).
Qed.

Lemma split_app_sep (c : ascii) (l r : string) :
  Str.contains_char c l = false ->
  Str.split c (l +:+ String c r) = l :: Str.split c r.
Proof.
  induction l as [| x l IH]; rewrite ?str_app_cons, ?str_app_nil_l.
  - intros _. cbn [Str.split]. now rewrite Ascii.eqb_refl.
  - cbn [Str.contains_char Str.split].
    destruct (Ascii.eqb x c); cbn; [discriminate |].
    intros H. now rewrite (IH H).
Qed.

Lemma forallb_no_dot (l : string) :
  Str.forallb alnum_dash l = true -> Str.contains_char "." l = false.
Proof.
  intros H. apply contains_char_forallb. revert H. apply forallb_impl.
  intros c Hc. apply alnum_dash_char_facts in Hc as [_ ->]. reflexivity.
Qed.

(** What the pattern of a label matches. *)
Lemma lang_label (pos : nat) (l rest : string) :
  lang re_label pos l rest ->
  Str.forallb alnum_dash l = true /\
  leading_dash l = false /\ trailing_dash l = false.
Proof.
  unfold re_label. rewrite lang_seq.
  intros (c1 & m & -> & (a & -> & Ha) & H).
  rewrite str_app_cons, str_app_nil_l.
  destruct (alnum_char_facts a Ha) as (Had & Hnd & Hdn).
  unfold leading_dash, trailing_dash. cbn [Str.startswith Str.forallb].
  rewrite Had, Hdn. cbn [andb].
  apply lang_opt in H as [-> | H]; [repeat split; exact Hnd |].
  rewrite lang_seq in H.
  destruct H as (mid & c2 & -> & (n & _ & _ & Hmid) & (b & -> & Hb)).
  apply reps_chars_inv in Hmid as [Hmid _].
  destruct (alnum_char_facts b Hb) as (Hbd & Hbn & _).
  rewrite forallb_app, Hmid. cbn [Str.forallb]. rewrite Hbd.
  repeat split.
  rewrite last_char_is_cons, last_char_is_app_single; [exact Hbn |].
  now destruct mid.
Qed.

Lemma dashes_inside_alnum (s : string) :
  Str.forallb alnum s = true ->
  Str.forallb host_char s = true /\ dashes_inside s.
Proof.
  intros Hs.
  assert (Hdash : Str.forallb alnum_dash s = true).
  { revert Hs. apply forallb_impl. intros c Hc. now apply alnum_char_facts. }
  split.
  - revert Hdash. apply forallb_impl. intros c Hc.
    now apply alnum_dash_char_facts.
  - intros label. rewrite (split_no_sep "." s (forallb_no_dot s Hdash)).
    intros [<- | []]. split.
    + destruct s as [| a s]; [reflexivity |].
      cbn [Str.forallb] in Hs. apply andb_prop in Hs as [Ha _].
      unfold leading_dash. cbn [Str.startswith].
      now destruct (alnum_char_facts a Ha) as (_ & _ & ->).
    + unfold trailing_dash. revert Hs. apply last_char_is_none.
      intros x Hx. now apply alnum_char_facts.
Qed.

Lemma lang_subdomains (n pos : nat) (c rest : string) :
  reps (lang (Seq re_label (lit "."))) n pos c rest ->
  Str.forallb host_char c = true /\
  forall t, dashes_inside t -> dashes_inside (c +:+ t).
Proof.
  induction 1 as [| n pos c1 c2 rest Hbody _ [IHchars IH]].
  - split; [reflexivity |]. intros t Ht. now rewrite str_app_nil_l.
  - rewrite lang_seq in Hbody.
    destruct Hbody as (l & d & -> & Hl & Hd).
    apply lang_lit in Hd as (y & -> & Hy).
    apply lower_char_symbol in Hy as ->; [| reflexivity].
    apply lang_label in Hl as (Hchars & Hlead & Htrail).
    split.
    + rewrite !forallb_app, IHchars. cbn [Str.forallb].
      change (host_char ".") with true. rewrite !andb_true_r.
      revert Hchars. apply forallb_impl. intros c Hc.
      now apply alnum_dash_char_facts.
    + intros t Ht label. rewrite !str_app_assoc, str_app_cons, str_app_nil_l.
      rewrite (split_app_sep "." l _ (forallb_no_dot l Hchars)).
      intros [<- | Hin]; [auto |]. exact (IH t Ht label Hin).
Qed.

Lemma lower_char_alnum (x y : ascii) :
  Str.lower_char x = y -> Str.in_range 97 122 y = true -> alnum x = true.
Proof.
  intros <-.
  by_all_chars x.
Qed.

Lemma lang_lits_letters (s : string) :
  Str.forallb (Str.in_range 97 122) (Str.lower s) = true ->
  forall pos c rest, lang (lits s) pos c rest -> Str.forallb alnum c = true.
Proof.
  induction s as [| x s IH]; intros Hs pos c rest.
  - rewrite lits_nil. now intros ->.
  - rewrite lits_cons, lang_seq. intros (c1 & c2 & -> & H1 & H2).
    cbn [Str.lower Str.forallb] in Hs. apply andb_prop in Hs as [Hx Hs].
    apply lang_lit in H1 as (y & -> & Hy).
    rewrite str_app_cons, str_app_nil_l. cbn [Str.forallb].
    rewrite (lower_char_alnum y _ Hy Hx). exact (IH Hs _ _ _ H2).
Qed.

(** What the pattern of a host matches. *)
Lemma lang_host (pos : nat) (c rest : string) :
  lang re_host pos c rest -> no_separator c = true /\ dashes_inside c.
Proof.
  assert (Hsep : forall s, Str.forallb host_char s = true ->
                           no_separator s = true).
  { intros s. apply forallb_impl. intros x Hx.
    now destruct (host_char_facts x Hx) as [-> _]. }
  unfold re_host. intros [H | H].
  - rewrite lang_seq in H.
    destruct H as (c0 & c1 & -> & [-> _] & H). rewrite str_app_nil_l.
    rewrite lang_seq in H. destruct H as (subs & tld & -> & Hsubs & Htld).
    destruct Hsubs as (n & _ & _ & Hsubs).
    apply lang_subdomains in Hsubs as [Hchars Hsubs].
    destruct Htld as (m & _ & _ & Htld).
    apply reps_chars_inv in Htld as [Htld _].
    destruct (dashes_inside_alnum tld Htld) as [Htldchars Htlddash].
    split; [| now apply Hsubs].
    apply Hsep. now rewrite forallb_app, Hchars, Htldchars.
  - apply (lang_lits_letters "localhost" eq_refl) in H.
    destruct (dashes_inside_alnum c H) as [Hchars Hdash].
    split; [now apply Hsep | exact Hdash].
Qed.

(** A URL without user information whose host has a label with a leading
    or trailing dash is rejected. *)
Lemma dash_label_rejected (p h t : string) :
  Str.contains_char ":" p = false ->
  no_separator h = true ->
  Str.forallb (fun c => negb (Ascii.eqb c "@")) t = true ->
  match t with
  | EmptyString => true
  | String c _ => Str.contains_char c ":/?#"
  end = true ->
  spec_dash_label h ->
  _is_valid_url (p +:+ "://" +:+ h +:+ t) = false.
Proof.
  intros Hp Hh Hat Ht (label & Hin & Hdash).
  destruct (_is_valid_url _) eqn:Hvalid; [exfalso | reflexivity].
  unfold _is_valid_url, re_match in Hvalid.
  apply matches_sound in Hvalid as (c & rest & Heq & Hl & _).
  unfold URL_PATTERN in Hl. rewrite !lang_seq in Hl.
  destruct Hl as (cs & c1 & -> & Hscheme & ca & c2 & -> & Hauth & ch & c3 & ->
                  & Hhost & cp & ct & -> & Hport & Htail).
  apply lang_scheme in Hscheme as (p' & -> & Hp').
  apply lang_basic_auth in Hauth.
  apply lang_host in Hhost as [Hch Hdashes].
  apply lang_port in Hport. apply lang_tail in Htail.
  rewrite !str_app_assoc in Heq.
  (* the scheme *)
  destruct (separator_split_unique (fun x => Ascii.eqb x ":") p p'
              ("://" +:+ h +:+ t)
              ("://" +:+ ca +:+ ch +:+ cp +:+ ct +:+ rest) Heq)
    as [<- Heq']; try reflexivity; [now apply contains_char_forallb .. |].
  injection Heq' as Heq'. rewrite !str_app_nil_l in Heq'.
  (* no user information *)
  assert (Hnoat : Str.contains_char "@" (h +:+ t) = false).
  { rewrite contains_char_app. apply orb_false_intro.
    - apply contains_char_forallb. revert Hh. apply forallb_impl.
      intros x Hx. unfold host_separator in Hx.
      destruct (Ascii.eqb_spec x "@") as [-> |]; [discriminate | reflexivity].
    - now apply contains_char_forallb. }
  destruct Hauth as [-> | Hauth].
  2: { rewrite Heq', contains_char_app, Hauth in Hnoat. discriminate. }
  rewrite str_app_nil_l in Heq'.
  (* the host *)
  destruct (separator_split_unique host_separator h ch t
              (cp +:+ ct +:+ rest) Heq' Hh Hch) as [<- _].
  { destruct t as [| x t]; [reflexivity |]. unfold host_separator.
    cbn [Str.contains_char] in *.
    destruct (Ascii.eqb ":" x), (Ascii.eqb "/" x), (Ascii.eqb "?" x),
      (Ascii.eqb "#" x); cbn in *; congruence. }
  { destruct Hport as [-> | [cp' ->]]; [| reflexivity].
    rewrite str_app_nil_l.
    destruct Htail as [[-> Heol] | (x & ct' & -> & Hx)].
    - rewrite str_app_nil_l. destruct rest as [| y [| z rest]];
        try discriminate; [reflexivity |].
      cbn [at_eol] in Heol. apply Ascii.eqb_eq in Heol as ->. reflexivity.
    - rewrite str_app_cons. unfold host_separator.
      cbn [Str.contains_char] in *.
      destruct (Ascii.eqb "/" x), (Ascii.eqb "?" x); cbn in *;
        try discriminate; now rewrite ?orb_true_r. }
  destruct (Hdashes label Hin) as [Hlead Htrail].
  destruct Hdash; congruence.
Qed.

(** ***** Hosts that the grammar describes *)

Lemma host_of_labels_subdomains (labels : list string) (top_level : string) :
  host_of_labels labels top_level = subdomains labels +:+ top_level.
Proof.
  unfold host_of_labels. induction labels as [| l labels IH]; [reflexivity |].
  cbn [app Str.join subdomains]. rewrite IH.
  destruct (labels ++ [top_level]) eqn:Hnil.
  - now destruct labels.
  - now rewrite !str_app_assoc.
Qed.

Lemma reps_chars (p : ascii -> bool) (s : string) :
  forall pos rest,
    Str.forallb p s = true ->
    reps (lang (Char p)) (String.length s) pos s rest.
Proof.
  induction s as [| x s IH]; intros pos rest; cbn [Str.forallb String.length].
  - constructor.
  - intros H. apply andb_prop in H as [Hx Hs].
    change (String x s) with (String x EmptyString +:+ s).
    constructor; [now exists x | now apply IH].
Qed.

Lemma lang_lits_intro (s : string) :
  forall c pos rest, Str.lower c = Str.lower s -> lang (lits s) pos c rest.
Proof.
  induction s as [| x s IH]; intros [| y c] pos rest; cbn [Str.lower];
    try discriminate.
  - intros _. now rewrite lits_nil.
  - intros [= Hy Hc]. rewrite lits_cons, lang_seq.
    exists (String y EmptyString), c. split; [reflexivity |].
    split; [apply lang_lit; eauto | now apply IH].
Qed.

Lemma lang_scheme_intro (p rest : string) :
  Str.lower p = "http"%string \/ Str.lower p = "https"%string ->
  lang re_scheme 0 (p +:+ "://") rest.
Proof.
  intros Hp. unfold re_scheme. rewrite lang_seq.
  exists EmptyString, (p +:+ "://"). split; [reflexivity |].
  split; [split; reflexivity |]. cbn [String.length Nat.add].
  destruct Hp as [Hp | Hp].
  - rewrite lang_seq. exists p, "://"%string. split; [reflexivity |].
    split; [now apply lang_lits_intro |].
    rewrite lang_seq. exists EmptyString, "://"%string.
    split; [reflexivity |]. split; [apply lang_opt; now left |].
    now apply lang_lits_intro.
  - destruct p as [| c1 [| c2 [| c3 [| c4 [| c5 [| c6 p]]]]]];
      try discriminate.
    injection Hp as H1 H2 H3 H4 H5.
    rewrite lang_seq.
    exists (String c1 (String c2 (String c3 (String c4 EmptyString)))),
      (String c5 "://"). split; [reflexivity |].
    split; [apply lang_lits_intro; cbn; now rewrite H1, H2, H3, H4 |].
    rewrite lang_seq. exists (String c5 EmptyString), "://"%string.
    split; [reflexivity |].
    split; [apply lang_opt; right; apply lang_lit; eauto |].
    now apply lang_lits_intro.
Qed.

Lemma string_last (m : string) :
  nonempty m = true -> exists mid b, m = mid +:+ String b EmptyString.
Proof.
  induction m as [| x m IH]; [discriminate |]. intros _.
  destruct m as [| y m].
  - now exists EmptyString, x.
  - destruct (IH eq_refl) as (mid & b & ->). now exists (String x mid), b.
Qed.

Lemma alnum_dash_not_dash (c : ascii) :
  alnum_dash c = true -> Ascii.eqb c "-" = false -> alnum c = true.
Proof.
  unfold alnum_dash. intros H Hd. rewrite Hd, orb_false_r in H. exact H.
Qed.

Lemma lang_label_intro (l : string) (pos : nat) (rest : string) :
  wf_label l = true -> lang re_label pos l rest.
Proof.
  unfold wf_label. intros H.
  apply andb_prop in H as [H Htrail]. apply andb_prop in H as [H Hlead].
  apply andb_prop in H as [H Hchars]. apply andb_prop in H as [Hmin Hmax].
  apply Nat.leb_le in Hmin, Hmax.
  apply negb_true_iff in Hlead, Htrail.
  destruct l as [| a m]; [cbn in Hmin; lia |].
  cbn [Str.forallb] in Hchars. apply andb_prop in Hchars as [Ha Hm].
  unfold leading_dash in Hlead. cbn [Str.startswith] in Hlead.
  rewrite andb_true_r, Ascii.eqb_sym in Hlead.
  pose proof (alnum_dash_not_dash a Ha Hlead) as Haln.
  unfold re_label. rewrite lang_seq.
  exists (String a EmptyString), m. split; [reflexivity |].
  split; [now exists a |].
  apply lang_opt. destruct (nonempty m) eqn:Hne.
  2: { left. now destruct m. }
  right. destruct (string_last m Hne) as (mid & b & ->).
  unfold trailing_dash in Htrail.
  rewrite last_char_is_cons, last_char_is_app_single in Htrail
    by (now destruct mid).
  rewrite forallb_app in Hm. apply andb_prop in Hm as [Hmid Hb].
  cbn [Str.forallb] in Hb. rewrite andb_true_r in Hb.
  rewrite lang_seq. exists mid, (String b EmptyString).
  split; [reflexivity |]. split.
  - exists (String.length mid). split; [lia |]. split.
    + cbn [String.length] in Hmax. rewrite str_length_app in Hmax.
      cbn [String.length] in Hmax. lia.
    + now apply reps_chars.
  - exists b. split; [reflexivity |]. now apply alnum_dash_not_dash.
Qed.

Lemma lang_subdomains_intro (labels : list string) :
  forall pos rest,
    forallb wf_label labels = true ->
    reps (lang (Seq re_label (lit "."))) (List.length labels) pos
      (subdomains labels) rest.
Proof.
  induction labels as [| l labels IH]; intros pos rest; cbn [forallb].
  - constructor.
  - intros H. apply andb_prop in H as [Hl Hlabels].
    cbn [List.length subdomains]. rewrite <- str_app_assoc.
    constructor; [| now apply IH].
    rewrite lang_seq. exists l, "."%string. split; [reflexivity |].
    split; [now apply lang_label_intro |].
    apply lang_lit. now exists "."%char.
Qed.

Lemma subdomains_length (labels : list string) :
  (List.length labels <= String.length (subdomains labels))%nat.
Proof.
  induction labels as [| l labels IH]; [reflexivity |].
  cbn [List.length subdomains]. rewrite !str_length_app. cbn. lia.
Qed.

Lemma wf_label_chars (l : string) :
  wf_label l = true -> Str.forallb host_char l = true.
Proof.
  unfold wf_label. intros H.
  apply andb_prop in H as [H _]. apply andb_prop in H as [H _].
  apply andb_prop in H as [_ H]. revert H. apply forallb_impl.
  intros c Hc. now apply alnum_dash_char_facts.
Qed.

Lemma subdomains_chars (labels : list string) :
  forallb wf_label labels = true ->
  Str.forallb host_char (subdomains labels) = true.
Proof.
  induction labels as [| l labels IH]; [reflexivity |]. cbn [forallb].
  intros H. apply andb_prop in H as [Hl Hlabels].
  cbn [subdomains]. rewrite !forallb_app, (wf_label_chars l Hl), (IH Hlabels).
  reflexivity.
Qed.

(** A host that the grammar describes is a word of the host pattern when
    nothing follows it. *)
Lemma lang_host_intro (labels : list string) (top_level : string) (pos : nat) :
  labels <> [] ->
  forallb wf_label labels = true ->
  wf_top_level top_level = true ->
  (String.length (host_of_labels labels top_level) <= 253)%nat ->
  lang re_host pos (host_of_labels labels top_level) EmptyString.
Proof.
  intros Hne Hlabels Htop Hlen. rewrite host_of_labels_subdomains in *.
  unfold wf_top_level in Htop.
  apply andb_prop in Htop as [Htop Hchars].
  apply andb_prop in Htop as [Hmin Hmax]. apply Nat.leb_le in Hmin, Hmax.
  assert (Hhost : Str.forallb host_char (subdomains labels +:+ top_level) = true).
  { rewrite forallb_app, (subdomains_chars labels Hlabels).
    now apply dashes_inside_alnum. }
  unfold re_host. left. rewrite lang_seq.
  exists EmptyString, (subdomains labels +:+ top_level).
  split; [reflexivity |]. split.
  - unfold re_domain_length. split; [reflexivity |].
    exists (subdomains labels +:+ top_level), EmptyString.
    split; [reflexivity |]. rewrite lang_seq.
    exists (subdomains labels +:+ top_level), EmptyString.
    split; [now rewrite str_app_nil_r |]. split.
    + exists (String.length (subdomains labels +:+ top_level)).
      split; [lia |]. split; [exact Hlen |].
      apply reps_chars. revert Hhost. apply forallb_impl.
      intros c Hc. now apply host_char_facts.
    + left. split; reflexivity.
  - rewrite lang_seq. exists (subdomains labels), top_level.
    split; [reflexivity |]. split.
    + unfold re_subdomains. exists (List.length labels).
      split; [destruct labels; [contradiction | cbn; lia] |].
      split; [| now apply lang_subdomains_intro].
      pose proof (subdomains_length labels). rewrite !str_length_app. lia.
    + unfold re_top_level. exists (String.length top_level).
      split; [exact Hmin |]. split; [exact Hmax |]. now apply reps_chars.
Qed.

(** A URL made of the scheme and a host that the grammar describes is
    accepted. *)
Lemma grammar_host_accepted (p : string) (labels : list string)
    (top_level : string) :
  Str.lower p = "http"%string \/ Str.lower p = "https"%string ->
  labels <> [] ->
  forallb wf_label labels = true ->
  wf_top_level top_level = true ->
  (String.length (host_of_labels labels top_level) <= 253)%nat ->
  _is_valid_url (p +:+ "://" +:+ host_of_labels labels top_level) = true.
Proof.
  intros Hp Hne Hlabels Htop Hlen. unfold _is_valid_url, re_match.
  set (host := host_of_labels labels top_level) in *.
  replace (p +:+ "://" +:+ host)
    with (((p +:+ "://") +:+ (EmptyString +:+ (host +:+ (EmptyString +:+
            EmptyString)))) +:+ EmptyString)
    by (now rewrite !str_app_nil_l, !str_app_nil_r, str_app_assoc).
  apply matches_complete; [| reflexivity].
  unfold URL_PATTERN. rewrite lang_seq.
  exists (p +:+ "://"), (EmptyString +:+ (host +:+ (EmptyString +:+ EmptyString))).
  split; [reflexivity |]. split; [now apply lang_scheme_intro |].
  rewrite lang_seq.
  exists EmptyString, (host +:+ (EmptyString +:+ EmptyString)).
  split; [reflexivity |].
  split; [unfold re_basic_auth; apply lang_opt; now left |].
  rewrite lang_seq. exists host, (EmptyString +:+ EmptyString).
  split; [reflexivity |].
  split; [now apply lang_host_intro |].
  rewrite lang_seq. exists EmptyString, EmptyString.
  split; [reflexivity |].
  split; [unfold re_port; apply lang_opt; now left |].
  unfold re_tail. rewrite lang_seq. exists EmptyString, EmptyString.
  split; [reflexivity |]. split; [| split; reflexivity].
  left. apply lang_opt. now left.
Qed.

(** C6 as stated fails. The validator accepts
    [http://a:b@-bad.com/x@good.com], whose host, as [urlsplit] reads it and
    as the pipeline fetches it, is [-bad.com], with a leading dash: the
    password group of the pattern runs over the [/] and the first [@]. And
    it rejects [https://good.si-te], whose labels have only internal
    dashes: the top-level label admits none. *)
Lemma leading_dash_host_accepted_behind_userinfo :
  _is_valid_url "http://a:b@-bad.com/x@good.com" = true /\
  (urlsplit no_bracketed_host "http://a:b@-bad.com/x@good.com" EmptyString
     ≫= fun r => Ok (netloc r, hostname r))
  = Ok ("a:b@-bad.com"%string, Some "-bad.com"%string) /\
  _is_valid_url "https://good.si-te" = false.
Proof. repeat split; vm_compute; reflexivity. Qed.

(** C6, amended. A URL without user information, of the form scheme, [://],
    host, then nothing or a port, path, query or fragment with no [@], is
    rejected when its host has a label with a leading or trailing dash. An
    [http] or [https] URL made of a host alone is accepted when the host has
    at most 253 characters and is made of one or more labels of 1 to 63
    letters, digits and dashes with no dash at either end, and a top-level
    label of 1 to 63 letters and digits. So [https://-bad.com] is rejected
    and [https://good-site.com] is accepted. *)
Theorem dash_labels_rejected_inner_dashes_accepted :
  (forall p h t : string,
     Str.contains_char ":" p = false ->
     no_separator h = true ->
     Str.forallb (fun c => negb (Ascii.eqb c "@")) t = true ->
     match t with
     | EmptyString => true
     | String c _ => Str.contains_char c ":/?#"
     end = true ->
     spec_dash_label h ->
     _is_valid_url (p +:+ "://" +:+ h +:+ t) = false) /\
  (forall (p : string) (labels : list string) (top_level : string),
     Str.lower p = "http"%string \/ Str.lower p = "https"%string ->
     labels <> [] ->
     forallb wf_label labels = true ->
     wf_top_level top_level = true ->
     (String.length (host_of_labels labels top_level) <= 253)%nat ->
     _is_valid_url (p +:+ "://" +:+ host_of_labels labels top_level) = true) /\
  _is_valid_url "https://-bad.com" = false /\
  _is_valid_url "https://good-site.com" = true.
Proof.
  split; [exact dash_label_rejected |].
  split; [exact grammar_host_accepted |].
  split; vm_compute; reflexivity.
Qed.

Lemma dash_labels_rejected_inner_dashes_accepted_witness :
  _is_valid_url "https://bad-.example.com:8080/a?b=1" = false /\
  _is_valid_url "HTTP://good-site.example.com" = true.
Proof.
  split.
  - refine (proj1 dash_labels_rejected_inner_dashes_accepted
              "https" "bad-.example.com" ":8080/a?b=1" eq_refl eq_refl
              eq_refl eq_refl _).
    exists "bad-"%string. split; [now left | now right].
  - refine (proj1 (proj2 dash_labels_rejected_inner_dashes_accepted)
              "HTTP" ["good-site"; "example"]%string "com" _ _ eq_refl eq_refl _).
    + now left.
    + discriminate.
    + vm_compute. lia.
Defined.

(** *** URL normalization *)

Lemma getitem_middle {A} (done todo : list A) (x : A) :
  getitem (done ++ x :: todo) (Z.of_nat (List.length done)) = Ok x.
Proof.
  unfold getitem, len. rewrite length_app. cbn [List.length].
  destruct (Z.ltb_spec (Z.of_nat (List.length done)) 0); [lia |].
  destruct (Z.ltb_spec (Z.of_nat (List.length done)) 0); [lia |].
  destruct (Z.leb_spec (Z.of_nat (List.length done + S (List.length todo)))
              (Z.of_nat (List.length done))); [lia |].
  cbn [orb]. rewrite Nat2Z.id, list_lookup_middle by reflexivity. reflexivity.
Qed.

Lemma setitem_middle {A} (done todo : list A) (x y : A) :
  setitem (done ++ x :: todo) (List.length done) y = Ok (done ++ y :: todo).
Proof.
  unfold setitem. rewrite length_app. cbn [List.length].
  destruct (Nat.ltb_spec (List.length done)
              (List.length done + S (List.length todo))); [| lia].
  f_equal. rewrite insert_app_r_alt by lia.
  now rewrite Nat.sub_diag.
Qed.

Lemma ensure_step_is_normalize_ref (bracketed_host_ok : string -> bool)
    (base : string) (done todo : list string) (ref : string) :
  ensure_img_abs_url bracketed_host_ok base (done ++ ref :: todo)
    (List.length done)
  = (new ← spec_normalize_ref bracketed_host_ok base ref;
     Ok (done ++ new :: todo)).
Proof.
  unfold ensure_img_abs_url, spec_normalize_ref.
  rewrite getitem_middle. cbn.
  destruct (urlsplit bracketed_host_ok ref EmptyString) as [c | e];
    cbn; [| reflexivity].
  destruct (nonempty (scheme c) && nonempty (netloc c)); cbn; [reflexivity |].
  destruct (urljoin bracketed_host_ok base ref) as [joined | e];
    cbn; [| reflexivity].
  apply setitem_middle.
Qed.

Lemma ensure_loop_is_map (bracketed_host_ok : string -> bool) (base : string)
    (todo done : list string) :
  for_each (ensure_img_abs_url bracketed_host_ok base) (done ++ todo)
    (seq (List.length done) (List.length todo))
  = (new ← map_result (spec_normalize_ref bracketed_host_ok base) todo;
     Ok (done ++ new)).
Proof.
  revert done. induction todo as [| ref todo IH]; intros done.
  - reflexivity.
  - change (seq (List.length done) (List.length (ref :: todo)))
      with (List.length done :: seq (S (List.length done)) (List.length todo)).
    change (for_each ?f ?a (?i :: ?l)) with (a' ← f a i; for_each f a' l).
    rewrite ensure_step_is_normalize_ref.
    change (map_result ?f (ref :: todo))
      with (b ← f ref; bs ← map_result f todo; Ok (b :: bs)).
    destruct (spec_normalize_ref bracketed_host_ok base ref) as [new | e];
      [| reflexivity].
    change (for_each (ensure_img_abs_url bracketed_host_ok base)
              (done ++ new :: todo)
              (seq (S (List.length done)) (List.length todo))
            = (news ← (bs ← map_result
                              (spec_normalize_ref bracketed_host_ok base) todo;
                       Ok (new :: bs));
               Ok (done ++ news))).
    specialize (IH (done ++ [new])).
    rewrite length_app, Nat.add_1_r, <- app_assoc in IH.
    change ([new] ++ todo) with (new :: todo) in IH.
    rewrite IH.
    destruct (map_result _ todo); [| reflexivity].
    cbn. now rewrite <- app_assoc.
Qed.

Lemma ensure_img_abs_urls_is_map (bracketed_host_ok : string -> bool)
    (self : Worker) :
  images self = len (image_urls self) ->
  (_ensure_img_abs_urls bracketed_host_ok self ≫= fun self' => Ok (image_urls self'))
  = map_result (spec_normalize_ref bracketed_host_ok (url self)) (image_urls self).
Proof.
  intros Himages. unfold _ensure_img_abs_urls. rewrite Himages.
  unfold len. rewrite Nat2Z.id.
  pose proof (ensure_loop_is_map bracketed_host_ok (url self)
                (image_urls self) []) as Hloop.
  cbn [List.length app] in Hloop. rewrite Hloop.
  destruct (map_result _ _); reflexivity.
Qed.

Lemma normalize_is_map (bracketed_host_ok : string -> bool) (base : string)
    (refs : list string) :
  normalize bracketed_host_ok base refs
  = map_result (spec_normalize_ref bracketed_host_ok base) refs.
Proof.
  exact (ensure_img_abs_urls_is_map bracketed_host_ok
           (parsed_worker base refs) eq_refl).
Qed.

(** C3 as stated fails: a reference that has a network location and no
    scheme is not passed through, it is joined with the base. *)
Lemma network_location_reference_is_joined :
  (urlsplit no_bracketed_host "//cdn.example.com/a.png" EmptyString
     ≫= fun r => Ok (scheme r, netloc r))
  = Ok (EmptyString, "cdn.example.com"%string) /\
  (_ensure_img_abs_urls no_bracketed_host
     (parsed_worker "https://example.com" ["//cdn.example.com/a.png"%string])
     ≫= fun self => Ok (image_urls self))
  = Ok ["https://cdn.example.com/a.png"%string].
Proof. split; vm_compute; reflexivity. Qed.

(** C3, amended. On a worker whose image count is the length of its image
    list, the normalizer rewrites the list position by position: a
    reference that has both a scheme and a network location stays as it is,
    and every other reference, one that lacks the scheme or the network
    location, is replaced by its join with the page URL. The order and the
    length are kept, and the run raises where [urlsplit] or [urljoin]
    raises. *)
Theorem ensure_img_abs_urls_joins_incomplete_refs
    (bracketed_host_ok : string -> bool) (self : Worker) :
  images self = len (image_urls self) ->
  (_ensure_img_abs_urls bracketed_host_ok self
     ≫= fun self' => Ok (image_urls self'))
  = map_result
      (fun ref =>
         components ← urlsplit bracketed_host_ok ref EmptyString;
         if nonempty (scheme components) && nonempty (netloc components)
         then Ok ref
         else urljoin bracketed_host_ok (url self) ref)
      (image_urls self).
Proof. exact (ensure_img_abs_urls_is_map bracketed_host_ok self). Qed.

Lemma ensure_img_abs_urls_joins_incomplete_refs_witness :
  (_ensure_img_abs_urls no_bracketed_host
     (parsed_worker "https://example.com"
        ["img/a.png"; "https://cdn.example.com/b.png"; "//cdn.example.com/c.png"]%string)
     ≫= fun self' => Ok (image_urls self'))
  = Ok ["https://example.com/img/a.png"; "https://cdn.example.com/b.png";
        "https://cdn.example.com/c.png"]%string.
Proof.
  rewrite (ensure_img_abs_urls_joins_incomplete_refs no_bracketed_host
             (parsed_worker "https://example.com"
                ["img/a.png"; "https://cdn.example.com/b.png";
                 "//cdn.example.com/c.png"]%string) eq_refl).
  vm_compute. reflexivity.
Defined.

(** **** [urlsplit], stage by stage *)

Lemma urlsplit_stages (bracketed_host_ok : string -> bool) (url default : string) :
  urlsplit bracketed_host_ok url default =
  split_after_scheme bracketed_host_ok
    (fst (detect_scheme (clean_url url) (clean_scheme default)))
    (snd (detect_scheme (clean_url url) (clean_scheme default))).
Proof.
  unfold urlsplit, detect_scheme, clean_url, clean_scheme, split_after_scheme.
  destruct (_ && _ && _); reflexivity.
Qed.

Lemma netloc_delim_cases (c : ascii) :
  netloc_delim c = true -> c = "/"%char \/ c = "?"%char \/ c = "#"%char.
Proof.
  unfold netloc_delim. cbn [Str.contains_char].
  destruct (Ascii.eqb_spec "/" c) as [<- |]; [now left |].
  destruct (Ascii.eqb_spec "?" c) as [<- |]; [now right; left |].
  destruct (Ascii.eqb_spec "#" c) as [<- |]; [now right; right |].
  discriminate.
Qed.

Lemma no_delim_not (n : string) (c : ascii) :
  no_delim n = true -> netloc_delim c = true ->
  Str.forallb (fun x => negb (Ascii.eqb x c)) n = true.
Proof.
  intros Hn Hc. revert Hn. apply forallb_impl. intros x Hx.
  destruct (Ascii.eqb_spec x c) as [-> |]; [| reflexivity].
  now rewrite Hc in Hx.
Qed.

(** Every string splits into a delimiter-free prefix and a rest that is
    empty or starts with a delimiter. *)
Lemma span_no_delim (x : string) :
  exists n t, x = n +:+ t /\ no_delim n = true /\ starts_with_delim t = true.
Proof.
  induction x as [| c x (n & t & -> & Hn & Ht)].
  - exists EmptyString, EmptyString. repeat split.
  - destruct (netloc_delim c) eqn:Hc.
    + exists EmptyString, (String c (n +:+ t)). repeat split. exact Hc.
    + exists (String c n), t. repeat split; [| exact Ht].
      unfold no_delim in *. cbn [Str.forallb]. now rewrite Hc.
Qed.

Lemma find_from_2 (c : ascii) (x : string) :
  find_from c 2 (String "/" (String "/" x)) =
  if Str.find c x <? 0 then -1 else Str.find c x + 2.
Proof. reflexivity. Qed.

Lemma find_delim_in_tail (c : ascii) (n t : string) :
  no_delim n = true -> netloc_delim c = true ->
  let w := find_from c 2 (String "/" (String "/" (n +:+ t))) in
  (w = -1 \/ Z.of_nat (String.length n) + 2 <= w) /\
  (t = EmptyString -> w = -1) /\
  (forall t', t = String c t' -> w = Z.of_nat (String.length n) + 2).
Proof.
  intros Hn Hc. cbv zeta. rewrite find_from_2.
  rewrite (find_app_skip c n t (no_delim_not n c Hn Hc)).
  pose proof (find_lower_bound c t) as Hlow.
  repeat split.
  - destruct (Z.ltb_spec (Str.find c t) 0); cbn; [now left |].
    destruct (Z.ltb_spec (Str.find c t + Z.of_nat (String.length n)) 0); lia.
  - intros ->. reflexivity.
  - intros t' ->. cbn [Str.find]. rewrite Ascii.eqb_refl.
    change (0 <? 0) with false. cbv iota. rewrite Z.add_0_l.
    destruct (Z.ltb_spec (Z.of_nat (String.length n)) 0); lia.
Qed.

Lemma splitnetloc_span (n t : string) :
  no_delim n = true -> starts_with_delim t = true ->
  _splitnetloc (String "/" (String "/" (n +:+ t))) 2 = (n, t).
Proof.
  intros Hn Ht. unfold _splitnetloc. cbn [fold_left].
  destruct (find_delim_in_tail "/" n t Hn eq_refl) as (H1 & H1e & H1c).
  destruct (find_delim_in_tail "?" n t Hn eq_refl) as (H2 & H2e & H2c).
  destruct (find_delim_in_tail "#" n t Hn eq_refl) as (H3 & H3e & H3c).
  cbv zeta in *.
  set (w1 := find_from "/" 2 _) in *.
  set (w2 := find_from "?" 2 _) in *.
  set (w3 := find_from "#" 2 _) in *.
  assert (Hlen : Z.of_nat (String.length (String "/" (String "/" (n +:+ t))))
                 = Z.of_nat (String.length n) + Z.of_nat (String.length t) + 2).
  { cbn [String.length]. rewrite str_length_app. lia. }
  rewrite Hlen.
  set (delim := if 0 <=? w3 then _ else _).
  assert (Hdelim : delim = Z.of_nat (String.length n) + 2).
  { subst delim. destruct t as [| c t'].
    - rewrite (H1e eq_refl), (H2e eq_refl), (H3e eq_refl). cbn. lia.
    - destruct (netloc_delim_cases c Ht) as [-> | [-> | ->]];
        [specialize (H1c _ eq_refl) | specialize (H2c _ eq_refl)
        | specialize (H3c _ eq_refl)];
        destruct (Z.leb_spec 0 w1), (Z.leb_spec 0 w2), (Z.leb_spec 0 w3);
        cbn [String.length]; lia. }
  rewrite Hdelim.
  replace (Z.to_nat (Z.of_nat (String.length n) + 2) - 2)%nat
    with (String.length n) by lia.
  replace (Z.to_nat (Z.of_nat (String.length n) + 2))
    with (S (S (String.length n))) by lia.
  cbn [Str.drop]. now rewrite take_app, drop_app.
Qed.

Lemma scheme_char_facts (c : ascii) :
  scheme_char c = true ->
  negb (Ascii.eqb c ":") = true /\ negb (unsafe_url_byte c) = true.
Proof.
  by_all_chars c.
Qed.

Lemma ascii_alpha_not_c0 (c : ascii) :
  Str.is_ascii_alpha c = true -> c0_control_or_space c = false.
Proof.
  by_all_chars c.
Qed.

Lemma take_1_app (p y : string) :
  nonempty p = true -> Str.take 1 (p +:+ y) = Str.take 1 p.
Proof. destruct p; [discriminate | reflexivity]. Qed.

Lemma detect_scheme_like (p y default : string) :
  scheme_like p = true ->
  detect_scheme (p +:+ String ":" y) default = (Str.lower p, y).
Proof.
  unfold scheme_like. intros H.
  apply andb_prop in H as [H Hchars]. apply andb_prop in H as [Hne Halpha].
  assert (Hcolon : Str.forallb (fun x => negb (Ascii.eqb x ":")) p = true).
  { revert Hchars. apply forallb_impl. intros c Hc.
    now apply scheme_char_facts. }
  unfold detect_scheme.
  rewrite (find_app_skip ":" p (String ":" y) Hcolon).
  cbn [Str.find]. rewrite Ascii.eqb_refl.
  change (0 <? 0) with false. cbv iota. rewrite Z.add_0_l.
  rewrite (take_1_app p _ Hne), Halpha, Nat2Z.id, take_app, Hchars.
  assert (Hpos : (0 <? Z.of_nat (String.length p)) = true).
  { destruct p; [discriminate | reflexivity]. }
  rewrite Hpos. cbn [andb].
  replace (Z.to_nat (Z.of_nat (String.length p) + 1))
    with (String.length (p +:+ ":"))
    by (rewrite str_length_app; cbn; lia).
  replace (p +:+ String ":" y) with ((p +:+ ":") +:+ y)
    by (now rewrite str_app_assoc).
  now rewrite drop_app.
Qed.

Lemma lstrip_scheme_like (p y : string) :
  scheme_like p = true ->
  Str.lstrip c0_control_or_space (p +:+ y) = p +:+ y.
Proof.
  unfold scheme_like. intros H.
  apply andb_prop in H as [H _]. apply andb_prop in H as [Hne Halpha].
  destruct p as [| c p]; [discriminate |].
  cbn in Halpha. rewrite andb_true_r in Halpha.
  rewrite str_app_cons. cbn [Str.lstrip].
  now rewrite (ascii_alpha_not_c0 c Halpha).
Qed.

Lemma scheme_like_no_unsafe (p : string) :
  scheme_like p = true -> no_unsafe p = true.
Proof.
  unfold scheme_like. intros H. apply andb_prop in H as [_ Hchars].
  revert Hchars. apply forallb_impl. intros c Hc. now apply scheme_char_facts.
Qed.

Lemma starts_with_delim_remove (t : string) :
  starts_with_delim t = true ->
  starts_with_delim (Str.remove unsafe_url_byte t) = true.
Proof.
  destruct t as [| c t]; [reflexivity |]. cbn [starts_with_delim Str.remove].
  intros Hc.
  destruct (netloc_delim_cases c Hc) as [-> | [-> | ->]]; reflexivity.
Qed.

Lemma split_after_scheme_netloc (bracketed_host_ok : string -> bool)
    (sch n t : string) :
  no_delim n = true -> starts_with_delim t = true ->
  exists p q f,
    split_after_scheme bracketed_host_ok sch (String "/" (String "/" (n +:+ t)))
    = (_ ← check_netloc_brackets bracketed_host_ok n;
       Ok {| scheme := sch; netloc := n; path := p; query := q;
             fragment := f |}).
Proof.
  intros Hn Ht. unfold split_after_scheme.
  change (Str.take 2 (String "/" (String "/" (n +:+ t)))) with "//"%string.
  rewrite String.eqb_refl, (splitnetloc_span n t Hn Ht).
  destruct (check_netloc_brackets bracketed_host_ok n) as [[] | e]; cbn.
  - destruct (Str.partition "#" t) as [[a b] |];
      [destruct (Str.partition "?" a) as [[a' b'] |]
      | destruct (Str.partition "?" t) as [[a' b'] |]]; eauto.
  - exists EmptyString, EmptyString, EmptyString. reflexivity.
Qed.

(** [urlsplit] on a string of the form [scheme://netloc] followed by nothing
    or by a delimiter reads the scheme and the network location back. *)
Lemma urlsplit_absolute (bracketed_host_ok : string -> bool)
    (sch n t default : string) :
  scheme_like sch = true -> no_delim n = true -> no_unsafe n = true ->
  starts_with_delim t = true ->
  exists p q f,
    urlsplit bracketed_host_ok (sch +:+ "://" +:+ n +:+ t) default
    = (_ ← check_netloc_brackets bracketed_host_ok n;
       Ok {| scheme := Str.lower sch; netloc := n; path := p; query := q;
             fragment := f |}).
Proof.
  intros Hsch Hn Hclean Ht. rewrite urlsplit_stages.
  unfold clean_url. rewrite (lstrip_scheme_like sch _ Hsch).
  rewrite !remove_app.
  rewrite (remove_none _ sch (scheme_like_no_unsafe sch Hsch)).
  rewrite (remove_none _ n Hclean).
  change (Str.remove unsafe_url_byte "://") with "://"%string.
  change ("://" +:+ n +:+ Str.remove unsafe_url_byte t)
    with (String ":" (String "/" (String "/" (n +:+ Str.remove unsafe_url_byte t)))).
  rewrite (detect_scheme_like sch _ _ Hsch). cbn [fst snd].
  apply split_after_scheme_netloc;
    [exact Hn | now apply starts_with_delim_remove].
Qed.

Lemma take_2_slashes (u : string) :
  String.eqb (Str.take 2 u) "//" = true ->
  exists x, u = String "/" (String "/" x).
Proof.
  intros H. apply String.eqb_eq in H.
  destruct u as [| a [| b x]]; try discriminate.
  cbn in H. injection H as -> ->. eauto.
Qed.

Lemma forallb_app_l (p : ascii -> bool) (a b : string) :
  Str.forallb p (a +:+ b) = true -> Str.forallb p a = true.
Proof. rewrite forallb_app. intros H. now apply andb_prop in H as [H _]. Qed.

Lemma detect_scheme_no_unsafe (u default : string) :
  no_unsafe u = true -> no_unsafe (snd (detect_scheme u default)) = true.
Proof.
  intros Hu. unfold detect_scheme.
  destruct (_ && _ && _); cbn [snd]; [| exact Hu].
  now apply forallb_drop.
Qed.

Lemma split_after_scheme_good (bracketed_host_ok : string -> bool)
    (sch u : string) (r : SplitResult) :
  no_unsafe u = true ->
  split_after_scheme bracketed_host_ok sch u = Ok r ->
  scheme r = sch /\ good_netloc bracketed_host_ok (netloc r).
Proof.
  intros Hu. unfold split_after_scheme.
  destruct (String.eqb (Str.take 2 u) "//") eqn:Hslashes.
  - destruct (take_2_slashes u Hslashes) as [x ->].
    destruct (span_no_delim x) as (n & t & -> & Hn & Ht).
    rewrite (splitnetloc_span n t Hn Ht).
    destruct (check_netloc_brackets bracketed_host_ok n) as [[] | e] eqn:Hcheck;
      cbn; [| discriminate].
    assert (Hclean : no_unsafe n = true).
    { unfold no_unsafe in *. cbn in Hu. now apply forallb_app_l in Hu. }
    destruct (Str.partition "#" t) as [[a b] |];
      [destruct (Str.partition "?" a) as [[a' b'] |]
      | destruct (Str.partition "?" t) as [[a' b'] |]];
      intros [= <-]; cbn; repeat split; assumption.
  - cbn.
    destruct (Str.partition "#" u) as [[a b] |];
      [destruct (Str.partition "?" a) as [[a' b'] |]
      | destruct (Str.partition "?" u) as [[a' b'] |]];
      intros [= <-]; cbn; repeat split; reflexivity.
Qed.

Lemma urlsplit_good_netloc (bracketed_host_ok : string -> bool)
    (url default : string) (r : SplitResult) :
  urlsplit bracketed_host_ok url default = Ok r ->
  good_netloc bracketed_host_ok (netloc r).
Proof.
  rewrite urlsplit_stages. intros H.
  eapply split_after_scheme_good; [| exact H].
  apply detect_scheme_no_unsafe. apply remove_clean.
Qed.

Lemma bind_ok {A B} (a : A) (f : A -> result B) : (Ok a ≫= f) = f a.
Proof. reflexivity. Qed.

(** [urlunparse] with a scheme and a network location writes
    [scheme://netloc] followed by nothing or by a delimiter. *)
Lemma urlunparse_absolute (sch n path params q f : string) :
  nonempty sch = true -> nonempty n = true ->
  exists t,
    starts_with_delim t = true /\
    urlunparse sch n path params q f = sch +:+ "://" +:+ n +:+ t.
Proof.
  intros Hsch Hn. unfold urlunparse, urlunsplit.
  rewrite Hn, Hsch. cbn [orb].
  set (url0 := if nonempty params then _ else _).
  set (url1 := if nonempty url0 && _ then _ else _).
  assert (Hurl1 : starts_with_delim url1 = true).
  { subst url1. destruct url0 as [| c url0]; [reflexivity |].
    cbn [nonempty andb Str.take].
    destruct (String.eqb_spec (String c EmptyString) "/") as [[= ->] |];
      reflexivity. }
  exists (url1 +:+ (if nonempty q then "?" +:+ q else EmptyString)
               +:+ (if nonempty f then "#" +:+ f else EmptyString)).
  split.
  - destruct url1 as [| c url1]; [| exact Hurl1].
    rewrite str_app_nil_l. destruct q, f; reflexivity.
  - destruct (nonempty q), (nonempty f);
      rewrite ?str_app_assoc, ?str_app_nil_r; reflexivity.
Qed.

Lemma urlparse_split (bracketed_host_ok : string -> bool) (url default : string)
    (u : ParseResult) :
  urlparse bracketed_host_ok url default = Ok u ->
  exists r, urlsplit bracketed_host_ok url default = Ok r /\
            p_scheme u = scheme r /\ p_netloc u = netloc r.
Proof.
  unfold urlparse.
  destruct (urlsplit bracketed_host_ok url default) as [r | e]; cbn;
    [| discriminate].
  destruct (if _ && _ then _ else _) as [p params].
  intros [= <-]. exists r. repeat split.
Qed.

Lemma in_uses_relative_netloc (sch : string) :
  sch = "http"%string \/ sch = "https"%string ->
  scheme_like sch = true /\ Str.lower sch = sch /\ nonempty sch = true /\
  in_list sch uses_relative = true /\ in_list sch uses_netloc = true /\
  clean_scheme sch = sch.
Proof. intros [-> | ->]; repeat split; reflexivity. Qed.

Lemma is_absolute_normalize_ref (bracketed_host_ok : string -> bool)
    (base ref : string) :
  is_absolute bracketed_host_ok ref ->
  spec_normalize_ref bracketed_host_ok base ref = Ok ref.
Proof.
  intros (r & Hr & Hs & Hn). unfold spec_normalize_ref.
  rewrite Hr. cbn. now rewrite Hs, Hn.
Qed.

Lemma unparse_is_absolute (bracketed_host_ok : string -> bool)
    (sch n path params q f : string) :
  sch = "http"%string \/ sch = "https"%string ->
  nonempty n = true -> good_netloc bracketed_host_ok n ->
  exists r,
    urlsplit bracketed_host_ok (urlunparse sch n path params q f) EmptyString
    = Ok r /\ scheme r = sch /\ netloc r = n.
Proof.
  intros Hsch Hn (Hdelim & Hclean & Hcheck).
  destruct (in_uses_relative_netloc sch Hsch) as (Hlike & Hlower & Hne & _).
  destruct (urlunparse_absolute sch n path params q f Hne Hn) as (t & Ht & ->).
  destruct (urlsplit_absolute bracketed_host_ok sch n t EmptyString
              Hlike Hdelim Hclean Ht) as (p' & q' & f' & ->).
  rewrite Hcheck, Hlower. cbn. eauto.
Qed.

(** The join of a reference with an absolute base is the reference itself,
    when it has a scheme other than the base's, or a URL that splits into
    the base's scheme and a network location. *)
Lemma urljoin_absolute_base (bracketed_host_ok : string -> bool)
    (base ref joined : string) :
  absolute_base bracketed_host_ok base ->
  urljoin bracketed_host_ok base ref = Ok joined ->
  (joined = ref /\
   exists b u, urlsplit bracketed_host_ok base EmptyString = Ok b /\
               urlsplit bracketed_host_ok ref (scheme b) = Ok u /\
               scheme u <> scheme b) \/
  is_absolute bracketed_host_ok joined.
Proof.
  intros (b & Hb & Hbscheme & Hbnetloc) Hjoin.
  assert (Habs_base : is_absolute bracketed_host_ok base).
  { exists b. repeat split; [exact Hb | | exact Hbnetloc].
    now destruct Hbscheme as [-> | ->]. }
  unfold urljoin in Hjoin.
  destruct (nonempty base) eqn:Hbase; cbn [negb] in Hjoin.
  2: { unfold is_absolute in Habs_base. destruct base; [| discriminate].
       destruct Habs_base as (r & Hr & Hs & _).
       vm_compute in Hr. injection Hr as <-. discriminate. }
  destruct (nonempty ref) eqn:Href; cbn [negb] in Hjoin.
  2: { injection Hjoin as <-. now right. }
  destruct (urlparse bracketed_host_ok base EmptyString) as [bp | e] eqn:Hbp;
    [rewrite bind_ok in Hjoin | discriminate].
  destruct (urlparse_split _ _ _ _ Hbp) as (b' & Hb' & Hbps & Hbpn).
  rewrite Hb in Hb'. injection Hb' as <-.
  destruct (urlparse bracketed_host_ok ref (p_scheme bp)) as [u | e] eqn:Hu;
    [rewrite bind_ok in Hjoin; cbv zeta in Hjoin | discriminate].
  destruct (urlparse_split _ _ _ _ Hu) as (r & Hr & Hus & Hun).
  rewrite Hbps in *.
  destruct (String.eqb_spec (p_scheme u) (scheme b)) as [Hsame | Hdiff];
    cbn [negb orb] in Hjoin.
  2: { injection Hjoin as <-. left. split; [reflexivity |].
       exists b, r. repeat split; [exact Hb | exact Hr | congruence]. }
  assert (Hsch : p_scheme u = "http"%string \/ p_scheme u = "https"%string)
    by (rewrite Hsame; exact Hbscheme).
  destruct (in_uses_relative_netloc _ Hsch) as (_ & _ & _ & Hrel & Hnet & _).
  rewrite Hrel, Hnet in Hjoin. cbn [negb andb] in Hjoin.
  right.
  destruct (nonempty (p_netloc u)) eqn:Hnetloc.
  - injection Hjoin as <-.
    destruct (unparse_is_absolute bracketed_host_ok (p_scheme u) (p_netloc u)
                (p_path u) (p_params u) (p_query u) (p_fragment u) Hsch Hnetloc)
      as (r' & Hr' & Hs' & Hn').
    { rewrite Hun. exact (urlsplit_good_netloc _ _ _ _ Hr). }
    exists r'. repeat split; [exact Hr' | | now rewrite Hn'].
    rewrite Hs'. now destruct Hsch as [-> | ->].
  - assert (Hgood : good_netloc bracketed_host_ok (p_netloc bp)).
    { rewrite Hbpn. exact (urlsplit_good_netloc _ _ _ _ Hb). }
    assert (Hbn : nonempty (p_netloc bp) = true) by (now rewrite Hbpn).
    destruct (negb (nonempty (p_path u)) && negb (nonempty (p_params u)));
      injection Hjoin as <-;
      match goal with
      | |- is_absolute _ (urlunparse ?s ?n ?p ?pa ?q ?f) =>
          destruct (unparse_is_absolute bracketed_host_ok s n p pa q f
                      Hsch Hbn Hgood) as (r' & Hr' & Hs' & Hn')
      end;
      (exists r'; repeat split;
       [exact Hr' | rewrite Hs'; now destruct Hsch as [-> | ->]
       | now rewrite Hn']).
Qed.

(** **** Validated bases *)

Lemma get_valid_user_url_validated (bracketed_host_ok : string -> bool)
    (self self' : Worker) (typed : string) :
  _get_valid_user_url bracketed_host_ok self typed = Ok (true, self') ->
  validated_base bracketed_host_ok (url self').
Proof.
  unfold _get_valid_user_url.
  destruct (_is_valid_url (Str.strip Str.isspace typed)) eqn:Hvalid;
    [| discriminate].
  destruct (urlsplit bracketed_host_ok _ EmptyString) as [b |] eqn:Hb;
    [| discriminate].
  intros [= <-]. split; [exact Hvalid | eauto].
Qed.

Lemma no_delim_cons_nonempty (c : ascii) (rest n t : string) :
  netloc_delim c = false -> String c rest = n +:+ t ->
  starts_with_delim t = true -> nonempty n = true.
Proof.
  intros Hc Heq Ht. destruct n; [| reflexivity].
  rewrite str_app_nil_l in Heq. subst t. cbn [starts_with_delim] in Ht.
  congruence.
Qed.

Lemma validated_base_absolute (bracketed_host_ok : string -> bool)
    (base : string) :
  validated_base bracketed_host_ok base -> absolute_base bracketed_host_ok base.
Proof.
  intros [Hvalid [b Hb]].
  destruct (valid_url_shape base Hvalid)
    as (p & c & rest & -> & Hlike & Hlower & Hdelim & Hunsafe).
  exists b. split; [exact Hb |].
  rewrite urlsplit_stages in Hb. unfold clean_url in Hb.
  rewrite (lstrip_scheme_like p _ Hlike) in Hb.
  rewrite remove_app in Hb.
  rewrite (remove_none _ p (scheme_like_no_unsafe p Hlike)) in Hb.
  cbn [Str.remove] in Hb.
  change (unsafe_url_byte ":") with false in Hb.
  change (unsafe_url_byte "/") with false in Hb.
  rewrite Hunsafe in Hb. cbv iota in Hb.
  rewrite (detect_scheme_like p _ _ Hlike) in Hb. cbn [fst snd] in Hb.
  destruct (span_no_delim (String c (Str.remove unsafe_url_byte rest)))
    as (n & t & Heq & Hn & Ht).
  rewrite Heq in Hb.
  destruct (split_after_scheme_netloc bracketed_host_ok (Str.lower p) n t Hn Ht)
    as (p' & q' & f' & Hsplit).
  rewrite Hsplit in Hb.
  destruct (check_netloc_brackets bracketed_host_ok n) as [[] | e];
    [| discriminate].
  rewrite bind_ok in Hb. injection Hb as <-. cbn [scheme netloc].
  split; [exact Hlower |].
  exact (no_delim_cons_nonempty c _ n t Hdelim Heq Ht).
Qed.

(** **** The default scheme of [urlsplit] *)

Lemma split_after_scheme_other (bracketed_host_ok : string -> bool)
    (sch sch' u : string) (r : SplitResult) :
  split_after_scheme bracketed_host_ok sch u = Ok r ->
  scheme r = sch /\
  split_after_scheme bracketed_host_ok sch' u
  = Ok {| scheme := sch'; netloc := netloc r; path := path r;
          query := query r; fragment := fragment r |}.
Proof.
  unfold split_after_scheme.
  destruct (if String.eqb (Str.take 2 u) "//" then _ else _) as [[n u'] | e];
    [| discriminate].
  rewrite !bind_ok.
  destruct (Str.partition "#" u') as [[a b] |];
    [destruct (Str.partition "?" a) as [[a' b'] |]
    | destruct (Str.partition "?" u') as [[a' b'] |]];
    intros [= <-]; split; reflexivity.
Qed.

Lemma find_empty_prefix (c : ascii) (u : string) :
  (0 <? Str.find c u) = true ->
  nonempty (Str.take (Z.to_nat (Str.find c u)) u) = true.
Proof.
  destruct u as [| x u]; [discriminate |].
  intros H. destruct (Z.to_nat (Str.find c (String x u))) eqn:Hn;
    [| reflexivity].
  apply Z.ltb_lt in H. lia.
Qed.

Lemma lower_nonempty (s : string) : nonempty (Str.lower s) = nonempty s.
Proof. now destruct s. Qed.

(** With a default scheme, [urlsplit] returns what it returns without one,
    except that the default stands in for a scheme that is absent. *)
Lemma urlsplit_default_scheme (bracketed_host_ok : string -> bool)
    (url default : string) (r : SplitResult) :
  urlsplit bracketed_host_ok url default = Ok r ->
  exists r0,
    urlsplit bracketed_host_ok url EmptyString = Ok r0 /\
    netloc r0 = netloc r /\
    ((scheme r0 = scheme r /\ nonempty (scheme r) = true) \/
     (scheme r0 = EmptyString /\ scheme r = clean_scheme default)).
Proof.
  rewrite !urlsplit_stages. unfold detect_scheme.
  change (clean_scheme EmptyString) with EmptyString.
  set (u := clean_url url).
  destruct (0 <? Str.find ":" u) eqn:Hpos; cbn [andb].
  1: destruct (Str.forallb Str.is_ascii_alpha (Str.take 1 u)
               && Str.forallb scheme_char (Str.take (Z.to_nat (Str.find ":" u)) u))
       eqn:Hdetect.
  - cbn [fst snd]. intros Hr. exists r. split; [exact Hr |].
    split; [reflexivity |]. left. split; [reflexivity |].
    apply split_after_scheme_good in Hr as [-> _].
    + rewrite lower_nonempty. now apply find_empty_prefix.
    + apply forallb_drop. apply remove_clean.
  - cbn [fst snd]. intros Hr.
    destruct (split_after_scheme_other _ _ EmptyString _ _ Hr) as [Hs Hr0].
    eexists. split; [exact Hr0 |]. cbn. split; [reflexivity |].
    right. split; [reflexivity | exact Hs].
  - cbn [fst snd]. intros Hr.
    destruct (split_after_scheme_other _ _ EmptyString _ _ Hr) as [Hs Hr0].
    eexists. split; [exact Hr0 |]. cbn. split; [reflexivity |].
    right. split; [reflexivity | exact Hs].
Qed.

(** **** One reference *)

Lemma normalize_ref_idempotent (bracketed_host_ok : string -> bool)
    (base ref new : string) :
  absolute_base bracketed_host_ok base ->
  spec_normalize_ref bracketed_host_ok base ref = Ok new ->
  spec_normalize_ref bracketed_host_ok base new = Ok new.
Proof.
  intros Hbase Hnew. pose proof Hnew as Hsame.
  unfold spec_normalize_ref in Hnew.
  destruct (urlsplit bracketed_host_ok ref EmptyString) as [c | e];
    [rewrite bind_ok in Hnew | discriminate].
  destruct (nonempty (scheme c) && nonempty (netloc c)).
  - injection Hnew as <-. exact Hsame.
  - destruct (urljoin_absolute_base _ _ _ _ Hbase Hnew) as [[-> _] | Habs].
    + exact Hsame.
    + now apply is_absolute_normalize_ref.
Qed.

Lemma nonempty_false (s : string) : nonempty s = false -> s = EmptyString.
Proof. now destruct s. Qed.

(** What a normalized reference looks like. *)
Lemma normalize_ref_shape (bracketed_host_ok : string -> bool)
    (base ref new : string) (b : SplitResult) :
  urlsplit bracketed_host_ok base EmptyString = Ok b ->
  absolute_base bracketed_host_ok base ->
  spec_normalize_ref bracketed_host_ok base ref = Ok new ->
  exists r,
    urlsplit bracketed_host_ok new EmptyString = Ok r /\
    nonempty (scheme r) = true /\
    (nonempty (netloc r) = true \/
     (new = ref /\ scheme r <> scheme b /\ netloc r = EmptyString)).
Proof.
  intros Hb Hbase Hnew. unfold spec_normalize_ref in Hnew.
  destruct (urlsplit bracketed_host_ok ref EmptyString) as [c | e] eqn:Hc;
    [rewrite bind_ok in Hnew | discriminate].
  destruct (nonempty (scheme c) && nonempty (netloc c)) eqn:Hboth.
  - injection Hnew as <-. apply andb_prop in Hboth as [Hs Hn].
    exists c. repeat split; [exact Hc | exact Hs | now left].
  - destruct (urljoin_absolute_base _ _ _ _ Hbase Hnew)
      as [[-> (b' & u & Hb' & Hu & Hdiff)] | (r & Hr & Hs & Hn)].
    + rewrite Hb in Hb'. injection Hb' as <-.
      destruct (urlsplit_default_scheme _ _ _ _ Hu)
        as (r0 & Hr0 & Hnet & [[Hsame Hne] | [_ Hdefault]]).
      * rewrite Hc in Hr0. injection Hr0 as <-.
        exists c. split; [exact Hc |].
        rewrite Hsame. split; [exact Hne |]. right.
        split; [reflexivity |]. split; [exact Hdiff |].
        rewrite Hsame, Hne in Hboth. cbn in Hboth.
        now apply nonempty_false.
      * exfalso. apply Hdiff. rewrite Hdefault.
        destruct Hbase as (b2 & Hb2 & Hsch & _).
        rewrite Hb in Hb2. injection Hb2 as <-.
        now destruct Hsch as [-> | ->].
    + exists r. repeat split; [exact Hr | exact Hs | now left].
Qed.

(** **** Lists of references *)

Lemma map_result_Forall2 {A B} (f : A -> result B) (l : list A) (out : list B) :
  map_result f l = Ok out -> Forall2 (fun a b => f a = Ok b) l out.
Proof.
  revert out. induction l as [| a l IH]; intros out; cbn [map_result].
  - intros [= <-]. constructor.
  - destruct (f a) as [b | e] eqn:Hb; [rewrite bind_ok | discriminate].
    destruct (map_result f l) as [bs | e]; [rewrite bind_ok | discriminate].
    intros [= <-]. constructor; [exact Hb | now apply IH].
Qed.

Lemma Forall2_map_result {A} (f : A -> result A) (l : list A) :
  Forall (fun a => f a = Ok a) l -> map_result f l = Ok l.
Proof.
  induction 1 as [| a l Ha _ IH]; cbn [map_result]; [reflexivity |].
  now rewrite Ha, bind_ok, IH.
Qed.

Lemma map_result_idempotent {A} (f : A -> result A) (l out : list A) :
  (forall a b, f a = Ok b -> f b = Ok b) ->
  map_result f l = Ok out -> map_result f out = Ok out.
Proof.
  intros Hf Hout. apply Forall2_map_result.
  apply map_result_Forall2 in Hout.
  induction Hout as [| a b l out Hab _ IH]; constructor; eauto.
Qed.

(** C4 as stated fails: idempotence does not hold for every base URL. With
    a base that [urlsplit] reads without scheme and network location, a
    relative reference is resolved against the path of the base, and the
    result, still without scheme and network location, is resolved once
    more by a second run. *)
Lemma schemeless_base_is_not_idempotent :
  (urlsplit no_bracketed_host "example.com/docs/index.html" EmptyString
     ≫= fun r => Ok (scheme r, netloc r, path r))
  = Ok (EmptyString, EmptyString, "example.com/docs/index.html"%string) /\
  normalize no_bracketed_host "example.com/docs/index.html" ["img/a.png"%string]
  = Ok ["example.com/docs/img/a.png"%string] /\
  normalize no_bracketed_host "example.com/docs/index.html"
    ["example.com/docs/img/a.png"%string]
  = Ok ["example.com/docs/example.com/docs/img/a.png"%string].
Proof. repeat split; vm_compute; reflexivity. Qed.

(** C4, amended. With a base URL that [urlsplit] reads with the scheme
    [http] or [https] and a network location that is not empty, normalizing
    a normalized sequence gives that sequence again, and so [normalize]
    followed by [normalize] is [normalize]; the result holds, position by
    position, the normalization of the reference at that position, so the
    order is kept. *)
Theorem normalize_idempotent (bracketed_host_ok : string -> bool)
    (base : string) (b : SplitResult) (refs : list string) :
  urlsplit bracketed_host_ok base EmptyString = Ok b ->
  scheme b = "http"%string \/ scheme b = "https"%string ->
  nonempty (netloc b) = true ->
  (normalize bracketed_host_ok base refs ≫= normalize bracketed_host_ok base)
  = normalize bracketed_host_ok base refs /\
  forall out,
    normalize bracketed_host_ok base refs = Ok out ->
    normalize bracketed_host_ok base out = Ok out /\
    Forall2 (fun ref new => spec_normalize_ref bracketed_host_ok base ref = Ok new)
      refs out.
Proof.
  intros Hb Hscheme Hnetloc.
  assert (Hbase : absolute_base bracketed_host_ok base) by (exists b; auto).
  assert (Hout : forall out,
             normalize bracketed_host_ok base refs = Ok out ->
             normalize bracketed_host_ok base out = Ok out /\
             Forall2 (fun ref new =>
                        spec_normalize_ref bracketed_host_ok base ref = Ok new)
               refs out).
  { intros out Hout. rewrite normalize_is_map in *. split.
    - eapply map_result_idempotent; [| exact Hout].
      intros x y. now apply normalize_ref_idempotent.
    - now apply map_result_Forall2. }
  split; [| exact Hout].
  destruct (normalize bracketed_host_ok base refs) as [out | e] eqn:Hrefs;
    [| reflexivity].
  rewrite bind_ok. now apply Hout.
Qed.

Lemma normalize_idempotent_witness :
  (normalize no_bracketed_host "https://example.com"
     ["img/a.png"; "//cdn.example.com/c.png"; "data:image/png;base64,AAAA"]%string
   ≫= normalize no_bracketed_host "https://example.com")
  = normalize no_bracketed_host "https://example.com"
      ["img/a.png"; "//cdn.example.com/c.png"; "data:image/png;base64,AAAA"]%string.
Proof.
  refine (proj1 (normalize_idempotent no_bracketed_host "https://example.com"
                   {| scheme := "https"; netloc := "example.com";
                      path := EmptyString; query := EmptyString;
                      fragment := EmptyString |}
                   ["img/a.png"; "//cdn.example.com/c.png";
                    "data:image/png;base64,AAAA"]%string _ _ _)).
  - vm_compute. reflexivity.
  - now right.
  - reflexivity.
Defined.

(** C5 as stated fails: a [data:] reference comes out of the normalizer as
    it went in, with a scheme and without a network location or host. *)
Lemma data_reference_stays_without_host :
  _is_valid_url "https://example.com" = true /\
  normalize no_bracketed_host "https://example.com"
    ["data:image/png;base64,AAAA"]%string
  = Ok ["data:image/png;base64,AAAA"]%string /\
  (urlsplit no_bracketed_host "data:image/png;base64,AAAA" EmptyString
     ≫= fun r => Ok (scheme r, netloc r, hostname r))
  = Ok ("data"%string, EmptyString, None).
Proof. repeat split; vm_compute; reflexivity. Qed.

(** C5, amended. With a base URL that [urlsplit] reads with the scheme
    [http] or [https] and a network location that is not empty, every
    reference in the result of the normalizer has a scheme, and it has a
    network location unless it is the input reference at that position,
    kept as it was, with a scheme that is not the base's and no network
    location. *)
Theorem normalized_refs_have_scheme (bracketed_host_ok : string -> bool)
    (base : string) (b : SplitResult) (refs out : list string) :
  urlsplit bracketed_host_ok base EmptyString = Ok b ->
  scheme b = "http"%string \/ scheme b = "https"%string ->
  nonempty (netloc b) = true ->
  normalize bracketed_host_ok base refs = Ok out ->
  Forall2
    (fun ref new =>
       exists r,
         urlsplit bracketed_host_ok new EmptyString = Ok r /\
         nonempty (scheme r) = true /\
         (nonempty (netloc r) = true \/
          (new = ref /\ scheme r <> scheme b /\ netloc r = EmptyString)))
    refs out.
Proof.
  intros Hb Hscheme Hnetloc Hout.
  assert (Hbase : absolute_base bracketed_host_ok base) by (exists b; auto).
  rewrite normalize_is_map in Hout. apply map_result_Forall2 in Hout.
  induction Hout as [| ref new refs out Hnew _ IH]; constructor; [| exact IH].
  exact (normalize_ref_shape _ _ _ _ _ Hb Hbase Hnew).
Qed.

Lemma normalized_refs_have_scheme_witness :
  Forall2
    (fun ref new =>
       exists r,
         urlsplit no_bracketed_host new EmptyString = Ok r /\
         nonempty (scheme r) = true /\
         (nonempty (netloc r) = true \/
          (new = ref /\ scheme r <> "https"%string /\ netloc r = EmptyString)))
    ["img/a.png"; "data:image/png;base64,AAAA"]%string
    ["https://example.com/img/a.png"; "data:image/png;base64,AAAA"]%string.
Proof.
  refine (normalized_refs_have_scheme no_bracketed_host "https://example.com"
            {| scheme := "https"; netloc := "example.com"; path := EmptyString;
               query := EmptyString; fragment := EmptyString |}
            ["img/a.png"; "data:image/png;base64,AAAA"]%string
            ["https://example.com/img/a.png"; "data:image/png;base64,AAAA"]%string
            _ _ _ _).
  - vm_compute. reflexivity.
  - now right.
  - reflexivity.
  - vm_compute. reflexivity.
Defined.

(** *** The whole run *)

Lemma get_page_source_frame (network : string -> result Response)
    (self self' : Worker) (gets : list string) (ok : bool) :
  fst (_get_page_source network self gets) = Ok (ok, self') ->
  url self' = url self /\ url_components self' = url_components self.
Proof.
  unfold _get_page_source, requests_get.
  destruct (network (url self)) as [response | e]; cbn;
    [destruct (raise_for_status response); cbn;
     [destruct (headers_getitem _ _); cbn |] |];
    repeat case_match; cbn; intros Hret; inversion Hret; subst; auto.
Qed.

Lemma parse_page_source_frame (fromstring : string -> result node)
    (self self' : Worker) :
  _parse_page_source fromstring self = Ok (true, self') ->
  url self' = url self /\ url_components self' = url_components self /\
  images self' = len (image_urls self').
Proof.
  unfold _parse_page_source.
  destruct (fromstring (page_source self)) as [root | e].
  - intros [= <-]. auto.
  - destruct (issubclass e LxmlError); discriminate.
Qed.

Lemma ensure_img_abs_urls_frame (bracketed_host_ok : string -> bool)
    (self self' : Worker) :
  _ensure_img_abs_urls bracketed_host_ok self = Ok self' ->
  url self' = url self /\ url_components self' = url_components self /\
  title self' = title self /\ stylesheets self' = stylesheets self.
Proof.
  unfold _ensure_img_abs_urls.
  destruct (for_each _ _ _); cbn; [| discriminate].
  intros [= <-]. auto.
Qed.

Lemma do_work_gets (network : string -> result Response)
    (fromstring : string -> result node) (bracketed_host_ok : string -> bool)
    (self : Worker) (typed : string) :
  snd (do_work network fromstring bracketed_host_ok self typed)
  = if _is_valid_url (Str.strip Str.isspace typed) then
      match urlsplit bracketed_host_ok (Str.strip Str.isspace typed) EmptyString with
      | Ok _ => [Str.strip Str.isspace typed]
      | Raise _ => []
      end
    else [].
Proof.
  unfold do_work, _get_valid_user_url.
  destruct (_is_valid_url _); [| reflexivity].
  destruct (urlsplit _ _ _) as [c | e]; cbn [mbind result_bind];
    [| reflexivity].
  match goal with
  | |- context [_get_page_source network ?w []] =>
      pose proof (get_page_source_one_get network w []) as Hget;
      destruct (_get_page_source network w []) as [[[[] w'] | e] gets]
  end; cbn in Hget; subst gets; try reflexivity.
  destruct (_parse_page_source fromstring w') as [[[] w''] | e];
    try reflexivity.
  destruct (_ensure_img_abs_urls bracketed_host_ok w''); reflexivity.
Qed.

(** X1. Whatever the network and the parser do, [do_work] calls
    [requests.get] at most once: not at all when the validator rejects the
    stripped input or [urlsplit] refuses it, and otherwise exactly once,
    with the stripped input as the URL. The log holds the calls that the
    program makes; what the library does within a call, such as following
    a redirect, is not part of it. *)
Theorem requests_of_a_run (network : string -> result Response)
    (fromstring : string -> result node) (bracketed_host_ok : string -> bool)
    (self : Worker) (typed : string) :
  snd (do_work network fromstring bracketed_host_ok self typed)
  = if _is_valid_url (Str.strip Str.isspace typed) then
      match urlsplit bracketed_host_ok (Str.strip Str.isspace typed) EmptyString with
      | Ok _ => [Str.strip Str.isspace typed]
      | Raise _ => []
      end
    else [].
Proof.
  exact (do_work_gets network fromstring bracketed_host_ok self typed).
Qed.

Lemma valid_url_prefix (s : string) :
  _is_valid_url s = true ->
  Str.lower (Str.take 7 s) = "http://"%string \/
  Str.lower (Str.take 8 s) = "https://"%string.
Proof.
  intros H.
  destruct (valid_url_shape s H) as (p & c & rest & -> & _ & [Hp | Hp] & _).
  - left.
    destruct p as [| c1 [| c2 [| c3 [| c4 [| c5 p]]]]]; try discriminate.
    cbn in Hp. injection Hp as H1 H2 H3 H4.
    rewrite !str_app_cons, str_app_nil_l. cbn. now rewrite H1, H2, H3, H4.
  - right.
    destruct p as [| c1 [| c2 [| c3 [| c4 [| c5 [| c6 p]]]]]]; try discriminate.
    cbn in Hp. injection Hp as H1 H2 H3 H4 H5.
    rewrite !str_app_cons, str_app_nil_l. cbn.
    now rewrite H1, H2, H3, H4, H5.
Qed.

Lemma valid_url_starts_with_http (s : string) :
  _is_valid_url s = true -> Str.lower (Str.take 4 s) = "http"%string.
Proof.
  intros H.
  destruct s as [| c1 [| c2 [| c3 [| c4 s]]]];
    destruct (valid_url_prefix _ H) as [Hp | Hp]; cbn in Hp;
    try discriminate; injection Hp as H1 H2 H3 H4 _; cbn;
    now rewrite H1, H2, H3, H4.
Qed.

(** X2. An input that, once stripped of the surrounding whitespace, does not
    start with the four letters [http], in either case, is answered with
    the message for an invalid URL and exit code 1, and [requests.get] is
    not called. So it is for the empty input, for a host without scheme and
    for a URL with another scheme. *)
Theorem input_without_http_is_rejected
    (network : string -> result Response) (fromstring : string -> result node)
    (bracketed_host_ok : string -> bool) (self : Worker) (typed : string) :
  Str.lower (Str.take 4 (Str.strip Str.isspace typed)) <> "http"%string ->
  do_work network fromstring bracketed_host_ok self typed
  = (Ok (Message invalid_url_message, 1), []).
Proof.
  intros Hhttp. unfold do_work, _get_valid_user_url.
  destruct (_is_valid_url _) eqn:Hvalid; [| reflexivity].
  now apply valid_url_starts_with_http in Hvalid.
Qed.

Lemma input_without_http_is_rejected_witness :
  do_work (fun _ => Raise ConnectionError) (fun _ => Raise ParserError)
    no_bracketed_host new_worker "  ftp://example.com/index.html "
  = (Ok (Message invalid_url_message, 1), []) /\
  do_work (fun _ => Raise ConnectionError) (fun _ => Raise ParserError)
    no_bracketed_host new_worker "example.com"
  = (Ok (Message invalid_url_message, 1), []) /\
  do_work (fun _ => Raise ConnectionError) (fun _ => Raise ParserError)
    no_bracketed_host new_worker EmptyString
  = (Ok (Message invalid_url_message, 1), []).
Proof.
  split; [| split].
  - apply (input_without_http_is_rejected
             (fun _ => Raise ConnectionError) (fun _ => Raise ParserError)
             no_bracketed_host new_worker "  ftp://example.com/index.html ");
      vm_compute; discriminate.
  - apply (input_without_http_is_rejected
             (fun _ => Raise ConnectionError) (fun _ => Raise ParserError)
             no_bracketed_host new_worker "example.com");
      vm_compute; discriminate.
  - apply (input_without_http_is_rejected
             (fun _ => Raise ConnectionError) (fun _ => Raise ParserError)
             no_bracketed_host new_worker EmptyString);
      vm_compute; discriminate.
Defined.

(** X3. When a run ends with a report, the exit code is 0, [requests.get]
    was called exactly once, with the stripped input, and the protocol and
    the domain name of the report are the scheme and the network location
    that [urlsplit] reads from the stripped input. When that input starts
    with [http://] or [https://], in either case of these letters, the
    protocol is [http] or [https] in lower case and the domain name is not
    empty. *)
Theorem report_has_protocol_and_domain
    (network : string -> result Response) (fromstring : string -> result node)
    (bracketed_host_ok : string -> bool) (self : Worker) (typed : string)
    (out : Output) (code : Z) (gets : list string) :
  do_work network fromstring bracketed_host_ok self typed
  = (Ok (JsonDump out, code), gets) ->
  code = 0 /\ gets = [Str.strip Str.isspace typed] /\
  exists components,
    urlsplit bracketed_host_ok (Str.strip Str.isspace typed) EmptyString
    = Ok components /\
    protocol out = scheme components /\ domain_name out = netloc components /\
    (Str.lower (Str.take 7 (Str.strip Str.isspace typed)) = "http://"%string \/
     Str.lower (Str.take 8 (Str.strip Str.isspace typed)) = "https://"%string ->
     (protocol out = "http"%string \/ protocol out = "https"%string) /\
     nonempty (domain_name out) = true).
Proof.
  intros Hrun.
  pose proof (do_work_gets network fromstring bracketed_host_ok self typed)
    as Hgets.
  rewrite Hrun in Hgets. cbn [snd] in Hgets.
  unfold do_work in Hrun.
  destruct (_get_valid_user_url bracketed_host_ok self typed)
    as [[[] w1] | e] eqn:Hvalid; try discriminate.
  pose proof (get_valid_user_url_validated _ _ _ _ Hvalid) as Hbase.
  apply validated_base_absolute in Hbase as (b & Hb & Hscheme & Hnetloc).
  unfold _get_valid_user_url in Hvalid.
  destruct (_is_valid_url _) eqn:Haccepted; [| discriminate].
  destruct (urlsplit bracketed_host_ok (Str.strip Str.isspace typed) _)
    as [c | e] eqn:Hc; [| discriminate].
  cbn [mbind result_bind] in Hvalid. injection Hvalid as <-.
  cbn [url] in Hb. rewrite Hc in Hb. injection Hb as <-.
  destruct (_get_page_source network _ []) as [[[[] w2] | e] gets2] eqn:Hget;
    try discriminate.
  match type of Hget with
  | _get_page_source _ ?w1 _ = _ =>
      pose proof (get_page_source_frame network w1 w2 [] true) as Hframe2
  end.
  rewrite Hget in Hframe2. destruct (Hframe2 eq_refl) as [_ Hc2].
  cbn [url_components] in Hc2.
  destruct (_parse_page_source fromstring w2) as [[[] w3] | e] eqn:Hparse;
    try discriminate.
  destruct (parse_page_source_frame _ _ _ Hparse) as (_ & Hc3 & _).
  destruct (_ensure_img_abs_urls bracketed_host_ok w3) as [w4 | e] eqn:Hensure;
    [| discriminate].
  destruct (ensure_img_abs_urls_frame _ _ _ Hensure) as (_ & Hc4 & _).
  injection Hrun as <- <- <-. cbn [output _generate_output protocol domain_name].
  rewrite Hc4, Hc3, Hc2.
  split; [reflexivity |]. split; [exact Hgets |].
  exists c. split; [reflexivity |]. split; [reflexivity |].
  split; [reflexivity |]. intros _. split; assumption.
Qed.

Lemma report_has_protocol_and_domain_witness :
  ("https"%string = "http"%string \/ "https"%string = "https"%string) /\
  nonempty "Example.com" = true.
Proof.
  destruct (report_has_protocol_and_domain
              (fun _ => Ok html_response) (fun _ => Ok example_page)
              no_bracketed_host new_worker " HTTPS://Example.com/a "
              {| domain_name := "Example.com"; protocol := "https";
                 out_title := Some "Example"%string;
                 image := ["https://Example.com/img/a.png"%string];
                 out_stylesheets := 0 |} 0 ["HTTPS://Example.com/a"%string])
    as (_ & _ & components & _ & _ & _ & Hhttp).
  - vm_compute. reflexivity.
  - apply Hhttp. right. vm_compute. reflexivity.
Defined.

(** The run on an accepted input whose page is fetched and parsed. *)
Lemma do_work_success_path
    (network : string -> result Response) (fromstring : string -> result node)
    (bracketed_host_ok : string -> bool) (self : Worker) (typed : string)
    (components : SplitResult) (response : Response) (content_type : string)
    (root : node) :
  _is_valid_url (Str.strip Str.isspace typed) = true ->
  urlsplit bracketed_host_ok (Str.strip Str.isspace typed) EmptyString
  = Ok components ->
  network (Str.strip Str.isspace typed) = Ok response ->
  status_code response < 400 \/ 600 <= status_code response ->
  headers response !! "content-type"%string = Some content_type ->
  Str.contains "text/html" content_type = true ->
  fromstring (content response) = Ok root ->
  do_work network fromstring bracketed_host_ok self typed
  = (images ←
       map_result
         (fun ref =>
            c ← urlsplit bracketed_host_ok ref EmptyString;
            if nonempty (scheme c) && nonempty (netloc c) then Ok ref
            else urljoin bracketed_host_ok (Str.strip Str.isspace typed) ref)
         (xpath_body_img_src root);
     Ok (JsonDump
           {| domain_name := netloc components;
              protocol := scheme components;
              out_title := match xpath_head_title root with
                           | first :: _ => text first
                           | [] => Some EmptyString
                           end;
              image := images;
              out_stylesheets := len (xpath_stylesheet_links root) |}, 0),
     [Str.strip Str.isspace typed]).
Proof.
  intros Hvalid Hsplit Hnet Hstatus Htype Hhtml Hparse.
  unfold do_work, _get_valid_user_url. rewrite Hvalid, Hsplit.
  cbn [mbind result_bind].
  unfold _get_page_source, requests_get. cbn [url app]. rewrite Hnet.
  cbn [mbind result_bind]. unfold raise_for_status.
  replace ((400 <=? status_code response) && (status_code response <? 600))
    with false by (symmetry; apply andb_false_iff; lia).
  cbn [mbind result_bind]. unfold headers_getitem.
  change (Str.lower "content-type") with "content-type"%string.
  rewrite Htype. cbn [mbind result_bind]. rewrite Hhtml.
  unfold _parse_page_source. cbn [page_source]. rewrite Hparse.
  unfold _ensure_img_abs_urls. cbn [images image_urls url].
  unfold len. rewrite Nat2Z.id.
  pose proof (ensure_loop_is_map bracketed_host_ok
                (Str.strip Str.isspace typed) (xpath_body_img_src root) [])
    as Hloop.
  cbn [List.length app] in Hloop. rewrite Hloop.
  change (spec_normalize_ref bracketed_host_ok (Str.strip Str.isspace typed))
    with (fun ref =>
            c ← urlsplit bracketed_host_ok ref EmptyString;
            if nonempty (scheme c) && nonempty (netloc c) then Ok ref
            else urljoin bracketed_host_ok (Str.strip Str.isspace typed) ref).
  destruct (map_result _ _) as [images | e]; reflexivity.
Qed.

(** X4. On an accepted input whose page is fetched with a status that
    is no error and a content type that contains [text/html], and is
    parsed, the run ends with exit code 0 and the report made of the network
    location and scheme of the input, the title, the image references
    normalized against the input in document order, and the number of
    stylesheet links; it raises where the normalization of a reference
    raises. Exactly one request is issued. *)
Theorem report_of_fetched_page
    (network : string -> result Response) (fromstring : string -> result node)
    (bracketed_host_ok : string -> bool) (self : Worker) (typed : string)
    (components : SplitResult) (response : Response) (content_type : string)
    (root : node) :
  _is_valid_url (Str.strip Str.isspace typed) = true ->
  urlsplit bracketed_host_ok (Str.strip Str.isspace typed) EmptyString
  = Ok components ->
  network (Str.strip Str.isspace typed) = Ok response ->
  status_code response < 400 \/ 600 <= status_code response ->
  headers response !! "content-type"%string = Some content_type ->
  Str.contains "text/html" content_type = true ->
  fromstring (content response) = Ok root ->
  do_work network fromstring bracketed_host_ok self typed
  = (images ←
       map_result
         (fun ref =>
            c ← urlsplit bracketed_host_ok ref EmptyString;
            if nonempty (scheme c) && nonempty (netloc c) then Ok ref
            else urljoin bracketed_host_ok (Str.strip Str.isspace typed) ref)
         (xpath_body_img_src root);
     Ok (JsonDump
           {| domain_name := netloc components;
              protocol := scheme components;
              out_title := match xpath_head_title root with
                           | first :: _ => text first
                           | [] => Some EmptyString
                           end;
              image := images;
              out_stylesheets := len (xpath_stylesheet_links root) |}, 0),
     [Str.strip Str.isspace typed]).
Proof. exact (do_work_success_path network fromstring bracketed_host_ok self typed
                components response content_type root). Qed.

Lemma report_of_fetched_page_witness :
  do_work (fun _ => Ok html_response) (fun _ => Ok example_page)
    no_bracketed_host new_worker "https://example.com/docs/index.html"
  = (Ok (JsonDump
           {| domain_name := "example.com"; protocol := "https";
              out_title := Some "Example"%string;
              image := ["https://example.com/docs/img/a.png"%string];
              out_stylesheets := 0 |}, 0),
     ["https://example.com/docs/index.html"%string]).
Proof.
  rewrite (report_of_fetched_page (fun _ => Ok html_response)
             (fun _ => Ok example_page) no_bracketed_host new_worker
             "https://example.com/docs/index.html"
             {| scheme := "https"; netloc := "example.com";
                path := "/docs/index.html"; query := EmptyString;
                fragment := EmptyString |}
             html_response "text/html; charset=utf-8" example_page).
  - vm_compute. reflexivity.
  - vm_compute. reflexivity.
  - vm_compute. reflexivity.
  - reflexivity.
  - left. cbn. lia.
  - vm_compute. reflexivity.
  - vm_compute. reflexivity.
  - reflexivity.
Defined.

(** **** What [urlsplit] and [urljoin] raise *)

Lemma check_netloc_brackets_raises (bracketed_host_ok : string -> bool)
    (netloc : string) (e : exc_class) :
  check_netloc_brackets bracketed_host_ok netloc = Raise e -> e = ValueError.
Proof.
  unfold check_netloc_brackets, _check_bracketed_netloc.
  repeat case_match; congruence.
Qed.

Lemma urlsplit_raises (bracketed_host_ok : string -> bool)
    (url default : string) (e : exc_class) :
  urlsplit bracketed_host_ok url default = Raise e -> e = ValueError.
Proof.
  rewrite urlsplit_stages. unfold split_after_scheme.
  destruct (String.eqb _ "//").
  - destruct (_splitnetloc _ 2) as [n u].
    destruct (check_netloc_brackets bracketed_host_ok n) as [[] | e'] eqn:Hn;
      cbn [mbind result_bind].
    + repeat case_match; discriminate.
    + intros [= <-]. exact (check_netloc_brackets_raises _ _ _ Hn).
  - cbn [mbind result_bind]. repeat case_match; discriminate.
Qed.

Lemma urlparse_raises (bracketed_host_ok : string -> bool)
    (url default : string) (e : exc_class) :
  urlparse bracketed_host_ok url default = Raise e -> e = ValueError.
Proof.
  unfold urlparse.
  destruct (urlsplit bracketed_host_ok url default) as [r | e'] eqn:Hr; cbn.
  - repeat case_match; discriminate.
  - intros [= <-]. exact (urlsplit_raises _ _ _ _ Hr).
Qed.

Lemma urljoin_raises (bracketed_host_ok : string -> bool)
    (base url : string) (e : exc_class) :
  urljoin bracketed_host_ok base url = Raise e -> e = ValueError.
Proof.
  unfold urljoin.
  destruct (negb (nonempty base)); [discriminate |].
  destruct (negb (nonempty url)); [discriminate |].
  destruct (urlparse bracketed_host_ok base EmptyString) as [b | e'] eqn:Hb;
    cbn [mbind result_bind];
    [| intros [= <-]; exact (urlparse_raises _ _ _ _ Hb)].
  destruct (urlparse bracketed_host_ok url (p_scheme b)) as [u | e'] eqn:Hu;
    cbn [mbind result_bind];
    [| intros [= <-]; exact (urlparse_raises _ _ _ _ Hu)].
  repeat case_match; discriminate.
Qed.

Lemma map_result_raises {A B} (f : A -> result B) (l : list A) (a : A)
    (e : exc_class) :
  In a l -> f a = Raise e ->
  exists a' e', In a' l /\ f a' = Raise e' /\ map_result f l = Raise e'.
Proof.
  induction l as [| x l IH]; intros Hin Ha; [contradiction |].
  cbn [map_result].
  destruct (f x) as [b | e'] eqn:Hx.
  - destruct Hin as [-> | Hin]; [congruence |].
    destruct (IH Hin Ha) as (a' & e' & Hin' & Ha' & Hmap).
    exists a', e'. rewrite Hmap. split; [now right | auto].
  - exists x, e'. split; [now left | auto].
Qed.

(** X5. One image reference that [urlsplit] refuses aborts the run: when
    the page is fetched and parsed and some image reference of its body
    makes [urlsplit] raise, [do_work] raises [ValueError] after its one
    request, and returns no report. *)
Theorem malformed_image_reference_aborts
    (network : string -> result Response) (fromstring : string -> result node)
    (bracketed_host_ok : string -> bool) (self : Worker) (typed : string)
    (components : SplitResult) (response : Response) (content_type : string)
    (root : node) (ref : string) (e : exc_class) :
  _is_valid_url (Str.strip Str.isspace typed) = true ->
  urlsplit bracketed_host_ok (Str.strip Str.isspace typed) EmptyString
  = Ok components ->
  network (Str.strip Str.isspace typed) = Ok response ->
  status_code response < 400 \/ 600 <= status_code response ->
  headers response !! "content-type"%string = Some content_type ->
  Str.contains "text/html" content_type = true ->
  fromstring (content response) = Ok root ->
  In ref (xpath_body_img_src root) ->
  urlsplit bracketed_host_ok ref EmptyString = Raise e ->
  do_work network fromstring bracketed_host_ok self typed
  = (Raise ValueError, [Str.strip Str.isspace typed]).
Proof.
  intros Hvalid Hsplit Hnet Hstatus Htype Hhtml Hparse Hin Href.
  rewrite (do_work_success_path network fromstring bracketed_host_ok self typed
             components response content_type root Hvalid Hsplit Hnet Hstatus
             Htype Hhtml Hparse).
  match goal with
  | |- context [map_result ?f _] =>
      destruct (map_result_raises f (xpath_body_img_src root) ref e Hin)
        as (ref' & e' & _ & Href' & ->)
  end.
  { cbn beta. now rewrite Href. }
  cbn [mbind result_bind]. f_equal. f_equal. cbn beta in Href'.
  destruct (urlsplit bracketed_host_ok ref' EmptyString) as [c | e0] eqn:Hc;
    cbn [mbind result_bind] in Href'.
  - destruct (nonempty (scheme c) && nonempty (netloc c)); [discriminate |].
    exact (urljoin_raises _ _ _ _ Href').
  - injection Href' as <-. exact (urlsplit_raises _ _ _ _ Hc).
Qed.

Lemma malformed_image_reference_aborts_witness :
  do_work (fun _ => Ok html_response) (fun _ => Ok broken_image_page)
    no_bracketed_host new_worker "https://example.com"
  = (Raise ValueError, ["https://example.com"%string]).
Proof.
  refine (malformed_image_reference_aborts (fun _ => Ok html_response)
            (fun _ => Ok broken_image_page) no_bracketed_host new_worker
            "https://example.com"
            {| scheme := "https"; netloc := "example.com";
               path := EmptyString; query := EmptyString;
               fragment := EmptyString |}
            html_response "text/html; charset=utf-8" broken_image_page
            "//[cdn/b.png" ValueError _ _ _ _ _ _ _ _ _).
  - vm_compute. reflexivity.
  - vm_compute. reflexivity.
  - reflexivity.
  - left. cbn. lia.
  - vm_compute. reflexivity.
  - vm_compute. reflexivity.
  - reflexivity.
  - vm_compute. right. left. reflexivity.
  - vm_compute. reflexivity.
Defined.

(** **** Whitespace around the input *)

Lemma lstrip_all (p : ascii -> bool) (a : string) :
  Str.forallb p a = true -> Str.lstrip p a = EmptyString.
Proof.
  induction a as [| c a IH]; [reflexivity |]. cbn.
  intros H. apply andb_prop in H as [-> H]. now apply IH.
Qed.

Lemma rstrip_all (p : ascii -> bool) (a : string) :
  Str.forallb p a = true -> Str.rstrip p a = EmptyString.
Proof.
  induction a as [| c a IH]; [reflexivity |]. cbn.
  intros H. apply andb_prop in H as [-> H]. now rewrite IH.
Qed.

Lemma lstrip_app_pad (p : ascii -> bool) (a s : string) :
  Str.forallb p a = true -> Str.lstrip p (a +:+ s) = Str.lstrip p s.
Proof.
  induction a as [| c a IH]; [reflexivity |]. cbn [Str.forallb].
  intros H. apply andb_prop in H as [Hc H].
  rewrite str_app_cons. cbn [Str.lstrip]. rewrite Hc. now apply IH.
Qed.

Lemma rstrip_app_pad (p : ascii -> bool) (s b : string) :
  Str.forallb p b = true -> Str.rstrip p (s +:+ b) = Str.rstrip p s.
Proof.
  intros Hb. induction s as [| c s IH].
  - rewrite str_app_nil_l. now apply rstrip_all.
  - rewrite str_app_cons. cbn [Str.rstrip]. now rewrite IH.
Qed.

Lemma strip_pad (p : ascii -> bool) (a s b : string) :
  Str.forallb p a = true -> Str.forallb p b = true ->
  Str.strip p (a +:+ s +:+ b) = Str.strip p s.
Proof.
  intros Ha Hb. unfold Str.strip. rewrite (lstrip_app_pad p a _ Ha).
  induction s as [| c s IH].
  - rewrite str_app_nil_l, (lstrip_all p b Hb). reflexivity.
  - rewrite str_app_cons. cbn [Str.lstrip].
    destruct (p c); [exact IH |].
    rewrite <- str_app_cons. now apply rstrip_app_pad.
Qed.

(** X6. Whitespace around the typed line is ignored: a run on an input with
    whitespace added before and after it is the run on the input itself. *)
Theorem surrounding_whitespace_is_ignored
    (network : string -> result Response) (fromstring : string -> result node)
    (bracketed_host_ok : string -> bool) (self : Worker)
    (before typed after : string) :
  Str.forallb Str.isspace before = true ->
  Str.forallb Str.isspace after = true ->
  do_work network fromstring bracketed_host_ok self (before +:+ typed +:+ after)
  = do_work network fromstring bracketed_host_ok self typed.
Proof.
  intros Hbefore Hafter. unfold do_work, _get_valid_user_url.
  now rewrite (strip_pad Str.isspace before typed after Hbefore Hafter).
Qed.

Lemma surrounding_whitespace_is_ignored_witness :
  do_work (fun _ => Ok html_response) (fun _ => Ok example_page)
    no_bracketed_host new_worker
    (String "009" " " +:+ "https://example.com" +:+ String " " (String "010" EmptyString))
  = do_work (fun _ => Ok html_response) (fun _ => Ok example_page)
      no_bracketed_host new_worker "https://example.com".
Proof.
  exact (surrounding_whitespace_is_ignored (fun _ => Ok html_response)
           (fun _ => Ok example_page) no_bracketed_host new_worker
           (String "009" " ") "https://example.com"
           (String " " (String "010" EmptyString)) eq_refl eq_refl).
Defined.

(** X7. An input that the validator accepts and [urlsplit] refuses ends the
    run with [ValueError], before any request. *)
Theorem accepted_url_refused_by_urlsplit
    (network : string -> result Response) (fromstring : string -> result node)
    (bracketed_host_ok : string -> bool) (self : Worker) (typed : string)
    (e : exc_class) :
  _is_valid_url (Str.strip Str.isspace typed) = true ->
  urlsplit bracketed_host_ok (Str.strip Str.isspace typed) EmptyString = Raise e ->
  do_work network fromstring bracketed_host_ok self typed
  = (Raise ValueError, []).
Proof.
  intros Hvalid Hsplit. unfold do_work, _get_valid_user_url.
  rewrite Hvalid, Hsplit. cbn [mbind result_bind].
  now rewrite (urlsplit_raises _ _ _ _ Hsplit).
Qed.

Lemma accepted_url_refused_by_urlsplit_witness :
  do_work (fun _ => Ok html_response) (fun _ => Ok example_page)
    no_bracketed_host new_worker "http://user:[@example.com"
  = (Raise ValueError, []).
Proof.
  refine (accepted_url_refused_by_urlsplit (fun _ => Ok html_response)
            (fun _ => Ok example_page) no_bracketed_host new_worker
            "http://user:[@example.com" ValueError _ _);
    vm_compute; reflexivity.
Defined.

(** X8. What a run makes of an exception, on an accepted input. Of the
    exceptions that the GET raises, [HTTPError] alone gives the message for
    an invalid page; of those that the parser raises, [LxmlError] and its
    subclass [ParserError] alone do; every other exception leaves [do_work]
    as it was raised. A response whose content type lacks [text/html]
    gives the message, whatever the parser would do. In each case the one
    request has been issued. *)
Theorem failure_outcomes
    (network : string -> result Response) (fromstring : string -> result node)
    (bracketed_host_ok : string -> bool) (self : Worker) (typed : string)
    (components : SplitResult) :
  _is_valid_url (Str.strip Str.isspace typed) = true ->
  urlsplit bracketed_host_ok (Str.strip Str.isspace typed) EmptyString
  = Ok components ->
  (forall e,
     network (Str.strip Str.isspace typed) = Raise e ->
     do_work network fromstring bracketed_host_ok self typed
     = (if bool_decide (e = HTTPError)
        then Ok (Message invalid_page_message, 1) else Raise e,
        [Str.strip Str.isspace typed])) /\
  (forall response content_type,
     network (Str.strip Str.isspace typed) = Ok response ->
     status_code response < 400 \/ 600 <= status_code response ->
     headers response !! "content-type"%string = Some content_type ->
     (Str.contains "text/html" content_type = false ->
      do_work network fromstring bracketed_host_ok self typed
      = (Ok (Message invalid_page_message, 1), [Str.strip Str.isspace typed])) /\
     (forall e,
        Str.contains "text/html" content_type = true ->
        fromstring (content response) = Raise e ->
        do_work network fromstring bracketed_host_ok self typed
        = (if bool_decide (e = LxmlError \/ e = ParserError)
           then Ok (Message invalid_page_message, 1) else Raise e,
           [Str.strip Str.isspace typed]))).
Proof.
  intros Hvalid Hsplit. split.
  - intros e Hnet. unfold do_work, _get_valid_user_url.
    rewrite Hvalid, Hsplit. cbn [mbind result_bind].
    unfold _get_page_source, requests_get. cbn [url app]. rewrite Hnet.
    cbn [mbind result_bind]. destruct e; reflexivity.
  - intros response content_type Hnet Hstatus Htype.
    assert (Hget : forall w,
      url w = Str.strip Str.isspace typed ->
      _get_page_source network w []
      = (if Str.contains "text/html" content_type then
           Ok (true, {| url := url w; url_components := url_components w;
                        page_source := content response; title := title w;
                        stylesheets := stylesheets w;
                        image_urls := image_urls w; images := images w;
                        output := output w |})
         else Ok (false, w), [Str.strip Str.isspace typed])).
    { intros w Hw. unfold _get_page_source, requests_get. rewrite Hw, Hnet.
      cbn [mbind result_bind app]. unfold raise_for_status.
      replace ((400 <=? status_code response) && (status_code response <? 600))
        with false by (symmetry; apply andb_false_iff; lia).
      cbn [mbind result_bind]. unfold headers_getitem.
      change (Str.lower "content-type") with "content-type"%string.
      rewrite Htype. cbn [mbind result_bind].
      now destruct (Str.contains _ _). }
    split.
    + intros Hhtml. unfold do_work, _get_valid_user_url.
      rewrite Hvalid, Hsplit. cbn [mbind result_bind].
      rewrite Hget by reflexivity. now rewrite Hhtml.
    + intros e Hhtml Hparse. unfold do_work, _get_valid_user_url.
      rewrite Hvalid, Hsplit. cbn [mbind result_bind].
      rewrite Hget by reflexivity. rewrite Hhtml.
      unfold _parse_page_source. cbn [page_source]. rewrite Hparse.
      destruct e; reflexivity.
Qed.

Lemma failure_outcomes_witness :
  do_work (fun _ => Raise Timeout) (fun _ => Ok example_page)
    no_bracketed_host new_worker "https://example.com"
  = (Raise Timeout, ["https://example.com"%string]).
Proof.
  refine (proj1 (failure_outcomes (fun _ => Raise Timeout)
                   (fun _ => Ok example_page) no_bracketed_host new_worker
                   "https://example.com"
                   {| scheme := "https"; netloc := "example.com";
                      path := EmptyString; query := EmptyString;
                      fragment := EmptyString |} _ _) Timeout eq_refl);
    vm_compute; reflexivity.
Defined.

(** ** One.py: more on the validator *)

(** *** The length of what follows the scheme *)






(** *** The port and the path *)











(** *** The digits of a port *)






(** ** Two.py: the ECB data *)

(** *** The URL of the query *)

















(** *** The chunks of a body *)








(** *** The monthly rate *)






